(** * telegram-vreddit-bot: the download worker and the MQTT helper module

    A shallow embedding of [cancer/command/download.py] and [cancer/mqtt.py].
    Python values are modelled directly ([str] as [string], [int] as [Z]),
    exceptions as an explicit outcome, and the outside world (the file
    system under the storage root and the calls made to yt-dlp, ffmpeg and
    the Telegram client) as an explicit state threaded through every
    function. *)

From Stdlib Require Import String Ascii List ZArith NArith Lia Bool.
Import ListNotations.

Local Open Scope list_scope.
Local Open Scope Z_scope.

Notation "a +++ b" := (String.append a b) (at level 60, right associativity).

(** ** Python [str] operations used by the sources *)

Module Str.

Fixpoint startswith (s pre : string) : bool :=
  match pre, s with
  | EmptyString, _ => true
  | String a pre', String b s' => Ascii.eqb a b && startswith s' pre'
  | String _ _, EmptyString => false
  end.

(** [s.endswith(c)] for a one-character suffix. *)
Fixpoint endswith (s : string) (c : ascii) : bool :=
  match s with
  | EmptyString => false
  | String a EmptyString => Ascii.eqb a c
  | String _ r => endswith r c
  end.

(** [s.rfind(c)]: the highest index of [c], or -1. *)
Fixpoint rfind (s : string) (c : ascii) : Z :=
  match s with
  | EmptyString => -1
  | String a r =>
      let i := rfind r c in
      if 0 <=? i then i + 1 else if Ascii.eqb a c then 0 else -1
  end.

Fixpoint take (n : nat) (s : string) : string :=
  match n, s with
  | S n', String a r => String a (take n' r)
  | _, _ => EmptyString
  end.

Fixpoint drop (n : nat) (s : string) : string :=
  match n, s with
  | S n', String _ r => drop n' r
  | _, _ => s
  end.

(** [s[i:j]], [s[:j]] and [s[i:]] for indices that are not negative. *)
Definition slice (s : string) (i j : Z) : string :=
  take (Z.to_nat (j - i)) (drop (Z.to_nat i) s).
Definition slice_to (s : string) (j : Z) : string := take (Z.to_nat j) s.
Definition slice_from (s : string) (i : Z) : string := drop (Z.to_nat i) s.

Fixpoint contains (s : string) (c : ascii) : bool :=
  match s with
  | EmptyString => false
  | String a r => Ascii.eqb a c || contains r c
  end.

(** [s[len(pre):]] when [s.startswith(pre)]. *)
Fixpoint strip_prefix (s pre : string) : option string :=
  match pre, s with
  | EmptyString, _ => Some s
  | String a pre', String b s' =>
      if Ascii.eqb a b then strip_prefix s' pre' else None
  | String _ _, EmptyString => None
  end.

End Str.

(** ** [os.path] (posixpath) *)

Module OsPath.

Definition sep : ascii := "/"%char.
Definition extsep : ascii := "."%char.

(** [os.path.join(a, b)]. *)
Definition join (a b : string) : string :=
  if Str.startswith b "/" then b
  else if (a =? "")%string || Str.endswith a sep then a +++ b
  else a +++ "/" +++ b.

(** The [while filenameIndex < dotIndex] loop of [genericpath._splitext];
    [n] counts the iterations that are left. *)
Fixpoint splitext_loop (p : string) (dotIndex filenameIndex : Z) (n : nat)
  : string * string :=
  match n with
  | O => (p, ""%string)
  | S n' =>
      if negb (Str.slice p filenameIndex (filenameIndex + 1) =? ".")%string
      then (Str.slice_to p dotIndex, Str.slice_from p dotIndex)
      else splitext_loop p dotIndex (filenameIndex + 1) n'
  end.

(** [os.path.splitext(p)]. *)
Definition splitext (p : string) : string * string :=
  let sepIndex := Str.rfind p sep in
  let dotIndex := Str.rfind p extsep in
  if sepIndex <? dotIndex
  then splitext_loop p dotIndex (sepIndex + 1)
         (Z.to_nat (dotIndex - (sepIndex + 1)))
  else (p, ""%string).

End OsPath.

(** ** Exceptions and outcomes *)

(** The class of an exception: one of the built-in classes the sources
    name or raise, a class that derives from none of them ([OtherError]),
    or a class declared with base classes ([Derived], as in
    [class UnicodeError(ValueError)]). *)
#[warnings="-register-all"]
Inductive ExcClass : Type :=
| ValueError
| TypeError
| KeyError
| RuntimeError
| FileExistsError
| FileNotFoundError
| OtherError (name : string)
| Derived (name : string) (bases : list ExcClass).

Record Exc : Type := mkExc { exc_class : ExcClass; exc_msg : string }.

(** [issubclass(c, ValueError)]: the class itself or a class that has it
    among its ancestors. *)
Fixpoint subclass_of_ValueError (c : ExcClass) : bool :=
  match c with
  | ValueError => true
  | Derived _ bases => existsb subclass_of_ValueError bases
  | _ => false
  end.

(** [issubclass(c, FileExistsError)]. *)
Fixpoint subclass_of_FileExistsError (c : ExcClass) : bool :=
  match c with
  | FileExistsError => true
  | Derived _ bases => existsb subclass_of_FileExistsError bases
  | _ => false
  end.

(** What [except ValueError] catches: [isinstance(e, ValueError)]. *)
Definition is_ValueError (e : Exc) : bool :=
  subclass_of_ValueError (exc_class e).

(** What [except FileExistsError] catches. *)
Definition is_FileExistsError (e : Exc) : bool :=
  subclass_of_FileExistsError (exc_class e).

(** Built-in classes below [ValueError]. *)
Definition UnicodeError : ExcClass := Derived "UnicodeError" [ValueError].
Definition UnicodeDecodeError : ExcClass :=
  Derived "UnicodeDecodeError" [UnicodeError].
Definition UnicodeEncodeError : ExcClass :=
  Derived "UnicodeEncodeError" [UnicodeError].

(** What a call does: it returns a value or raises. *)
Inductive Outcome (A : Type) : Type :=
| Return (a : A)
| Raise (e : Exc).
Arguments Return {A} a.
Arguments Raise {A} e.

(** ** Values exchanged with the collaborators *)

(** The part of the Telegram answer that [_upload_video] reads:
    [message["video"]["file_id"]]; [None] is a missing key. *)
Record TgVideo : Type := mkTgVideo { file_id : option string }.
Record TgMessage : Type := mkTgMessage { video : option TgVideo }.

(** Modelled from the spec: [Subscriber.Result] of the missing
    [cancer/port/subscriber.py]; the spec gives the closed set of results. *)
Inductive Result : Type := Ack | Nack | Requeue.

(** [DownloadMessage], with the fields [_handle_payload] reads (the same
    fields as the dataclass of [youtube_url_convert.py]). *)
Record DownloadMessage : Type := mkDownloadMessage {
  chat_id : Z;
  message_id : Z;
  urls : list string
}.

(** Modelled from the spec: [Topic] of the missing [cancer/message]; the two
    members are the ones [run] names. *)
Inductive Topic : Type := TopicDownload | TopicInstaDownload.

(** Parameters of a broker connection as [mqtt.py] passes them to paho. *)
Record Connection : Type := mkConnection {
  hostname : option string;
  port : Z;
  transport : option string;
  username : option string;
  password : option string
}.

(** ** The world *)

(** Every call that leaves the process, with its arguments and its result. *)
Inductive Event : Type :=
| EvMkdir (path : string)
| EvYtdl (outtmpl url : string) (return_code : Outcome Z)
| EvListdir (path : string) (names : list string)
| EvFfmpeg (input_path output_path : string) (status : Outcome Z)
| EvUploadVideo (chat path : string) (message : Outcome TgMessage)
| EvSendVideoGroup (chat reply_to : Z) (videos : list string)
    (res : Outcome unit)
| EvRmtree (path : string)
| EvTelegramCheck (res : Outcome unit)
| EvSignal
| EvSubscribe (conn : Connection) (topics : list string) (qos : Z)
| EvPublish (conn : Connection) (msgs : list (string * Z * string))
    (res : Outcome unit).

(** The paths that exist, and the calls made so far. *)
Record World : Type := mkWorld {
  fs : list string;
  log : list Event
}.

(** The collaborators and the process environment. A collaborator answers
    from its arguments and from everything that happened before. *)
Record Env : Type := mkEnv {
  (** [os.environ] *)
  environ : string -> option string;
  (** the candidate names of [tempfile], by attempt *)
  tmp_candidates : World -> nat -> string;
  (** [uuid.uuid4().int] *)
  uuid4 : World -> N;
  (** [YoutubeDL(params).download([url])]: return code, and paths written *)
  ytdl_download : string -> string -> World -> Outcome Z * list string;
  (** [subprocess.Popen(['ffmpeg', '-i', input, output]).wait()]: exit
      status, and paths written *)
  ffmpeg : string -> string -> World -> Outcome Z * list string;
  (** [telegram.upload_video(chat, path)] *)
  upload_video : string -> string -> World -> Outcome TgMessage;
  (** [telegram.send_video_group(chat_id, reply_to_message_id, videos)] *)
  send_video_group : Z -> Z -> list string -> World -> Outcome unit;
  (** [telegram.check()] *)
  telegram_check : World -> Outcome unit;
  (** paho's [publish.multiple(msgs, hostname, port, transport, auth,
      tls)] *)
  publish_multiple :
    list (string * Z * string) -> Connection -> World -> Outcome unit;
  (** the order in which the file system lists a directory: the rank of
      each entry name, entries being listed by rising rank *)
  listdir_rank : string -> World -> string -> N
}.

(** ** The monad of the embedding: state and exceptions *)

Definition M (A : Type) : Type := World -> Outcome A * World.

Definition ret {A} (a : A) : M A := fun w => (Return a, w).

Definition raise {A} (e : Exc) : M A := fun w => (Raise e, w).

Definition bind {A B} (m : M A) (k : A -> M B) : M B :=
  fun w =>
    match m w with
    | (Return a, w') => k a w'
    | (Raise e, w') => (Raise e, w')
    end.

Notation "x <- m ;; k" := (bind m (fun x => k))
  (at level 61, m at next level, right associativity).
Notation "m ;; k" := (bind m (fun _ => k))
  (at level 61, right associativity).

Definition emit (ev : Event) : M unit :=
  fun w => (Return tt, mkWorld (fs w) (log w ++ [ev])).

(** [[y for x in xs for y in f(x)]]: the calls are made in list order. *)
Fixpoint flat_mapM {A B} (f : A -> M (list B)) (xs : list A) : M (list B) :=
  match xs with
  | [] => ret []
  | x :: xs' =>
      ys <- f x ;;
      rest <- flat_mapM f xs' ;;
      ret (ys ++ rest)
  end.

(** [[f(x) for x in xs]]. *)
Fixpoint mapM {A B} (f : A -> M B) (xs : list A) : M (list B) :=
  match xs with
  | [] => ret []
  | x :: xs' =>
      y <- f x ;;
      rest <- mapM f xs' ;;
      ret (y :: rest)
  end.

(** ** The file system, as the sources use it *)

(** The world lists the paths that exist, each as the string under which it
    was made or written, and paths are compared as strings. This is exact
    for paths written alike in plain form (see [plain] below), which is how
    the sources build theirs from the storage root: [os.path.join] of a
    folder and a name. *)
Module Os.

Definition exists_ (p : string) (w : World) : bool :=
  existsb (String.eqb p) (fs w).

Definition write_path (paths : list string) (p : string) : list string :=
  if existsb (String.eqb p) paths then paths else paths ++ [p].

Definition write_paths (paths written : list string) : list string :=
  fold_left write_path written paths.

Fixpoint all_sep (s : string) : bool :=
  match s with
  | EmptyString => true
  | String a r => Ascii.eqb a OsPath.sep && all_sep r
  end.

(** [s.rstrip('/')]. *)
Fixpoint rstrip_sep (s : string) : string :=
  match s with
  | EmptyString => EmptyString
  | String a r =>
      let r' := rstrip_sep r in
      if (r' =? "")%string && Ascii.eqb a OsPath.sep then EmptyString
      else String a r'
  end.

(** [os.path.dirname(p)]. *)
Definition dirname (p : string) : string :=
  let i := Str.rfind p OsPath.sep + 1 in
  let head := Str.slice_to p i in
  if negb (head =? "")%string && negb (all_sep head)
  then rstrip_sep head else head.

(** The directory in which [p] is made exists: the working directory, the
    root, or a path of the world. *)
Definition parent_exists (p : string) (w : World) : bool :=
  let d := dirname p in
  (d =? "")%string || all_sep d || exists_ d w.

(** [os.mkdir(p)]; the empty path names nothing. *)
Definition mkdir (p : string) : M unit :=
  fun w =>
    if (p =? "")%string then (Raise (mkExc FileNotFoundError p), w)
    else if exists_ p w then (Raise (mkExc FileExistsError p), w)
    else if negb (parent_exists p w)
    then (Raise (mkExc FileNotFoundError p), w)
    else (Return tt, mkWorld (fs w ++ [p]) (log w ++ [EvMkdir p])).

(** [p.split('/')]. *)
Fixpoint split_sep (p : string) : list string :=
  match p with
  | EmptyString => [EmptyString]
  | String c r =>
      let parts := split_sep r in
      if Ascii.eqb c OsPath.sep then EmptyString :: parts
      else match parts with
           | first :: rest => String c first :: rest
           | [] => [String c EmptyString]
           end
  end.

(** A component that names an entry of its directory. *)
Definition proper_name (name : string) : bool :=
  negb ((name =? "") || (name =? ".") || (name =? ".."))%string.

(** A path written in the one form in which a string and the path it names
    determine each other: components that are proper names, single slashes
    between them and none at the end; it may start at the root. *)
Definition plain (p : string) : bool :=
  match split_sep p with
  | first :: rest =>
      let names := if (first =? "")%string then rest else first :: rest in
      negb (Nat.eqb (List.length names) 0) && forallb proper_name names
  | [] => false
  end.

(** [p] is written the way [q] is: in plain form, and from the root
    directory exactly when [q] is. Among paths written alike, two strings
    name the same path only when they are equal. *)
Definition written_like (q p : string) : bool :=
  plain p && Bool.eqb (Str.startswith p "/") (Str.startswith q "/").

(** The prefix shared by every path below the directory [d]. *)
Definition below (d : string) : string :=
  if Str.endswith d OsPath.sep then d else d +++ "/".

(** [p] is the directory [d] or a path below it. *)
Definition is_inside (d p : string) : bool :=
  (p =? d)%string || Str.startswith p (below d).

(** The name of [p] as an entry of the directory [d], if it is one. *)
Definition entry_name (d p : string) : option string :=
  match Str.strip_prefix p (below d) with
  | Some name =>
      if (name =? "")%string || Str.contains name OsPath.sep then None
      else Some name
  | None => None
  end.

Fixpoint entries (d : string) (paths : list string) : list string :=
  match paths with
  | [] => []
  | p :: rest =>
      match entry_name d p with
      | Some name => name :: entries d rest
      | None => entries d rest
      end
  end.

Fixpoint insert_by (rank : string -> N) (name : string)
    (names : list string) : list string :=
  match names with
  | [] => [name]
  | other :: rest =>
      if (rank name <=? rank other)%N then name :: names
      else other :: insert_by rank name rest
  end.

(** The names by rising rank; names of equal rank keep their order. *)
Definition order_by (rank : string -> N) (names : list string)
  : list string :=
  fold_right (insert_by rank) [] names.

(** [os.listdir(d)]: the entries of [d], in the order of the file system. *)
Definition listdir (env : Env) (d : string) : M (list string) :=
  fun w =>
    if exists_ d w
    then let names := order_by (listdir_rank env d w) (entries d (fs w)) in
         (Return names, mkWorld (fs w) (log w ++ [EvListdir d names]))
    else (Raise (mkExc FileNotFoundError d), w).

(** [shutil.rmtree(d)], as [TemporaryDirectory.cleanup] calls it. *)
Definition rmtree (d : string) (w : World) : World :=
  mkWorld (filter (fun p => negb (is_inside d p)) (fs w))
          (log w ++ [EvRmtree d]).

End Os.

(** ** [str(uuid.uuid4())] *)

Module Uuid.

Definition hex_digit (d : N) : ascii :=
  nth (N.to_nat d) (list_ascii_of_string "0123456789abcdef") "0"%char.

(** ['%0kx' % n], most significant digit first. *)
Fixpoint hex (k : nat) (n : N) (acc : string) : string :=
  match k with
  | O => acc
  | S k' => hex k' (n / 16)%N (String (hex_digit (n mod 16)%N) acc)
  end.

(** [UUID.__str__]: [hex[:8]-hex[8:12]-hex[12:16]-hex[16:20]-hex[20:]]. *)
Definition str (n : N) : string :=
  let h := hex 32 n "" in
  Str.slice h 0 8 +++ "-" +++ Str.slice h 8 12 +++ "-" +++
  Str.slice h 12 16 +++ "-" +++ Str.slice h 16 20 +++ "-" +++
  Str.slice_from h 20.

End Uuid.

(** ** [cancer/command/download.py] *)

Section Download.

Variable env : Env.

(** [os.getenv(key, default)]. *)
Definition getenv (key default : string) : string :=
  match environ env key with
  | Some v => v
  | None => default
  end.

Definition _STORAGE_DIR : string := getenv "STORAGE_DIR" "downloads".
Definition _UPLOAD_CHAT : string := getenv "UPLOAD_CHAT_ID" "1259947317".

(** *** The collaborators, as calls that are logged *)

Definition YoutubeDL_download (outtmpl url : string) : M Z :=
  fun w =>
    let '(return_code, written) := ytdl_download env outtmpl url w in
    (return_code,
     mkWorld (Os.write_paths (fs w) written)
             (log w ++ [EvYtdl outtmpl url return_code])).

Definition Popen_wait (input_path output_path : string) : M Z :=
  fun w =>
    let '(status, written) := ffmpeg env input_path output_path w in
    (status,
     mkWorld (Os.write_paths (fs w) written)
             (log w ++ [EvFfmpeg input_path output_path status])).

Definition telegram_upload_video (chat path : string) : M TgMessage :=
  fun w =>
    let message := upload_video env chat path w in
    (message, mkWorld (fs w) (log w ++ [EvUploadVideo chat path message])).

Definition telegram_send_video_group (chat reply_to : Z)
    (videos : list string) : M unit :=
  fun w =>
    let res := send_video_group env chat reply_to videos w in
    (res, mkWorld (fs w) (log w ++ [EvSendVideoGroup chat reply_to videos res])).

(** [message["video"]] and [video["file_id"]]. *)
Definition getitem {A} (key : string) (field : option A) : M A :=
  match field with
  | Some v => ret v
  | None => raise (mkExc KeyError key)
  end.

(** *** [tempfile.TemporaryDirectory(dir=...)] *)

(** [tempfile.TMP_MAX], which is [os.TMP_MAX] on Linux. *)
Definition TMP_MAX : nat := N.to_nat 238328.

(** [tempfile.mkdtemp]: try candidate names until one is free. *)
Fixpoint mkdtemp_loop (dir : string) (attempts seq : nat) : M string :=
  match attempts with
  | O => raise (mkExc FileExistsError
                  "No usable temporary directory name found")
  | S attempts' =>
      fun w =>
        let file := OsPath.join dir ("tmp" +++ tmp_candidates env w seq) in
        match Os.mkdir file w with
        | (Return _, w') => (Return file, w')
        | (Raise e, w') =>
            if is_FileExistsError e
            then mkdtemp_loop dir attempts' (S seq) w'
            else (Raise e, w')
        end
  end.

Definition mkdtemp (dir : string) : M string := mkdtemp_loop dir TMP_MAX 0.

(** [with TemporaryDirectory(dir=dir) as folder: body]: the directory is
    removed when the body returns and when it raises. *)
Definition with_TemporaryDirectory {A} (dir : string) (body : string -> M A)
  : M A :=
  fun w =>
    match mkdtemp dir w with
    | (Return folder, w1) =>
        let '(outcome, w2) := body folder w1 in
        (outcome, Os.rmtree folder w2)
    | (Raise e, w1) => (Raise e, w1)
    end.

(** *** The functions of the module *)

(** Lines 25-27 of [_download_videos]: the fresh folder of one URL. *)
Definition make_cure_dir (base_folder : string) : M string :=
  fun w =>
    let cure_id := Uuid.str (uuid4 env w) in
    let cure_dir := OsPath.join base_folder cure_id in
    (Os.mkdir cure_dir ;; ret cure_dir) w.

Definition _download_videos (base_folder url : string) : M (list string) :=
  cure_dir <- make_cure_dir base_folder ;;
  return_code <- YoutubeDL_download
                   (cure_dir +++ "/output%(autonumber)d.%(ext)s") url ;;
  if negb (return_code =? 0) then ret []
  else
    cure_names <- Os.listdir env cure_dir ;;
    ret (map (OsPath.join cure_dir) cure_names).

Definition _convert_cure (input_path output_path : string) : M unit :=
  status <- Popen_wait input_path output_path ;;
  if negb (status =? 0)
  then raise (mkExc RuntimeError "Could not convert file!")
  else ret tt.

Definition _ensure_compatibility (original_path : string) : M string :=
  let '(base, ext) := OsPath.splitext original_path in
  if (ext =? ".mp4")%string then ret original_path
  else
    let converted_path := base +++ ".mp4" in
    _convert_cure original_path converted_path ;;
    ret converted_path.

Definition _upload_video (video_file : string) : M string :=
  cure_path <- _ensure_compatibility video_file ;;
  message <- telegram_upload_video _UPLOAD_CHAT cure_path ;;
  video <- getitem "video" (video message) ;;
  file_id <- getitem "file_id" (file_id video) ;;
  ret file_id.

Definition _handle_payload (payload : DownloadMessage) : M Result :=
  with_TemporaryDirectory _STORAGE_DIR (fun folder =>
    files <- flat_mapM (fun url => _download_videos folder url)
               (urls payload) ;;
    video_ids <- mapM _upload_video files ;;
    telegram_send_video_group (chat_id payload) (message_id payload)
      video_ids ;;
    ret Ack).

End Download.

(** ** The [str] behind a [string] *)

(** A [string] holds the bytes of a Python [str] in UTF-8, the encoding in
    which Linux hands over the environment and takes paths. [os.environ]
    decodes with [surrogateescape]: a byte that is not part of a well-formed
    sequence becomes a lone surrogate. *)
Module Utf8.

Local Open Scope N_scope.

(** The payload of a continuation byte [10xxxxxx]. *)
Definition cont (b : N) : option N :=
  if (128 <=? b) && (b <=? 191) then Some (b - 128) else None.

(** The code points of a well-formed sequence of bytes: no overlong form,
    no surrogate, nothing above [U+10FFFF]. *)
Fixpoint decode (bs : list N) : option (list N) :=
  match bs with
  | [] => Some []
  | b1 :: r1 =>
      if b1 <? 128 then option_map (cons b1) (decode r1)
      else if (194 <=? b1) && (b1 <=? 223) then
        match r1 with
        | b2 :: r2 =>
            match cont b2 with
            | Some c2 => option_map (cons ((b1 - 192) * 64 + c2)) (decode r2)
            | None => None
            end
        | _ => None
        end
      else if (224 <=? b1) && (b1 <=? 239) then
        match r1 with
        | b2 :: b3 :: r3 =>
            match cont b2, cont b3 with
            | Some c2, Some c3 =>
                let cp := (b1 - 224) * 4096 + c2 * 64 + c3 in
                if (2048 <=? cp) && negb ((55296 <=? cp) && (cp <=? 57343))
                then option_map (cons cp) (decode r3)
                else None
            | _, _ => None
            end
        | _ => None
        end
      else if (240 <=? b1) && (b1 <=? 244) then
        match r1 with
        | b2 :: b3 :: b4 :: r4 =>
            match cont b2, cont b3, cont b4 with
            | Some c2, Some c3, Some c4 =>
                let cp := (b1 - 240) * 262144 + c2 * 4096 + c3 * 64 + c4 in
                if (65536 <=? cp) && (cp <=? 1114111)
                then option_map (cons cp) (decode r4)
                else None
            | _, _, _ => None
            end
        | _ => None
        end
      else None
  end.

Definition bytes (s : string) : list N :=
  map N_of_ascii (list_ascii_of_string s).

Definition of_bytes (bs : list N) : string :=
  string_of_list_ascii (map ascii_of_N bs).

End Utf8.

(** ** [int(s)] for a [str], in base 10 *)

(** CPython 3.11: [PyLong_FromUnicodeObject] maps the white space and the
    decimal digits of Unicode (14.0) to ASCII and [PyLong_FromString] reads
    the result. *)
Module PyInt.

Local Open Scope N_scope.

(** [Py_ISSPACE]: the white space of ASCII that [PyLong_FromString] skips. *)
Definition is_space (c : N) : bool :=
  (9 <=? c) && (c <=? 13) || (c =? 32).

(** [Py_UNICODE_ISSPACE] above ASCII. *)
Definition is_unicode_space (c : N) : bool :=
  (c =? 133) || (c =? 160) || (c =? 5760) ||
  (8192 <=? c) && (c <=? 8202) ||
  (c =? 8232) || (c =? 8233) || (c =? 8239) || (c =? 8287) || (c =? 12288).

(** The code points of the digit zero of every decimal script; the nine
    digits after each are its digits one to nine. *)
Definition decimal_zeros : list N :=
  [48; 1632; 1776; 1984; 2406; 2534; 2662; 2790; 2918; 3046; 3174;
   3302; 3430; 3558; 3664; 3792; 3872; 4160; 4240; 6112; 6160; 6470;
   6608; 6784; 6800; 6992; 7088; 7232; 7248; 42528; 43216; 43264;
   43472; 43504; 43600; 44016; 65296; 66720; 68912; 69734; 69872;
   69942; 70096; 70384; 70736; 70864; 71248; 71360; 71472; 71904;
   72016; 72784; 73040; 73120; 92768; 92864; 93008; 120782; 120792;
   120802; 120812; 120822; 123200; 123632; 125264; 130032].

(** [Py_UNICODE_TODECIMAL]. *)
Definition to_decimal (c : N) : option N :=
  match find (fun z => (z <=? c) && (c <? z + 10)) decimal_zeros with
  | Some z => Some (c - z)
  | None => None
  end.

(** [_PyUnicode_TransformDecimalAndSpaceToASCII]: code points below 127
    are kept, white space becomes a blank, a decimal digit its ASCII digit;
    any other code point cannot be part of a number. *)
Fixpoint to_ascii (s : list N) : option (list N) :=
  match s with
  | [] => Some []
  | c :: r =>
      let c' :=
        if c <? 127 then Some c
        else if is_unicode_space c then Some 32
        else option_map (N.add 48) (to_decimal c) in
      match c', to_ascii r with
      | Some a, Some r' => Some (a :: r')
      | _, _ => None
      end
  end.

Definition digit_val (c : N) : option Z :=
  if (48 <=? c) && (c <=? 57) then Some (Z.of_N (c - 48)) else None.

Fixpoint lstrip (s : list N) : list N :=
  match s with
  | c :: r => if is_space c then lstrip r else s
  | [] => []
  end.

Definition strip (s : list N) : list N :=
  rev (lstrip (rev (lstrip s))).

(** Digits, with single underscores between digits. *)
Fixpoint digits (s : list N) (acc : Z) (after_digit : bool) : option Z :=
  match s with
  | [] => if after_digit then Some acc else None
  | c :: r =>
      match digit_val c with
      | Some d => digits r (10 * acc + d)%Z true
      | None =>
          if (c =? 95) && after_digit then digits r acc false else None
      end
  end.

(** [sys.int_info.default_max_str_digits]: a literal with more digits is
    refused. The sources do not change the limit. *)
Definition max_str_digits : nat := 4300.

Definition digit_count (s : list N) : nat :=
  List.length (filter (fun c => (48 <=? c) && (c <=? 57)) s).

(** The digits after the sign. *)
Definition magnitude (s : list N) : option Z :=
  if (digit_count s <=? max_str_digits)%nat then digits s 0%Z false else None.

(** [PyLong_FromString] on the ASCII form: white space, a sign, digits,
    white space. *)
Definition from_ascii (s : list N) : option Z :=
  match strip s with
  | [] => None
  | c :: r =>
      if c =? 45 then option_map Z.opp (magnitude r)
      else if c =? 43 then magnitude r
      else magnitude (c :: r)
  end.

(** [int(s)]: the value, or [None] when [int] raises [ValueError]. *)
Definition parse (s : string) : option Z :=
  match Utf8.decode (Utf8.bytes s) with
  | Some cps =>
      match to_ascii cps with
      | Some a => from_ascii a
      | None => None
      end
  | None => None
  end.

End PyInt.

(** ** [cancer/mqtt.py] *)

(** A message class: [topic()], [serialize()] and [deserialize(payload)].
    Modelled from the spec: [cancer/message] is missing; deserialization
    returns a value or fails. *)
Record MessageType (T : Type) : Type := mkMessageType {
  topic : string;
  serialize : T -> string;
  deserialize : string -> Outcome T
}.
Arguments topic {T} _.
Arguments serialize {T} _ _.
Arguments deserialize {T} _ _.

Module Mqtt.

Section Module_.

Variable env : Env.

Definition _HOST : option string := environ env "MQTT_HOST".
Definition _PORT : option string := environ env "MQTT_PORT".
Definition _USER : option string := environ env "MQTT_USER".
Definition _PASSWORD : option string := environ env "MQTT_PASSWORD".
Definition _TRANSPORT : option string :=
  match environ env "MQTT_TRANSPORT" with
  | Some v => Some v
  | None => Some "tcp"%string
  end.

(** [not v] for a value that is [None] or a [str]. *)
Definition not_ (v : option string) : bool :=
  match v with
  | None => true
  | Some s => (s =? "")%string
  end.

(** [int(v)]. *)
Definition int (v : option string) : M Z :=
  match v with
  | None => raise (mkExc TypeError "int() argument must be a string")
  | Some s =>
      match PyInt.parse s with
      | Some n => ret n
      | None => raise (mkExc ValueError "invalid literal for int()")
      end
  end.

Definition check : M unit :=
  (if not_ _HOST then raise (mkExc ValueError "MQTT_HOST missing")
   else ret tt) ;;
  (if not_ _PORT then raise (mkExc ValueError "MQTT_PORT missing")
   else (int _PORT ;; ret tt)) ;;
  (if not_ _USER then raise (mkExc ValueError "MQTT_USER missing")
   else ret tt) ;;
  (if not_ _PASSWORD then raise (mkExc ValueError "MQTT_PASSWORD missing")
   else ret tt) ;;
  (if not_ _TRANSPORT then raise (mkExc ValueError "MQTT_TRANSPORT missing")
   else ret tt) ;;
  ret tt.

(** The keyword arguments [hostname], [port], [transport] and [auth] of both
    paho calls. *)
Definition connection (port : Z) : Connection :=
  mkConnection _HOST port _TRANSPORT _USER _PASSWORD.

Section Typed.

Context {T : Type}.
Variable message_type : MessageType T.

(** paho's [publish.multiple]: it returns when every message is published
    and raises otherwise (no message to publish, no connection). *)
Definition multiple (msgs : list (string * Z * string)) (conn : Connection)
  : M unit :=
  fun w =>
    let res := publish_multiple env msgs conn w in
    (res, mkWorld (fs w) (log w ++ [EvPublish conn msgs res])).

Definition publish_messages (messages : list T) : M unit :=
  let msgs :=
    map (fun message =>
           (topic message_type, 1, serialize message_type message))
        messages in
  port <- int _PORT ;;
  multiple msgs (connection port).

(** paho's [subscribe.callback]: connect, subscribe, and call [on_message]
    for every delivery, in order. The client is made with paho's defaults,
    under which an exception raised by the callback is raised again by the
    network loop. [deliveries] are the payloads the broker delivers. *)
Fixpoint loop_forever (on_message : string -> M unit)
    (deliveries : list string) : M unit :=
  match deliveries with
  | [] => ret tt
  | payload :: rest => on_message payload ;; loop_forever on_message rest
  end.

Definition callback (on_message : string -> M unit) (topics : list string)
    (qos : Z) (conn : Connection) (deliveries : list string) : M unit :=
  emit (EvSubscribe conn topics qos) ;;
  loop_forever on_message deliveries.

Variable handle : T -> M unit.

(** The closure [on_message] of [subscribe]. *)
Definition on_message (payload : string) : M unit :=
  fun w =>
    match deserialize message_type payload with
    | Return message => handle message w
    | Raise e => (Raise e, w)
    end.

Definition subscribe (deliveries : list string) : M unit :=
  port <- int _PORT ;;
  callback on_message [topic message_type] 1 (connection port) deliveries.

End Typed.

End Module_.

End Mqtt.

(** ** [run] of [cancer/command/download.py] *)

Section Run.

Variable env : Env.

(** The two adapters of the missing [cancer/adapter] package: what building
    a configuration from the environment and a subscriber from it do, and
    what subscribing does. *)
Variables RabbitConfig MqttConfig RabbitSubscriber MqttSubscriber : Type.
Variable RabbitConfig_from_env : M RabbitConfig.
Variable RabbitSubscriber_init : RabbitConfig -> M RabbitSubscriber.
Variable MqttConfig_from_env : M MqttConfig.
Variable MqttSubscriber_init : MqttConfig -> M MqttSubscriber.

Inductive Subscriber : Type :=
| SubRabbit (s : RabbitSubscriber)
| SubMqtt (s : MqttSubscriber).

Variable Subscriber_subscribe :
  Subscriber -> Topic -> (DownloadMessage -> M Result) -> M unit.

(** [try: body except ValueError: handler]. *)
Definition try_except_ValueError {A} (body handler : M A) : M A :=
  fun w =>
    match body w with
    | (Return a, w') => (Return a, w')
    | (Raise e, w') => if is_ValueError e then handler w' else (Raise e, w')
    end.

(** Lines 97-109 of [run]. *)
Definition prepare : M Topic :=
  (fun w =>
     let res := telegram_check env w in
     (res, mkWorld (fs w) (log w ++ [EvTelegramCheck res]))) ;;
  (fun w =>
     if negb (Os.exists_ (_STORAGE_DIR env) w)
     then Os.mkdir (_STORAGE_DIR env) w else (Return tt, w)) ;;
  emit EvSignal ;;
  let legacy_topic := environ env "MQTT_TOPIC_DOWNLOAD" in
  ret (match legacy_topic with
       | Some v =>
           if (v =? "cancer/instaDownload")%string then TopicInstaDownload
           else TopicDownload
       | None => TopicDownload
       end).

(** Lines 110-115 of [run]. *)
Definition select_subscriber : M Subscriber :=
  try_except_ValueError
    (cfg <- RabbitConfig_from_env ;;
     s <- RabbitSubscriber_init cfg ;;
     ret (SubRabbit s))
    (cfg <- MqttConfig_from_env ;;
     s <- MqttSubscriber_init cfg ;;
     ret (SubMqtt s)).

Definition run : M unit :=
  topic_ <- prepare ;;
  subscriber <- select_subscriber ;;
  Subscriber_subscribe subscriber topic_ (_handle_payload env).

End Run.

Arguments SubRabbit {RabbitSubscriber MqttSubscriber} s.
Arguments SubMqtt {RabbitSubscriber MqttSubscriber} s.
Arguments select_subscriber {RabbitConfig MqttConfig RabbitSubscriber
  MqttSubscriber} _ _ _ _.
Arguments run env {RabbitConfig MqttConfig RabbitSubscriber MqttSubscriber}
  _ _ _ _ _.

(** ** Notions used to state the properties *)


(** The handle a logged upload returned, if it returned one. *)
Definition upload_handle (ev : Event) : list string :=
  match ev with
  | EvUploadVideo _ _ (Return (mkTgMessage (Some (mkTgVideo (Some id))))) =>
      [id]
  | _ => []
  end.

Definition upload_handles (evs : list Event) : list string :=
  flat_map upload_handle evs.

(** The uploads of a log, each with its chat and its path, in the order of
    the calls. *)
Definition uploads (evs : list Event) : list (string * string) :=
  flat_map (fun ev =>
              match ev with
              | EvUploadVideo chat path _ => [(chat, path)]
              | _ => []
              end) evs.

(** The path under which a fetched file is delivered: the file itself when
    its extension is [.mp4], and the sibling with that extension, which the
    conversion writes, when it is not. *)
Definition normalized (file : string) : string :=
  let '(base, ext) := OsPath.splitext file in
  if (ext =? ".mp4")%string then file else base +++ ".mp4".

Definition is_reply (ev : Event) : bool :=
  match ev with
  | EvSendVideoGroup _ _ _ _ => true
  | _ => false
  end.

(** The event is neither an upload nor a reply. *)
Definition quiet (ev : Event) : Prop :=
  match ev with
  | EvUploadVideo _ _ _ | EvSendVideoGroup _ _ _ _ => False
  | _ => True
  end.

(** The event is not a reply, and not an upload to a chat other than the
    staging chat. *)
Definition staging (env : Env) (ev : Event) : Prop :=
  match ev with
  | EvUploadVideo chat _ _ => chat = _UPLOAD_CHAT env
  | EvSendVideoGroup _ _ _ _ => False
  | _ => True
  end.

(** What a computation leaves behind: it removes no path, and it appends to
    the log events that all satisfy [P]. *)
Definition logs {A} (m : M A) (P : Event -> Prop) : Prop :=
  forall w o w',
    m w = (o, w') ->
    incl (fs w) (fs w') /\
    exists evs, log w' = log w ++ evs /\ Forall P evs.

(** A setting of the environment that is absent or the empty string. *)
Definition missing_or_empty (v : option string) : Prop :=
  v = None \/ v = Some ""%string.

(** ** The two phases of a job *)

(** A call of the fetch step. *)
Definition fetching (ev : Event) : Prop :=
  match ev with
  | EvMkdir _ | EvYtdl _ _ _ | EvListdir _ _ => True
  | _ => False
  end.

(** A call of the normalise and upload steps. *)
Definition delivering (ev : Event) : Prop :=
  match ev with
  | EvFfmpeg _ _ _ | EvUploadVideo _ _ _ => True
  | _ => False
  end.

(** The URLs given to yt-dlp, in the order of the calls. *)
Definition ytdl_urls (evs : list Event) : list string :=
  flat_map (fun ev => match ev with EvYtdl _ url _ => [url] | _ => [] end)
    evs.

(** ** Sample data on which the definitions are run *)

Module Sample.

Local Open Scope string_scope.

Definition cure_of (outtmpl : string) : string :=
  Str.take (String.length outtmpl - 29) outtmpl.

(** yt-dlp fails on [gone], and fetches a [webm] and an [mp4] file for any
    other URL; ffmpeg fails on names that contain [!]; Telegram accepts
    everything. *)
Definition env : Env := {|
  environ := fun key =>
    if key =? "MQTT_HOST" then Some "broker.example"
    else if key =? "MQTT_PORT" then Some "1883"
    else if key =? "MQTT_USER" then Some "bot"
    else if key =? "MQTT_PASSWORD" then Some "secret"
    else None;
  tmp_candidates := fun _ seq =>
    match seq with O => "k3x_9qab" | _ => "zzzzzzzz" end;
  uuid4 := fun w => N.of_nat (List.length (log w));
  ytdl_download := fun outtmpl url _ =>
    if url =? "https://a.example/gone" then (Return 1, [])
    else if url =? "https://c.example/odd"
    then (Return 0, [cure_of outtmpl +++ "/output1!.mkv"])
    else (Return 0, [cure_of outtmpl +++ "/output1.webm";
                     cure_of outtmpl +++ "/output2.mp4"]);
  ffmpeg := fun input_path output_path _ =>
    if Str.contains input_path "!" then (Return 1, [])
    else (Return 0, [output_path]);
  upload_video := fun _ path _ =>
    Return (mkTgMessage (Some (mkTgVideo (Some ("id:" +++ path)))));
  send_video_group := fun _ _ _ _ => Return tt;
  telegram_check := fun _ => Return tt;
  publish_multiple := fun _ _ _ => Return tt;
  listdir_rank := fun _ _ _ => 0%N
|}.

Definition w0 : World := mkWorld ["downloads"] [].

Definition gone : string := "https://a.example/gone".
Definition clip : string := "https://b.example/clip".
Definition odd : string := "https://c.example/odd".

Definition job (us : list string) : DownloadMessage :=
  mkDownloadMessage 7 9 us.

(** A message class whose payloads are [ok], [odd] or malformed. *)
Definition message_type : MessageType DownloadMessage := {|
  topic := "download";
  serialize := fun message =>
    match urls message with
    | [url] => if url =? odd then "odd" else "ok"
    | _ => "ok"
    end;
  deserialize := fun payload =>
    if payload =? "ok" then Return (job [clip])
    else if payload =? "odd" then Return (job [odd])
    else Raise (mkExc ValueError "malformed payload")
|}.

(** The handler [mqtt.subscribe] is given: its result is dropped. *)
Definition handle (message : DownloadMessage) : M unit :=
  _handle_payload env message ;; ret tt.


(** The workspace of the first job run in [w0], and the world once it is
    made. *)
Definition folder : string := "downloads/tmpk3x_9qab".

Definition w1 : World :=
  Eval vm_compute in snd (mkdtemp env (_STORAGE_DIR env) w0).

(** The world after the fetch step of a job. *)
Definition fetched (us : list string) : World :=
  snd (flat_mapM (fun url => _download_videos env folder url) us w1).


(** Adapters for [run]: the Rabbit configuration is incomplete, the MQTT
    configuration is the one of [env]; a subscriber is its configuration. *)
Definition rabbit_from_env : M string :=
  raise (mkExc ValueError "RABBITMQ_HOST missing").

Definition mqtt_from_env : M Connection :=
  Mqtt.check env ;;
  n <- Mqtt.int (Mqtt._PORT env) ;;
  ret (Mqtt.connection env n).

Definition subscriber_init {A} (config : A) : M A := ret config.

End Sample.

(** ** Sample data with collaborators that fail *)

Module Faulty.

Local Open Scope string_scope.

Definition boom : string := "https://d.example/boom".
Definition gif : string := "https://e.example/gif".

(** yt-dlp raises on [boom] and fetches one file, [outputg.mp4], for [gif];
    Telegram answers without a [video] entry for that file; paho refuses to
    publish an empty list. The storage root is nested, the legacy topic is
    set and the MQTT settings are not. *)
Definition env : Env := {|
  environ := fun key =>
    if key =? "STORAGE_DIR" then Some "data/downloads"
    else if key =? "MQTT_TOPIC_DOWNLOAD" then Some "cancer/instaDownload"
    else None;
  tmp_candidates := tmp_candidates Sample.env;
  uuid4 := uuid4 Sample.env;
  ytdl_download := fun outtmpl url w =>
    if url =? boom
    then (Raise (mkExc (OtherError "DownloadError") "video unavailable"), [])
    else if url =? gif
    then (Return 0, [Sample.cure_of outtmpl +++ "/outputg.mp4"])
    else ytdl_download Sample.env outtmpl url w;
  ffmpeg := ffmpeg Sample.env;
  upload_video := fun chat path w =>
    if Str.contains path "g" then Return (mkTgMessage None)
    else upload_video Sample.env chat path w;
  send_video_group := send_video_group Sample.env;
  telegram_check := telegram_check Sample.env;
  publish_multiple := fun msgs _ _ =>
    match msgs with
    | [] => Raise (mkExc ValueError "msgs is empty")
    | _ => Return tt
    end;
  listdir_rank := listdir_rank Sample.env
|}.

Definition w0 : World := mkWorld ["data"; "data/downloads"] [].

Definition w_empty : World := mkWorld [] [].

Definition folder : string := "data/downloads/tmpk3x_9qab".

Definition w1 : World :=
  Eval vm_compute in snd (mkdtemp env (_STORAGE_DIR env) w0).

End Faulty.

(** * Properties *)

(** ** The monad *)

Lemma bind_Return {A B} (m : M A) (k : A -> M B) w a w' :
  m w = (Return a, w') -> bind m k w = k a w'.
Proof. intros H. unfold bind. rewrite H. reflexivity. Qed.

Lemma bind_Raise {A B} (m : M A) (k : A -> M B) w e w' :
  m w = (Raise e, w') -> bind m k w = (Raise e, w').
Proof. intros H. unfold bind. rewrite H. reflexivity. Qed.

Lemma bind_ret_l {A B} (a : A) (k : A -> M B) w : bind (ret a) k w = k a w.
Proof. reflexivity. Qed.

Lemma bind_assoc {A B C} (m : M A) (k : A -> M B) (h : B -> M C) w :
  bind (bind m k) h w = bind m (fun a => bind (k a) h) w.
Proof.
  unfold bind. destruct (m w) as [[a | e] w']; reflexivity.
Qed.

(** ** Strings and paths *)

Example splitext_runs :
  OsPath.splitext "a/b.c/d" = ("a/b.c/d"%string, ""%string) /\
  OsPath.splitext "a/.bashrc" = ("a/.bashrc"%string, ""%string) /\
  OsPath.splitext "a/..x.tar.gz" = ("a/..x.tar"%string, ".gz"%string) /\
  OsPath.splitext "clip.MP4" = ("clip"%string, ".MP4"%string).
Proof. repeat split; reflexivity. Qed.

Example join_runs :
  OsPath.join "a" "b" = "a/b"%string /\
  OsPath.join "a/" "b" = "a/b"%string /\
  OsPath.join "" "b" = "b"%string /\
  OsPath.join "a" "/b" = "/b"%string.
Proof. repeat split; reflexivity. Qed.

Example dirname_runs :
  Os.dirname "a/b/c" = "a/b"%string /\
  Os.dirname "/a" = "/"%string /\
  Os.dirname "a" = ""%string /\
  Os.dirname "a//b" = "a"%string.
Proof. repeat split; reflexivity. Qed.

Example uuid_str_runs :
  Uuid.str 0x12345678123456781234567812345678
    = "12345678-1234-5678-1234-567812345678"%string.
Proof. vm_compute. reflexivity. Qed.

(** What [except ValueError] and [except FileExistsError] catch. *)
Example except_runs :
  map (fun c => is_ValueError (mkExc c ""))
    [ValueError; UnicodeDecodeError; UnicodeEncodeError;
     Derived "ConfigError" [KeyError; ValueError];
     KeyError; TypeError; OtherError "DownloadError";
     Derived "LookupFailed" [KeyError]]
  = [true; true; true; true; false; false; false; false] /\
  map (fun c => is_FileExistsError (mkExc c ""))
    [FileExistsError; Derived "Busy" [FileExistsError]; FileNotFoundError;
     ValueError]
  = [true; true; false; false].
Proof. split; reflexivity. Qed.

Example int_runs :
  map PyInt.parse
    ["8883"; " 12 "; "+5"; "-5"; "1_000"; "007";
     "1__0"; "_1"; "1_"; ""; "abc"; "12a"; "0x10"; "- 1"]%string
  = [Some 8883; Some 12; Some 5; Some (-5); Some 1000; Some 7;
     None; None; None; None; None; None; None; None].
Proof. vm_compute. reflexivity. Qed.

(** [int] outside the digits of ASCII: the Arabic-Indic digits of 1883 and
    a no-break space before the digits are read; the separator [0x1c], a
    byte that is no UTF-8 sequence, and 4301 digits are refused, 4300 are
    read. *)
Example int_unicode_runs :
  map PyInt.parse
    [Utf8.of_bytes [217; 161; 217; 168; 217; 168; 217; 163]%N;
     Utf8.of_bytes [194; 160; 49; 56; 56; 51]%N;
     Utf8.of_bytes [28; 49; 56; 56; 51]%N;
     Utf8.of_bytes [160; 49; 56; 56; 51]%N]
  = [Some 1883; Some 1883; None; None] /\
  PyInt.parse (string_of_list_ascii (repeat "1"%char 4301)) = None /\
  PyInt.parse (string_of_list_ascii (repeat "0"%char 4300)) = Some 0.
Proof. vm_compute. repeat split. Qed.

Lemma In_insert_by (rank : string -> N) (name x : string)
    (names : list string) :
  In x (Os.insert_by rank name names) <-> x = name \/ In x names.
Proof.
  induction names as [| other rest IH]; simpl.
  - split; [intros [H | []]; auto | intros [H | []]; auto].
  - destruct (rank name <=? rank other)%N; simpl; [intuition auto |].
    rewrite IH. intuition auto.
Qed.

(** Listing a directory gives its entries, whatever the order. *)
Lemma In_order_by (rank : string -> N) (x : string) (names : list string) :
  In x (Os.order_by rank names) <-> In x names.
Proof.
  unfold Os.order_by. induction names as [| name rest IH]; simpl;
    [reflexivity |].
  rewrite In_insert_by, IH. intuition auto.
Qed.

Lemma append_empty_r (s : string) : s +++ "" = s.
Proof. induction s as [| a s IH]; simpl; [reflexivity | now rewrite IH]. Qed.

Lemma append_assoc (a b c : string) : (a +++ b) +++ c = a +++ b +++ c.
Proof. induction a as [| x a IH]; simpl; [reflexivity | now rewrite IH]. Qed.

Lemma take_drop (n : nat) (s : string) : Str.take n s +++ Str.drop n s = s.
Proof.
  revert s. induction n as [| n IH]; intros [| a s]; simpl; try reflexivity.
  now rewrite IH.
Qed.

Lemma splitext_loop_append (p : string) (dotIndex i : Z) (n : nat) base ext :
  OsPath.splitext_loop p dotIndex i n = (base, ext) -> base +++ ext = p.
Proof.
  revert i. induction n as [| n IH]; intros i; simpl.
  - intros H. inversion H. apply append_empty_r.
  - destruct (negb _).
    + intros H. inversion H. apply take_drop.
    + apply IH.
Qed.

Lemma splitext_append (p base ext : string) :
  OsPath.splitext p = (base, ext) -> base +++ ext = p.
Proof.
  unfold OsPath.splitext. destruct (_ <? _).
  - apply splitext_loop_append.
  - intros H. inversion H. apply append_empty_r.
Qed.

Lemma rfind_absent (s : string) (c : ascii) :
  Str.contains s c = false -> Str.rfind s c = -1.
Proof.
  induction s as [| a s IH]; simpl; [reflexivity |].
  intros H. apply orb_false_iff in H. destruct H as [Ha Hs].
  rewrite (IH Hs), Ha. reflexivity.
Qed.

Lemma rfind_last (d name : string) (c : ascii) :
  Str.contains name c = false ->
  Str.rfind (d +++ String c name) c = Z.of_nat (String.length d).
Proof.
  intros Hname. induction d as [| a d IH]; simpl String.append.
  - simpl. rewrite (rfind_absent _ _ Hname), Ascii.eqb_refl. reflexivity.
  - cbn [Str.rfind]. rewrite IH.
    destruct (Z.leb_spec 0 (Z.of_nat (String.length d))); [| lia].
    cbn [String.length]. lia.
Qed.

Lemma take_append (d s : string) (n : nat) :
  Str.take (String.length d + n) (d +++ s) = d +++ Str.take n s.
Proof.
  induction d as [| a d IH]; simpl; [reflexivity | now rewrite IH].
Qed.

Lemma drop_append (d s : string) (n : nat) :
  Str.drop (String.length d + n) (d +++ s) = Str.drop n s.
Proof. induction d as [| a d IH]; simpl; [reflexivity | exact IH]. Qed.

Lemma splitext_loop_cases (p : string) (dotIndex i : Z) (n : nat) :
  OsPath.splitext_loop p dotIndex i n = (p, ""%string) \/
  OsPath.splitext_loop p dotIndex i n
    = (Str.slice_to p dotIndex, Str.slice_from p dotIndex).
Proof.
  revert i. induction n as [| n IH]; intros i; simpl.
  - left. reflexivity.
  - destruct (negb _); [right; reflexivity | apply IH].
Qed.

(** The base that [splitext] returns keeps the directory of the path, and
    the name is split into its stem and the extension. *)
Lemma splitext_directory (d name base ext : string) :
  Str.contains name OsPath.sep = false ->
  OsPath.splitext (d +++ String OsPath.sep name) = (base, ext) ->
  exists stem, base = d +++ String OsPath.sep stem /\ name = stem +++ ext.
Proof.
  intros Hname. unfold OsPath.splitext. rewrite (rfind_last _ _ _ Hname).
  set (p := d +++ String OsPath.sep name).
  set (dotIndex := Str.rfind p OsPath.extsep).
  destruct (Z.ltb_spec (Z.of_nat (String.length d)) dotIndex) as [Hlt | _].
  - destruct (splitext_loop_cases p dotIndex (Z.of_nat (String.length d) + 1)
                (Z.to_nat (dotIndex - (Z.of_nat (String.length d) + 1))))
      as [-> | ->]; intros H; inversion H; subst base ext.
    + exists name. split; [reflexivity |]. symmetry. apply append_empty_r.
    + unfold Str.slice_to, Str.slice_from.
      assert (Hn : Z.to_nat dotIndex =
                   (String.length d
                    + S (Z.to_nat (dotIndex - Z.of_nat (String.length d) - 1)))%nat)
        by lia.
      rewrite Hn. subst p. rewrite take_append, drop_append. simpl.
      eexists. split; [reflexivity |]. symmetry. apply take_drop.
  - intros H. inversion H; subst base ext.
    exists name. split; [reflexivity |]. symmetry. apply append_empty_r.
Qed.

(** ** Normalisation: [_ensure_compatibility] and [_upload_video] *)

Lemma ensure_compatibility_mp4 env p base w :
  OsPath.splitext p = (base, ".mp4"%string) ->
  _ensure_compatibility env p w = (Return p, w).
Proof.
  intros H. unfold _ensure_compatibility. rewrite H. reflexivity.
Qed.

Lemma ensure_compatibility_other env p base ext w :
  OsPath.splitext p = (base, ext) -> ext <> ".mp4"%string ->
  _ensure_compatibility env p w =
    (_convert_cure env p (base +++ ".mp4") ;; ret (base +++ ".mp4")) w.
Proof.
  intros H Hext. unfold _ensure_compatibility. rewrite H.
  destruct (String.eqb_spec ext ".mp4"); [contradiction | reflexivity].
Qed.

Lemma convert_cure_run env input_path output_path w :
  _convert_cure env input_path output_path w =
    (match fst (ffmpeg env input_path output_path w) with
     | Return status =>
         if negb (status =? 0)
         then Raise (mkExc RuntimeError "Could not convert file!")
         else Return tt
     | Raise e => Raise e
     end,
     snd (Popen_wait env input_path output_path w)).
Proof.
  unfold _convert_cure, bind, Popen_wait.
  destruct (ffmpeg env input_path output_path w) as [[status | e] written];
    simpl; [destruct (negb _) |]; reflexivity.
Qed.

Lemma upload_video_after env cure_path w :
  snd ((message <- telegram_upload_video env (_UPLOAD_CHAT env) cure_path ;;
        video <- getitem "video" (video message) ;;
        file_id <- getitem "file_id" (file_id video) ;;
        ret file_id) w) =
  mkWorld (fs w)
    (log w ++ [EvUploadVideo (_UPLOAD_CHAT env) cure_path
                 (upload_video env (_UPLOAD_CHAT env) cure_path w)]).
Proof.
  unfold bind, telegram_upload_video.
  destruct (upload_video env (_UPLOAD_CHAT env) cure_path w)
    as [[[[[id |]] |]] | e]; reflexivity.
Qed.

(** C6. A file whose extension is [.mp4] is uploaded as it is and ffmpeg is
    not called; any other file is converted by exactly one ffmpeg call whose
    output is the path with the same base (the same directory and the same
    stem of the name) and the extension [.mp4], and that path is the one
    uploaded. *)
Theorem normalization_converts_exactly_when_needed
    (env : Env) (original_path base ext : string) (w : World) :
  OsPath.splitext original_path = (base, ext) ->
  base +++ ext = original_path /\
  (forall d name,
     original_path = d +++ String OsPath.sep name ->
     Str.contains name OsPath.sep = false ->
     exists stem, base = d +++ String OsPath.sep stem /\ name = stem +++ ext) /\
  (ext = ".mp4"%string ->
   _ensure_compatibility env original_path w = (Return original_path, w) /\
   log (snd (_upload_video env original_path w)) =
     log w ++ [EvUploadVideo (_UPLOAD_CHAT env) original_path
                 (upload_video env (_UPLOAD_CHAT env) original_path w)]) /\
  (ext <> ".mp4"%string ->
   let converted_path := base +++ ".mp4" in
   let status := fst (ffmpeg env original_path converted_path w) in
   let w1 := snd (Popen_wait env original_path converted_path w) in
   log w1 = log w ++ [EvFfmpeg original_path converted_path status] /\
   (status = Return 0 ->
    _ensure_compatibility env original_path w = (Return converted_path, w1) /\
    log (snd (_upload_video env original_path w)) =
      log w ++ [EvFfmpeg original_path converted_path status;
                EvUploadVideo (_UPLOAD_CHAT env) converted_path
                  (upload_video env (_UPLOAD_CHAT env) converted_path w1)]) /\
   (status <> Return 0 ->
    exists e, _upload_video env original_path w = (Raise e, w1))).
Proof.
  intros Hsplit. split; [now apply splitext_append |]. split.
  { intros d name -> Hname. eapply splitext_directory; eassumption. }
  split.
  - intros ->.
    pose proof (ensure_compatibility_mp4 env _ _ w Hsplit) as Hens.
    split; [exact Hens |].
    unfold _upload_video. rewrite (bind_Return _ _ _ _ _ Hens).
    rewrite upload_video_after. reflexivity.
  - intros Hext converted_path status w1.
    pose proof (ensure_compatibility_other env _ _ _ w Hsplit Hext) as Hens.
    fold converted_path in Hens.
    assert (Hlog : log w1 =
                   log w ++ [EvFfmpeg original_path converted_path status]).
    { subst w1 status. unfold Popen_wait.
      destruct (ffmpeg env original_path converted_path w); reflexivity. }
    split; [exact Hlog |].
    assert (Hrun : _ensure_compatibility env original_path w =
                   (match status with
                    | Return s =>
                        if negb (s =? 0)
                        then Raise (mkExc RuntimeError "Could not convert file!")
                        else Return converted_path
                    | Raise e => Raise e
                    end, w1)).
    { rewrite Hens. unfold bind at 1. rewrite convert_cure_run.
      fold status. fold w1.
      destruct status as [s | e]; [destruct (negb _) |]; reflexivity. }
    split.
    + intros Hst. rewrite Hst in Hrun. simpl in Hrun.
      split; [exact Hrun |].
      unfold _upload_video. rewrite (bind_Return _ _ _ _ _ Hrun).
      rewrite upload_video_after. simpl. rewrite Hlog, Hst.
      rewrite <- app_assoc. reflexivity.
    + intros Hst. unfold _upload_video.
      destruct status as [s | e].
      * destruct (Z.eqb_spec s 0) as [-> | Hs]; [contradiction |].
        simpl in Hrun. eexists. apply bind_Raise. exact Hrun.
      * eexists. apply bind_Raise. exact Hrun.
Qed.

(** ** The configuration check of [mqtt.py] *)

Lemma not_true_iff (v : option string) :
  Mqtt.not_ v = true <-> missing_or_empty v.
Proof.
  unfold missing_or_empty. destruct v as [[| a s] |]; simpl; split;
    try discriminate; auto; intros [H | H]; discriminate H.
Qed.


Lemma transport_not_iff (env : Env) :
  Mqtt.not_ (Mqtt._TRANSPORT env) = true <->
  environ env "MQTT_TRANSPORT" = Some ""%string.
Proof.
  unfold Mqtt._TRANSPORT.
  destruct (environ env "MQTT_TRANSPORT") as [[| a s] |]; simpl; split;
    try discriminate; auto.
Qed.


(** ** The choice of the subscriber in [run] *)

Section Selection.

Variable env : Env.
Variables RabbitConfig MqttConfig RabbitSubscriber MqttSubscriber : Type.
Variable RabbitConfig_from_env : M RabbitConfig.
Variable RabbitSubscriber_init : RabbitConfig -> M RabbitSubscriber.
Variable MqttConfig_from_env : M MqttConfig.
Variable MqttSubscriber_init : MqttConfig -> M MqttSubscriber.
Variable Subscriber_subscribe :
  Subscriber RabbitSubscriber MqttSubscriber -> Topic ->
  (DownloadMessage -> M Result) -> M unit.

(** C7. [run] builds the Rabbit subscriber first. When that returns, it is
    the subscriber and the MQTT one is not built; when it raises a
    [ValueError] (an exception of that class or of a class derived from it,
    which is what [except ValueError] catches), and only then, the MQTT
    subscriber is built in its place, and is the subscriber if that returns;
    when the MQTT construction raises too, or the Rabbit one raises anything
    else, [run] raises and never subscribes. *)
Theorem subscriber_is_selected_by_fallback (w : World) :
  let rabbit := (cfg <- RabbitConfig_from_env ;; RabbitSubscriber_init cfg) in
  let mqtt := (cfg <- MqttConfig_from_env ;; MqttSubscriber_init cfg) in
  let select :=
    select_subscriber RabbitConfig_from_env RabbitSubscriber_init
      MqttConfig_from_env MqttSubscriber_init in
  let run_ :=
    run env RabbitConfig_from_env RabbitSubscriber_init
      MqttConfig_from_env MqttSubscriber_init Subscriber_subscribe in
  (forall s w1, rabbit w = (Return s, w1) ->
     select w = (Return (SubRabbit s), w1)) /\
  (forall e w1, rabbit w = (Raise e, w1) -> is_ValueError e = true ->
     (forall s w2, mqtt w1 = (Return s, w2) ->
        select w = (Return (SubMqtt s), w2)) /\
     (forall e' w2, mqtt w1 = (Raise e', w2) ->
        select w = (Raise e', w2))) /\
  (forall e w1, rabbit w = (Raise e, w1) -> is_ValueError e = false ->
     select w = (Raise e, w1)) /\
  (forall w0 topic_,
     prepare env w0 = (Return topic_, w) ->
     (forall e w1, select w = (Raise e, w1) -> run_ w0 = (Raise e, w1)) /\
     (forall s w1, select w = (Return s, w1) ->
        run_ w0 = Subscriber_subscribe s topic_ (_handle_payload env) w1)).
Proof.
  intros rabbit mqtt select run_.
  assert (Hsel : select w =
                 match rabbit w with
                 | (Return s, w1) => (Return (SubRabbit s), w1)
                 | (Raise e, w1) =>
                     if is_ValueError e
                     then match mqtt w1 with
                          | (Return s, w2) => (Return (SubMqtt s), w2)
                          | (Raise e', w2) => (Raise e', w2)
                          end
                     else (Raise e, w1)
                 end).
  { subst select rabbit mqtt.
    unfold select_subscriber, try_except_ValueError, bind, ret.
    destruct (RabbitConfig_from_env w) as [[cfg | e] w1].
    - destruct (RabbitSubscriber_init cfg w1) as [[s | e] w2]; [reflexivity |].
      destruct (is_ValueError e); [| reflexivity].
      destruct (MqttConfig_from_env w2) as [[cfg' | e'] w3]; [| reflexivity].
      destruct (MqttSubscriber_init cfg' w3) as [[s | e''] w4]; reflexivity.
    - destruct (is_ValueError e); [| reflexivity].
      destruct (MqttConfig_from_env w1) as [[cfg' | e'] w3]; [| reflexivity].
      destruct (MqttSubscriber_init cfg' w3) as [[s | e''] w4]; reflexivity. }
  split; [| split; [| split]].
  - intros s w1 H. rewrite Hsel, H. reflexivity.
  - intros e w1 H Hv. split.
    + intros s w2 Hm. rewrite Hsel, H, Hv, Hm. reflexivity.
    + intros e' w2 Hm. rewrite Hsel, H, Hv, Hm. reflexivity.
  - intros e w1 H Hv. rewrite Hsel, H, Hv. reflexivity.
  - intros w0 topic_ Hprep. subst run_. unfold run. split.
    + intros e w1 Hs.
      rewrite (bind_Return _ _ _ _ _ Hprep). apply bind_Raise. exact Hs.
    + intros s w1 Hs.
      rewrite (bind_Return _ _ _ _ _ Hprep). subst select.
      unfold bind. rewrite Hs. reflexivity.
Qed.

End Selection.

(** ** The receive loop of [mqtt.subscribe] *)

Section Receive.

Variable env : Env.
Context {T : Type}.
Variable message_type : MessageType T.
Variable handle : T -> M unit.

Lemma loop_forever_fault (pre : list string) payload post w w1 e w2 :
  Mqtt.loop_forever (Mqtt.on_message message_type handle) pre w
    = (Return tt, w1) ->
  Mqtt.on_message message_type handle payload w1 = (Raise e, w2) ->
  Mqtt.loop_forever (Mqtt.on_message message_type handle)
    (pre ++ payload :: post) w = (Raise e, w2).
Proof.
  revert w. induction pre as [| p pre IH]; intros w Hpre Hmsg; simpl in *.
  - inversion Hpre; subst. apply bind_Raise. exact Hmsg.
  - unfold bind in *.
    destruct (Mqtt.on_message message_type handle p w) as [[[] | e'] w'].
    + apply IH; assumption.
    + discriminate.
Qed.

(** C1, as the code has it. When deserialising a delivered payload or
    handling the message raises, [on_message] raises the same exception, and
    it leaves [subscribe]: the world is the one the fault left, nothing is
    recorded for the message, and the deliveries after it are not handled. *)
Theorem handler_fault_leaves_the_receive_loop
    (port_ : string) (n : Z) (pre : list string) (payload : string)
    (post : list string) (w w1 w2 : World) (e : Exc) :
  environ env "MQTT_PORT" = Some port_ ->
  PyInt.parse port_ = Some n ->
  Mqtt.subscribe env message_type handle pre w = (Return tt, w1) ->
  (deserialize message_type payload = Raise e /\ w2 = w1) \/
  (exists message,
     deserialize message_type payload = Return message /\
     handle message w1 = (Raise e, w2)) ->
  Mqtt.on_message message_type handle payload w1 = (Raise e, w2) /\
  Mqtt.subscribe env message_type handle (pre ++ payload :: post) w
    = (Raise e, w2).
Proof.
  intros Hport Hn Hpre Hfault.
  assert (Hmsg : Mqtt.on_message message_type handle payload w1
                 = (Raise e, w2)).
  { unfold Mqtt.on_message.
    destruct Hfault as [[Hd ->] | (message & Hd & Hh)]; rewrite Hd;
      [reflexivity | exact Hh]. }
  split; [exact Hmsg |].
  revert Hpre. unfold Mqtt.subscribe, Mqtt._PORT, Mqtt.int.
  rewrite Hport, Hn. rewrite !bind_ret_l. unfold Mqtt.callback.
  unfold bind, emit. cbv beta iota. intros Hpre.
  eapply loop_forever_fault; eassumption.
Qed.

End Receive.

(** C1, refuted as stated. The first delivery cannot be deserialised: the
    exception leaves [subscribe], no outcome is applied to the message, and
    the second delivery, which is well formed, is never handled. The same
    happens when the handler itself raises on the first delivery: the job of
    the second delivery would end with a reply, and none is sent. *)
Lemma handler_fault_crashes_subscribe :
  deserialize Sample.message_type "garbage"
    = Raise (mkExc ValueError "malformed payload") /\
  Mqtt.subscribe Sample.env Sample.message_type Sample.handle
    ["garbage"%string; "ok"%string] Sample.w0
    = (Raise (mkExc ValueError "malformed payload"),
       mkWorld ["downloads"%string]
         [EvSubscribe
            (mkConnection (Some "broker.example"%string) 1883
               (Some "tcp"%string) (Some "bot"%string)
               (Some "secret"%string))
            ["download"%string] 1]) /\
  fst (Sample.handle (Sample.job [Sample.odd]) Sample.w0)
    = Raise (mkExc RuntimeError "Could not convert file!") /\
  fst (Mqtt.subscribe Sample.env Sample.message_type Sample.handle
         ["odd"%string; "ok"%string] Sample.w0)
    = Raise (mkExc RuntimeError "Could not convert file!") /\
  existsb is_reply
    (log (snd (Mqtt.subscribe Sample.env Sample.message_type Sample.handle
                 ["odd"%string; "ok"%string] Sample.w0))) = false /\
  existsb is_reply
    (log (snd (Mqtt.subscribe Sample.env Sample.message_type Sample.handle
                 ["ok"%string] Sample.w0))) = true.
Proof. repeat split; vm_compute; reflexivity. Qed.

(** ** List comprehensions *)

Lemma mapM_app {A B} (g : A -> M B) (xs ys : list A) (w : World) :
  mapM g (xs ++ ys) w =
  (hs <- mapM g xs ;; hs' <- mapM g ys ;; ret (hs ++ hs')) w.
Proof.
  revert w. induction xs as [| x xs IH]; intros w; simpl.
  - unfold bind, ret. destruct (mapM g ys w) as [[hs' | e] w']; reflexivity.
  - unfold bind, ret in *. destruct (g x w) as [[h | e] w1]; [| reflexivity].
    rewrite IH. destruct (mapM g xs w1) as [[hs | e] w2]; [| reflexivity].
    destruct (mapM g ys w2) as [[hs' | e] w3]; reflexivity.
Qed.

Lemma mapM_app_raise {A B} (g : A -> M B) (pre : list A) (x : A)
    (post : list A) (w w1 w2 : World) (hs : list B) (e : Exc) :
  mapM g pre w = (Return hs, w1) ->
  g x w1 = (Raise e, w2) ->
  mapM g (pre ++ x :: post) w = (Raise e, w2).
Proof.
  intros Hpre Hx. rewrite mapM_app. rewrite (bind_Return _ _ _ _ _ Hpre).
  simpl. unfold bind. rewrite Hx. reflexivity.
Qed.

(** The comprehension with two [for] clauses is the concatenation of the
    lists got URL by URL. *)
Lemma flat_mapM_mapM {A B} (f : A -> M (list B)) (xs : list A) (w : World) :
  flat_mapM f xs w = (yss <- mapM f xs ;; ret (concat yss)) w.
Proof.
  revert w. induction xs as [| x xs IH]; intros w; simpl; [reflexivity |].
  unfold bind, ret in *. destruct (f x w) as [[ys | e] w1]; [| reflexivity].
  rewrite IH. destruct (mapM f xs w1) as [[yss | e] w2]; reflexivity.
Qed.

(** Mapping over a concatenation is mapping group by group. *)
Lemma mapM_concat {A B} (g : A -> M B) (xss : list (list A)) (w : World) :
  mapM g (concat xss) w = (hss <- mapM (mapM g) xss ;; ret (concat hss)) w.
Proof.
  revert w. induction xss as [| xs xss IH]; intros w; simpl; [reflexivity |].
  rewrite mapM_app. unfold bind, ret in *.
  destruct (mapM g xs w) as [[hs | e] w1]; [| reflexivity].
  rewrite IH. destruct (mapM (mapM g) xss w1) as [[hss | e] w2]; reflexivity.
Qed.

(** ** The pipeline of [_handle_payload] *)

Lemma handle_payload_run env payload w folder w1 :
  mkdtemp env (_STORAGE_DIR env) w = (Return folder, w1) ->
  _handle_payload env payload w =
    (let '(outcome, w2) :=
       (files <- flat_mapM (fun url => _download_videos env folder url)
                  (urls payload) ;;
        video_ids <- mapM (_upload_video env) files ;;
        telegram_send_video_group env (chat_id payload) (message_id payload)
          video_ids ;;
        ret Ack) w1 in
     (outcome, Os.rmtree folder w2)).
Proof.
  intros H. unfold _handle_payload, with_TemporaryDirectory. rewrite H.
  reflexivity.
Qed.

Lemma handle_payload_no_workspace env payload w e w1 :
  mkdtemp env (_STORAGE_DIR env) w = (Raise e, w1) ->
  _handle_payload env payload w = (Raise e, w1).
Proof.
  intros H. unfold _handle_payload, with_TemporaryDirectory. rewrite H.
  reflexivity.
Qed.

(** The reply step, and what the handler returns after it. *)
Lemma reply_step env payload video_ids w :
  (telegram_send_video_group env (chat_id payload) (message_id payload)
     video_ids ;; ret Ack) w =
  let res := send_video_group env (chat_id payload) (message_id payload)
               video_ids w in
  (match res with Return _ => Return Ack | Raise e => Raise e end,
   mkWorld (fs w)
     (log w ++ [EvSendVideoGroup (chat_id payload) (message_id payload)
                  video_ids res])).
Proof.
  unfold bind, telegram_send_video_group, ret. simpl.
  destruct (send_video_group env _ _ video_ids w); reflexivity.
Qed.

Lemma download_videos_failed env folder url w cure_dir w1 return_code w2 :
  make_cure_dir env folder w = (Return cure_dir, w1) ->
  YoutubeDL_download env (cure_dir +++ "/output%(autonumber)d.%(ext)s")
    url w1 = (Return return_code, w2) ->
  return_code <> 0 ->
  _download_videos env folder url w = (Return [], w2).
Proof.
  intros Hdir Hdl Hrc. unfold _download_videos.
  rewrite (bind_Return _ _ _ _ _ Hdir), (bind_Return _ _ _ _ _ Hdl).
  destruct (Z.eqb_spec return_code 0); [contradiction | reflexivity].
Qed.

(** Only the return code is looked at: an exception raised by yt-dlp is not
    caught and leaves [_download_videos]. *)
Lemma download_videos_raise env folder url w cure_dir w1 e w2 :
  make_cure_dir env folder w = (Return cure_dir, w1) ->
  YoutubeDL_download env (cure_dir +++ "/output%(autonumber)d.%(ext)s")
    url w1 = (Raise e, w2) ->
  _download_videos env folder url w = (Raise e, w2).
Proof.
  intros Hdir Hdl. unfold _download_videos.
  rewrite (bind_Return _ _ _ _ _ Hdir). apply bind_Raise. exact Hdl.
Qed.



(** X15. The failed fetch the code recovers from: in a job with the URLs
    [A] and [B], when yt-dlp returns a code that is not zero for [A], [A]
    gives no file, [B] is fetched next, and the upload and reply steps run
    on the files of [B] and no others. *)
Theorem failed_fetch_is_skipped
    (env : Env) (payload : DownloadMessage) (A B : string)
    (w w1 wA wA' wB : World) (folder cure_dir : string) (return_code : Z)
    (files_B : list string) :
  urls payload = [A; B] ->
  mkdtemp env (_STORAGE_DIR env) w = (Return folder, w1) ->
  make_cure_dir env folder w1 = (Return cure_dir, wA) ->
  YoutubeDL_download env (cure_dir +++ "/output%(autonumber)d.%(ext)s")
    A wA = (Return return_code, wA') ->
  return_code <> 0 ->
  _download_videos env folder B wA' = (Return files_B, wB) ->
  _download_videos env folder A w1 = (Return [], wA') /\
  flat_mapM (fun url => _download_videos env folder url) (urls payload) w1
    = (Return files_B, wB) /\
  _handle_payload env payload w =
    (let '(outcome, w') :=
       (video_ids <- mapM (_upload_video env) files_B ;;
        telegram_send_video_group env (chat_id payload) (message_id payload)
          video_ids ;;
        ret Ack) wB in
     (outcome, Os.rmtree folder w')).
Proof.
  intros Hurls Htmp Hdir Hdl Hrc HB.
  pose proof (download_videos_failed _ _ _ _ _ _ _ _ Hdir Hdl Hrc) as HA.
  assert (Hfetch : flat_mapM (fun url => _download_videos env folder url)
                     (urls payload) w1 = (Return files_B, wB)).
  { rewrite Hurls. simpl. unfold bind, ret. rewrite HA, HB.
    rewrite app_nil_r. reflexivity. }
  split; [exact HA |]. split; [exact Hfetch |].
  rewrite (handle_payload_run _ _ _ _ _ Htmp).
  rewrite (bind_Return _ _ _ _ _ Hfetch). reflexivity.
Qed.

(** C3, where the code departs from it. yt-dlp signals the failed fetch of
    the first URL by raising [DownloadError], and can fetch the second URL:
    a job with the second URL alone ends with a reply. [_download_videos]
    looks at the return code only, so the exception leaves it and the
    handler: yt-dlp is never called for the second URL, nothing is uploaded
    and no reply is sent. *)
Theorem raising_fetch_aborts_the_job :
  fst (ytdl_download Faulty.env
         "data/downloads/tmpk3x_9qab/00000000-0000-0000-0000-000000000001/output%(autonumber)d.%(ext)s"
         Faulty.boom Faulty.w1)
    = Raise (mkExc (OtherError "DownloadError") "video unavailable") /\
  fst (_handle_payload Faulty.env (mkDownloadMessage 7 9 [Sample.clip])
         Faulty.w0) = Return Ack /\
  existsb is_reply
    (log (snd (_handle_payload Faulty.env
                 (mkDownloadMessage 7 9 [Sample.clip]) Faulty.w0))) = true /\
  _handle_payload Faulty.env
    (mkDownloadMessage 7 9 [Faulty.boom; Sample.clip]) Faulty.w0
    = (Raise (mkExc (OtherError "DownloadError") "video unavailable"),
       mkWorld ["data"%string; "data/downloads"%string]
         [EvMkdir "data/downloads/tmpk3x_9qab";
          EvMkdir
            "data/downloads/tmpk3x_9qab/00000000-0000-0000-0000-000000000001";
          EvYtdl
            "data/downloads/tmpk3x_9qab/00000000-0000-0000-0000-000000000001/output%(autonumber)d.%(ext)s"
            Faulty.boom
            (Raise (mkExc (OtherError "DownloadError") "video unavailable"));
          EvRmtree "data/downloads/tmpk3x_9qab"]).
Proof. repeat split; vm_compute; reflexivity. Qed.

(** C4. When ffmpeg exits with a status that is not zero for a file of the
    job, the handler raises [RuntimeError]: the files after it are neither
    converted nor uploaded, no reply is sent, and the last calls of the job
    are that conversion and the removal of the workspace. *)
Theorem conversion_failure_aborts_the_job
    (env : Env) (payload : DownloadMessage) (w w1 w2 w3 : World)
    (folder : string) (pre post : list string) (file base ext : string)
    (video_ids : list string) (status : Z) (written : list string) :
  mkdtemp env (_STORAGE_DIR env) w = (Return folder, w1) ->
  flat_mapM (fun url => _download_videos env folder url) (urls payload) w1
    = (Return (pre ++ file :: post), w2) ->
  mapM (_upload_video env) pre w2 = (Return video_ids, w3) ->
  OsPath.splitext file = (base, ext) ->
  ext <> ".mp4"%string ->
  ffmpeg env file (base +++ ".mp4") w3 = (Return status, written) ->
  status <> 0 ->
  let w4 :=
    mkWorld (Os.write_paths (fs w3) written)
      (log w3 ++ [EvFfmpeg file (base +++ ".mp4") (Return status)]) in
  _handle_payload env payload w =
    (Raise (mkExc RuntimeError "Could not convert file!"),
     Os.rmtree folder w4) /\
  log (snd (_handle_payload env payload w)) =
    log w3 ++ [EvFfmpeg file (base +++ ".mp4") (Return status);
               EvRmtree folder].
Proof.
  intros Htmp Hfetch Hpre Hsplit Hext Hff Hst w4.
  assert (Hfile : _upload_video env file w3 =
                  (Raise (mkExc RuntimeError "Could not convert file!"), w4)).
  { unfold _upload_video. apply bind_Raise.
    rewrite (ensure_compatibility_other _ _ _ _ _ Hsplit Hext).
    apply bind_Raise. rewrite convert_cure_run. unfold Popen_wait.
    rewrite Hff. simpl.
    destruct (Z.eqb_spec status 0); [contradiction | reflexivity]. }
  assert (Hrun : _handle_payload env payload w =
                 (Raise (mkExc RuntimeError "Could not convert file!"),
                  Os.rmtree folder w4)).
  { rewrite (handle_payload_run _ _ _ _ _ Htmp).
    rewrite (bind_Return _ _ _ _ _ Hfetch).
    rewrite (bind_Raise _ _ _ _ _
               (mapM_app_raise _ _ _ post _ _ _ _ _ Hpre Hfile)).
    reflexivity. }
  split; [exact Hrun |].
  rewrite Hrun. simpl. rewrite <- app_assoc. reflexivity.
Qed.

Lemma mapM_length {A B} (g : A -> M B) (xs : list A) w ys w' :
  mapM g xs w = (Return ys, w') -> length ys = length xs.
Proof.
  revert w ys. induction xs as [| x xs IH]; intros w ys; simpl.
  - intros H. inversion H. reflexivity.
  - unfold bind, ret. destruct (g x w) as [[y | e] w1]; [| discriminate].
    destruct (mapM g xs w1) as [[ys' | e] w2] eqn:E; [| discriminate].
    intros H. inversion H; subst. simpl. f_equal. eapply IH. exact E.
Qed.

Lemma mapM_mapM_lengths {A B} (g : A -> M B) (xss : list (list A)) w yss w' :
  mapM (mapM g) xss w = (Return yss, w') ->
  Forall2 (fun xs ys => length ys = length xs) xss yss.
Proof.
  revert w yss. induction xss as [| xs xss IH]; intros w yss; simpl.
  - intros H. inversion H. constructor.
  - unfold bind, ret.
    destruct (mapM g xs w) as [[ys | e] w1] eqn:E1; [| discriminate].
    destruct (mapM (mapM g) xss w1) as [[yss' | e] w2] eqn:E2;
      [| discriminate].
    intros H. inversion H; subst. constructor.
    + eapply mapM_length. exact E1.
    + eapply IH. exact E2.
Qed.

(** The handler, URL by URL: the files of each URL, then the handles of
    each URL, then the reply with the handles of all URLs in that order. *)
Lemma handle_payload_by_url env payload w folder w1 :
  mkdtemp env (_STORAGE_DIR env) w = (Return folder, w1) ->
  _handle_payload env payload w =
    (let '(outcome, w2) :=
       (fss <- mapM (fun url => _download_videos env folder url)
                 (urls payload) ;;
        hss <- mapM (mapM (_upload_video env)) fss ;;
        telegram_send_video_group env (chat_id payload) (message_id payload)
          (concat hss) ;;
        ret Ack) w1 in
     (outcome, Os.rmtree folder w2)).
Proof.
  intros Htmp. rewrite (handle_payload_run _ _ _ _ _ Htmp).
  pose proof (flat_mapM_mapM (fun url => _download_videos env folder url)
                (urls payload) w1) as Hfetch.
  unfold bind, ret in *. rewrite Hfetch.
  destruct (mapM _ (urls payload) w1) as [[fss | e] w2]; [| reflexivity].
  pose proof (mapM_concat (_upload_video env) fss w2) as Hup.
  unfold bind, ret in Hup. rewrite Hup.
  destruct (mapM (mapM (_upload_video env)) fss w2) as [[hss | e] w3];
    reflexivity.
Qed.

(** C8. The URLs are fetched in the order of the job, their files are
    uploaded in that order, and the videos of the grouped reply are the
    handles of the first URL's files, then those of the second, and so on. *)
Theorem reply_follows_the_url_order
    (env : Env) (payload : DownloadMessage) (w w1 : World) (folder : string) :
  mkdtemp env (_STORAGE_DIR env) w = (Return folder, w1) ->
  (forall fss w2 hss w3,
     mapM (fun url => _download_videos env folder url) (urls payload) w1
       = (Return fss, w2) ->
     mapM (mapM (_upload_video env)) fss w2 = (Return hss, w3) ->
     let res :=
       send_video_group env (chat_id payload) (message_id payload)
         (concat hss) w3 in
     _handle_payload env payload w =
       (match res with Return _ => Return Ack | Raise e => Raise e end,
        Os.rmtree folder
          (mkWorld (fs w3)
             (log w3 ++ [EvSendVideoGroup (chat_id payload)
                           (message_id payload) (concat hss) res])))) /\
  (forall result w',
     _handle_payload env payload w = (Return result, w') ->
     exists fss w2 hss w3,
       mapM (fun url => _download_videos env folder url) (urls payload) w1
         = (Return fss, w2) /\
       mapM (mapM (_upload_video env)) fss w2 = (Return hss, w3) /\
       length fss = length (urls payload) /\
       Forall2 (fun fs hs => length hs = length fs) fss hss /\
       log w' =
         log w3 ++ [EvSendVideoGroup (chat_id payload) (message_id payload)
                      (concat hss) (Return tt);
                    EvRmtree folder]).
Proof.
  intros Htmp. split.
  - intros fss w2 hss w3 Hfetch Hup res.
    rewrite (handle_payload_by_url _ _ _ _ _ Htmp).
    rewrite (bind_Return _ _ _ _ _ Hfetch), (bind_Return _ _ _ _ _ Hup).
    rewrite reply_step. reflexivity.
  - intros result w'. rewrite (handle_payload_by_url _ _ _ _ _ Htmp).
    unfold bind at 1.
    destruct (mapM _ (urls payload) w1) as [[fss | e] w2] eqn:Hfetch;
      [| discriminate].
    unfold bind at 1.
    destruct (mapM (mapM (_upload_video env)) fss w2) as [[hss | e] w3]
      eqn:Hup; [| discriminate].
    rewrite reply_step. cbv zeta.
    destruct (send_video_group env _ _ (concat hss) w3) as [[] | e] eqn:Hsend;
      [| discriminate].
    intros H. inversion H; subst. exists fss, w2, hss, w3.
    split; [first [reflexivity | exact Hfetch] |].
    split; [first [reflexivity | exact Hup] |].
    split; [eapply mapM_length; exact Hfetch |].
    split; [eapply mapM_mapM_lengths; exact Hup |].
    simpl. rewrite <- app_assoc. reflexivity.
Qed.

(** ** What the pipeline leaves in the world *)

Lemma incl_write_path (paths : list string) (p : string) :
  incl paths (Os.write_path paths p).
Proof.
  unfold Os.write_path. destruct (existsb _ paths).
  - apply incl_refl.
  - apply incl_appl, incl_refl.
Qed.

Lemma incl_write_paths (written paths : list string) :
  incl paths (Os.write_paths paths written).
Proof.
  unfold Os.write_paths. revert paths.
  induction written as [| p written IH]; intros paths; simpl.
  - apply incl_refl.
  - eapply incl_tran; [apply incl_write_path | apply IH].
Qed.

Lemma quiet_staging env ev : quiet ev -> staging env ev.
Proof. destruct ev; simpl; intros H; try exact I; destruct H. Qed.

Lemma logs_weaken {A} (m : M A) (P Q : Event -> Prop) :
  (forall ev, P ev -> Q ev) -> logs m P -> logs m Q.
Proof.
  intros HPQ Hm w o w' H. destruct (Hm _ _ _ H) as (Hfs & evs & Hlog & HP).
  split; [exact Hfs |]. exists evs. split; [exact Hlog |].
  eapply Forall_impl; eassumption.
Qed.

Lemma logs_ret {A} (a : A) P : logs (ret a) P.
Proof.
  intros w o w' H. inversion H; subst. split; [apply incl_refl |].
  exists []. rewrite app_nil_r. auto.
Qed.

Lemma logs_raise {A} (e : Exc) P : logs (@raise A e) P.
Proof.
  intros w o w' H. inversion H; subst. split; [apply incl_refl |].
  exists []. rewrite app_nil_r. auto.
Qed.

Lemma logs_bind {A B} (m : M A) (k : A -> M B) P :
  logs m P -> (forall a, logs (k a) P) -> logs (bind m k) P.
Proof.
  intros Hm Hk w o w'. unfold bind.
  destruct (m w) as [[a | e] w1] eqn:Em; intros Ek.
  - destruct (Hm _ _ _ Em) as (Hfs1 & evs1 & Hlog1 & HP1).
    destruct (Hk a _ _ _ Ek) as (Hfs2 & evs2 & Hlog2 & HP2).
    split; [eapply incl_tran; eassumption |].
    exists (evs1 ++ evs2). split.
    + rewrite Hlog2, Hlog1, app_assoc. reflexivity.
    + apply Forall_app. auto.
  - inversion Ek; subst. eapply Hm. exact Em.
Qed.

Lemma logs_mapM {A B} (g : A -> M B) (xs : list A) P :
  (forall x, logs (g x) P) -> logs (mapM g xs) P.
Proof.
  intros Hg. induction xs as [| x xs IH]; simpl.
  - apply logs_ret.
  - apply logs_bind; [apply Hg | intros y].
    apply logs_bind; [exact IH | intros ys; apply logs_ret].
Qed.

Lemma logs_flat_mapM {A B} (f : A -> M (list B)) (xs : list A) P :
  (forall x, logs (f x) P) -> logs (flat_mapM f xs) P.
Proof.
  intros Hf. induction xs as [| x xs IH]; simpl.
  - apply logs_ret.
  - apply logs_bind; [apply Hf | intros y].
    apply logs_bind; [exact IH | intros ys; apply logs_ret].
Qed.

(** One call that appends one event and only adds paths. *)
Lemma logs_one {A} (m : M A) (P : Event -> Prop) :
  (forall w, exists ev,
     P ev /\ incl (fs w) (fs (snd (m w))) /\
     log (snd (m w)) = log w ++ [ev]) ->
  logs m P.
Proof.
  intros Hm w o w' H. destruct (Hm w) as (ev & HP & Hfs & Hlog).
  rewrite H in Hfs, Hlog. simpl in Hfs, Hlog.
  split; [exact Hfs |]. exists [ev]. auto.
Qed.

Lemma logs_mkdir (p : string) P : P (EvMkdir p) -> logs (Os.mkdir p) P.
Proof.
  intros HP w o w'. unfold Os.mkdir.
  destruct (p =? "")%string;
    [| destruct (Os.exists_ p w); [| destruct (negb _)]]; intros H;
    inversion H; subst; simpl.
  - split; [apply incl_refl |]. exists []. rewrite app_nil_r. auto.
  - split; [apply incl_refl |]. exists []. rewrite app_nil_r. auto.
  - split; [apply incl_refl |]. exists []. rewrite app_nil_r. auto.
  - split; [apply incl_appl, incl_refl |]. exists [EvMkdir p]. auto.
Qed.

Lemma logs_listdir env (d : string) P :
  (forall names, P (EvListdir d names)) -> logs (Os.listdir env d) P.
Proof.
  intros HP w o w'. unfold Os.listdir.
  destruct (Os.exists_ d w); intros H; inversion H; subst; simpl.
  - split; [apply incl_refl |]. eexists [_]. auto.
  - split; [apply incl_refl |]. exists []. rewrite app_nil_r. auto.
Qed.

Lemma logs_YoutubeDL_download env outtmpl url P :
  (forall rc, P (EvYtdl outtmpl url rc)) ->
  logs (YoutubeDL_download env outtmpl url) P.
Proof.
  intros HP. apply logs_one. intros w. unfold YoutubeDL_download.
  destruct (ytdl_download env outtmpl url w) as [rc written]. simpl.
  eexists. split; [apply HP |]. split; [apply incl_write_paths | reflexivity].
Qed.

Lemma logs_Popen_wait env input_path output_path P :
  (forall st, P (EvFfmpeg input_path output_path st)) ->
  logs (Popen_wait env input_path output_path) P.
Proof.
  intros HP. apply logs_one. intros w. unfold Popen_wait.
  destruct (ffmpeg env input_path output_path w) as [st written]. simpl.
  eexists. split; [apply HP |]. split; [apply incl_write_paths | reflexivity].
Qed.

Lemma logs_telegram_upload_video env chat path P :
  (forall r, P (EvUploadVideo chat path r)) ->
  logs (telegram_upload_video env chat path) P.
Proof.
  intros HP. apply logs_one. intros w. unfold telegram_upload_video. simpl.
  eexists. split; [apply HP |]. split; [apply incl_refl | reflexivity].
Qed.

Lemma logs_getitem {A} key (field : option A) P : logs (getitem key field) P.
Proof. destruct field; [apply logs_ret | apply logs_raise]. Qed.

Lemma logs_make_cure_dir env folder P :
  (forall p, P (EvMkdir p)) -> logs (make_cure_dir env folder) P.
Proof.
  intros HP w. unfold make_cure_dir.
  generalize (OsPath.join folder (Uuid.str (uuid4 env w))). intros cure_dir.
  revert w. change (logs (Os.mkdir cure_dir ;; ret cure_dir) P).
  apply logs_bind; [apply logs_mkdir, HP | intros _; apply logs_ret].
Qed.

Lemma logs_download_videos env folder url :
  logs (_download_videos env folder url) quiet.
Proof.
  unfold _download_videos.
  apply logs_bind; [apply logs_make_cure_dir; exact (fun _ => I) |].
  intros cure_dir.
  apply logs_bind;
    [apply logs_YoutubeDL_download; exact (fun _ => I) | intros rc].
  destruct (negb _); [apply logs_ret |].
  apply logs_bind; [apply logs_listdir; exact (fun _ => I) |].
  intros names. apply logs_ret.
Qed.

Lemma logs_ensure_compatibility env original_path :
  logs (_ensure_compatibility env original_path) quiet.
Proof.
  unfold _ensure_compatibility.
  destruct (OsPath.splitext original_path) as [base ext].
  destruct (ext =? ".mp4")%string; [apply logs_ret |].
  apply logs_bind; [| intros _; apply logs_ret].
  unfold _convert_cure.
  apply logs_bind; [apply logs_Popen_wait; exact (fun _ => I) | intros st].
  destruct (negb _); [apply logs_raise | apply logs_ret].
Qed.

Lemma logs_upload_video env video_file :
  logs (_upload_video env video_file) (staging env).
Proof.
  unfold _upload_video.
  apply logs_bind.
  { eapply logs_weaken;
      [apply quiet_staging | apply logs_ensure_compatibility]. }
  intros cure_path.
  apply logs_bind.
  { apply logs_telegram_upload_video. intros r. reflexivity. }
  intros message.
  apply logs_bind; [apply logs_getitem | intros v].
  apply logs_bind; [apply logs_getitem | intros id; apply logs_ret].
Qed.

Lemma logs_telegram_send_video_group env chat reply_to videos P :
  (forall r, P (EvSendVideoGroup chat reply_to videos r)) ->
  logs (telegram_send_video_group env chat reply_to videos) P.
Proof.
  intros HP. apply logs_one. intros w. unfold telegram_send_video_group.
  simpl. eexists. split; [apply HP |]. split; [apply incl_refl | reflexivity].
Qed.

(** ** The workspace *)

Lemma join_nonempty (a b : string) :
  a <> ""%string -> OsPath.join a b <> ""%string.
Proof.
  intros Ha. unfold OsPath.join.
  destruct (Str.startswith b "/") eqn:E.
  - destruct b; [discriminate E | discriminate].
  - destruct (_ || _); destruct a; simpl; try contradiction; discriminate.
Qed.

Lemma mkdir_exists p w :
  p <> ""%string -> Os.exists_ p w = true ->
  Os.mkdir p w = (Raise (mkExc FileExistsError p), w).
Proof.
  intros Hp Hex. unfold Os.mkdir. rewrite Hex.
  destruct (String.eqb_spec p ""); [contradiction | reflexivity].
Qed.

Lemma mkdir_new p w u w' :
  Os.mkdir p w = (Return u, w') ->
  p <> ""%string /\ Os.exists_ p w = false /\ Os.parent_exists p w = true.
Proof.
  unfold Os.mkdir. destruct (String.eqb_spec p ""); [discriminate |].
  destruct (Os.exists_ p w); [discriminate |].
  destruct (Os.parent_exists p w); [auto | discriminate].
Qed.

Lemma mkdir_Raise p w e w' : Os.mkdir p w = (Raise e, w') -> w' = w.
Proof.
  unfold Os.mkdir. destruct (p =? "")%string;
    [| destruct (Os.exists_ p w); [| destruct (negb _)]];
    intros H; inversion H; reflexivity.
Qed.

Lemma mkdir_Return p w u w' :
  Os.mkdir p w = (Return u, w') ->
  w' = mkWorld (fs w ++ [p]) (log w ++ [EvMkdir p]).
Proof.
  unfold Os.mkdir. destruct (p =? "")%string;
    [| destruct (Os.exists_ p w); [| destruct (negb _)]];
    intros H; inversion H; reflexivity.
Qed.

Lemma mkdtemp_loop_spec env dir attempts seq w o w' :
  mkdtemp_loop env dir attempts seq w = (o, w') ->
  match o with
  | Return folder =>
      w' = mkWorld (fs w ++ [folder]) (log w ++ [EvMkdir folder]) /\
      exists name, folder = OsPath.join dir ("tmp" +++ name)
  | Raise _ => w' = w
  end.
Proof.
  revert seq w. induction attempts as [| k IH]; intros seq w; simpl.
  - intros H. inversion H. reflexivity.
  - destruct (Os.mkdir _ w) as [[u | e] w1] eqn:E.
    + intros H. inversion H; subst. split.
      * eapply mkdir_Return. exact E.
      * eexists. reflexivity.
    + apply mkdir_Raise in E. subst w1.
      destruct (is_FileExistsError e).
      * apply IH.
      * intros H. inversion H. reflexivity.
Qed.

Lemma mkdtemp_Return env dir w folder w1 :
  mkdtemp env dir w = (Return folder, w1) ->
  w1 = mkWorld (fs w ++ [folder]) (log w ++ [EvMkdir folder]) /\
  exists name, folder = OsPath.join dir ("tmp" +++ name).
Proof. intros H. exact (mkdtemp_loop_spec _ _ _ _ _ _ _ H). Qed.

Lemma mkdtemp_Raise env dir w e w1 :
  mkdtemp env dir w = (Raise e, w1) -> w1 = w.
Proof. intros H. exact (mkdtemp_loop_spec _ _ _ _ _ _ _ H). Qed.

Lemma append_nonempty (a b : string) : b <> ""%string -> a +++ b <> ""%string.
Proof. destruct a; simpl; [auto | discriminate]. Qed.

Lemma append_same_inv (a x : string) : a +++ x = a -> x = ""%string.
Proof.
  induction a as [| c a IH]; simpl; [auto |].
  intros H. inversion H. auto.
Qed.

Lemma startswith_append (a b : string) : Str.startswith (a +++ b) a = true.
Proof.
  induction a as [| c a IH]; simpl.
  - destruct b; reflexivity.
  - rewrite Ascii.eqb_refl. exact IH.
Qed.

Lemma mkdtemp_folder_nonempty dir name :
  OsPath.join dir ("tmp" +++ name) <> ""%string.
Proof.
  unfold OsPath.join. simpl.
  destruct (_ || _); apply append_nonempty; discriminate.
Qed.

Lemma hex_digit_not_sep (d : N) : Uuid.hex_digit d <> OsPath.sep.
Proof.
  unfold Uuid.hex_digit.
  destruct (nth_in_or_default (N.to_nat d)
              (list_ascii_of_string "0123456789abcdef") "0"%char) as [H | H].
  - intros E. rewrite E in H. unfold OsPath.sep in H. simpl in H.
    repeat (destruct H as [H | H]; [discriminate H |]). exact H.
  - rewrite H. unfold OsPath.sep. discriminate.
Qed.

Lemma hex_keeps_head (k : nat) (n : N) (c : ascii) (r : string) :
  c <> OsPath.sep ->
  exists c' r', Uuid.hex k n (String c r) = String c' r' /\ c' <> OsPath.sep.
Proof.
  revert n c r. induction k as [| k IH]; intros n c r Hc; simpl.
  - eauto.
  - apply IH. apply hex_digit_not_sep.
Qed.

Lemma uuid_str_head (n : N) :
  exists c r, Uuid.str n = String c r /\ c <> OsPath.sep.
Proof.
  unfold Uuid.str.
  assert (H : exists c r, Uuid.hex 32 n "" = String c r /\ c <> OsPath.sep).
  { change (Uuid.hex 32 n "")
      with (Uuid.hex 31 (n / 16)%N
              (String (Uuid.hex_digit (n mod 16)%N) "")).
    apply hex_keeps_head, hex_digit_not_sep. }
  destruct H as (c & r & -> & Hc).
  exists c. eexists. split; [| exact Hc].
  unfold Str.slice at 1. simpl Z.to_nat. simpl Str.drop.
  change (Pos.to_nat 8) with 8%nat. simpl Str.take. simpl. reflexivity.
Qed.

Lemma startswith_sep_false (x : ascii) (r : string) :
  x <> OsPath.sep -> Str.startswith (String x r) "/" = false.
Proof.
  intros Hx.
  change (Str.startswith (String x r) "/")
    with (Ascii.eqb "/"%char x && Str.startswith r "").
  destruct (Ascii.eqb_spec "/"%char x) as [E | _]; [| reflexivity].
  exfalso. apply Hx. symmetry. exact E.
Qed.

Lemma join_relative (a r : string) (x : ascii) :
  a <> ""%string -> x <> OsPath.sep ->
  OsPath.join a (String x r) = Os.below a +++ String x r.
Proof.
  intros Ha Hx. unfold OsPath.join, Os.below.
  rewrite (startswith_sep_false x r Hx).
  destruct (String.eqb_spec a ""); [contradiction |]. cbn [orb].
  destruct (Str.endswith a OsPath.sep); [reflexivity |].
  rewrite append_assoc. reflexivity.
Qed.

Lemma below_extends (d : string) : exists x, Os.below d = d +++ x.
Proof.
  unfold Os.below. destruct (Str.endswith d OsPath.sep).
  - exists ""%string. symmetry. apply append_empty_r.
  - eexists. reflexivity.
Qed.

Lemma make_cure_dir_inside env folder w cure_dir w' :
  folder <> ""%string ->
  make_cure_dir env folder w = (Return cure_dir, w') ->
  Os.is_inside folder cure_dir = true /\ cure_dir <> folder.
Proof.
  intros Hfolder. unfold make_cure_dir.
  destruct (uuid_str_head (uuid4 env w)) as (c & r & -> & Hc).
  rewrite (join_relative folder r c Hfolder Hc).
  unfold bind, ret. destruct (Os.mkdir _ w) as [[u | e] w1]; [| discriminate].
  intros H. inversion H; subst. split.
  - unfold Os.is_inside. rewrite startswith_append. apply orb_true_r.
  - destruct (below_extends folder) as (x & ->). rewrite append_assoc.
    intros E. apply append_same_inv in E. destruct x; discriminate E.
Qed.

Lemma make_cure_dir_form env folder w cure_dir w' :
  folder <> ""%string ->
  make_cure_dir env folder w = (Return cure_dir, w') ->
  exists u, cure_dir = Os.below folder +++ u /\ u <> ""%string.
Proof.
  intros Hfolder. unfold make_cure_dir.
  destruct (uuid_str_head (uuid4 env w)) as (c & r & -> & Hc).
  rewrite (join_relative folder r c Hfolder Hc).
  unfold bind, ret. destruct (Os.mkdir _ w) as [[u | e] w1]; [| discriminate].
  intros H. inversion H; subst. eexists. split; [reflexivity | discriminate].
Qed.

Lemma endswith_inv (s : string) (c : ascii) :
  Str.endswith s c = true -> exists d, s = d +++ String c "".
Proof.
  induction s as [| a s IH]; [discriminate |].
  destruct s as [| b s'].
  - simpl. intros H. apply Ascii.eqb_eq in H. subst.
    exists ""%string. reflexivity.
  - intros H. destruct (IH H) as (d & Hd). exists (String a d).
    simpl. rewrite <- Hd. reflexivity.
Qed.

Lemma below_ends_sep (d : string) :
  exists D, Os.below d = D +++ String OsPath.sep "".
Proof.
  unfold Os.below. destruct (Str.endswith d OsPath.sep) eqn:E.
  - apply endswith_inv. exact E.
  - exists d. reflexivity.
Qed.

Lemma inside_below (folder cure_dir u s : string) :
  cure_dir = Os.below folder +++ u ->
  Os.is_inside folder (Os.below cure_dir +++ s) = true.
Proof.
  intros ->. unfold Os.is_inside.
  destruct (below_extends (Os.below folder +++ u)) as (x & ->).
  rewrite !append_assoc, startswith_append. apply orb_true_r.
Qed.

Lemma entries_names (d : string) (paths : list string) (name : string) :
  In name (Os.entries d paths) ->
  name <> ""%string /\ Str.contains name OsPath.sep = false.
Proof.
  induction paths as [| p paths IH]; simpl; [contradiction |].
  destruct (Os.entry_name d p) as [n |] eqn:E; [| exact IH].
  intros [<- | Hin]; [| exact (IH Hin)].
  unfold Os.entry_name in E.
  destruct (Str.strip_prefix p (Os.below d)) as [n' |]; [| discriminate].
  destruct ((n' =? "")%string || Str.contains n' OsPath.sep) eqn:C;
    [discriminate |].
  inversion E; subst n'. apply orb_false_iff in C. destruct C as [C1 C2].
  split; [apply String.eqb_neq; exact C1 | exact C2].
Qed.

(** The files a fetch returns, and the paths they are converted to, are
    inside the workspace. *)
Lemma download_videos_inside env folder url w files w' :
  folder <> ""%string ->
  _download_videos env folder url w = (Return files, w') ->
  Forall (fun file =>
            Os.is_inside folder file = true /\
            forall base ext,
              OsPath.splitext file = (base, ext) ->
              Os.is_inside folder (base +++ ".mp4") = true) files.
Proof.
  intros Hfolder. unfold _download_videos. unfold bind at 1.
  destruct (make_cure_dir env folder w) as [[cure_dir | e] w1] eqn:Hdir;
    [| discriminate].
  destruct (make_cure_dir_form _ _ _ _ _ Hfolder Hdir) as (u & Hcure & Hu).
  unfold bind at 1.
  destruct (YoutubeDL_download env _ url w1) as [[rc | e] w2];
    [| discriminate].
  destruct (negb (rc =? 0)).
  { intros H. inversion H. constructor. }
  unfold bind, Os.listdir, ret.
  destruct (Os.exists_ cure_dir w2); [| discriminate].
  intros H. inversion H; subst files w'. clear H.
  apply Forall_forall. intros file Hin. apply in_map_iff in Hin.
  destruct Hin as (name & <- & Hname). apply In_order_by in Hname.
  apply entries_names in Hname.
  destruct Hname as (Hne & Hsep).
  destruct name as [| x r]; [contradiction |].
  assert (Hx : x <> OsPath.sep).
  { simpl in Hsep. apply orb_false_iff in Hsep. destruct Hsep as [Hx _].
    apply Ascii.eqb_neq. exact Hx. }
  assert (Hc : cure_dir <> ""%string)
    by (rewrite Hcure; apply append_nonempty; exact Hu).
  rewrite (join_relative cure_dir r x Hc Hx). split.
  - eapply inside_below. exact Hcure.
  - intros base ext Hsplit.
    destruct (below_ends_sep cure_dir) as (D & HD).
    assert (Hfile : Os.below cure_dir +++ String x r
                    = D +++ String OsPath.sep (String x r))
      by (rewrite HD, append_assoc; reflexivity).
    rewrite Hfile in Hsplit.
    destruct (splitext_directory _ _ _ _ Hsep Hsplit) as (stem & -> & _).
    replace ((D +++ String OsPath.sep stem) +++ ".mp4")
      with (Os.below cure_dir +++ stem +++ ".mp4")
      by (rewrite HD, !append_assoc; reflexivity).
    eapply inside_below. exact Hcure.
Qed.

Lemma rmtree_removes d w p :
  Os.is_inside d p = true -> ~ In p (fs (Os.rmtree d w)).
Proof.
  intros H Hin. unfold Os.rmtree in Hin. simpl in Hin.
  apply filter_In in Hin. destruct Hin as [_ Hn]. rewrite H in Hn.
  discriminate.
Qed.

Lemma rmtree_keeps d w p :
  In p (fs w) -> Os.is_inside d p = false -> In p (fs (Os.rmtree d w)).
Proof.
  intros Hin H. unfold Os.rmtree. simpl. apply filter_In.
  rewrite H. auto.
Qed.

Lemma logs_pipeline env payload folder :
  logs (files <- flat_mapM (fun url => _download_videos env folder url)
                   (urls payload) ;;
        video_ids <- mapM (_upload_video env) files ;;
        telegram_send_video_group env (chat_id payload) (message_id payload)
          video_ids ;;
        ret Ack) (fun _ => True).
Proof.
  apply logs_bind.
  { apply logs_flat_mapM. intros url.
    eapply logs_weaken; [| apply logs_download_videos]. auto. }
  intros files. apply logs_bind.
  { apply logs_mapM. intros file.
    eapply logs_weaken; [| apply logs_upload_video]. auto. }
  intros ids. apply logs_bind; [| intros _; apply logs_ret].
  apply logs_telegram_send_video_group. auto.
Qed.

(** C5. The workspace made at the start of the job is removed when the
    handler exits, whatever its outcome: no path inside it is left; the
    folders made for the URLs, the files fetched into them and the paths
    they are converted to are inside it; and the paths that were outside it
    are still there. When no workspace could be made the handler raises and
    the world is as it was. *)
Theorem workspace_is_removed_on_every_exit
    (env : Env) (payload : DownloadMessage) (w w' : World)
    (outcome : Outcome Result) :
  _handle_payload env payload w = (outcome, w') ->
  (forall e w1,
     mkdtemp env (_STORAGE_DIR env) w = (Raise e, w1) ->
     outcome = Raise e /\ w' = w) /\
  (forall folder w1,
     mkdtemp env (_STORAGE_DIR env) w = (Return folder, w1) ->
     In folder (fs w1) /\
     (forall p, Os.is_inside folder p = true -> ~ In p (fs w')) /\
     (forall p, In p (fs w) -> Os.is_inside folder p = false ->
                In p (fs w')) /\
     (exists evs,
        log w' = log w ++ EvMkdir folder :: evs ++ [EvRmtree folder]) /\
     (forall w2 cure_dir w3,
        make_cure_dir env folder w2 = (Return cure_dir, w3) ->
        Os.is_inside folder cure_dir = true /\ cure_dir <> folder) /\
     (forall url w2 files w3,
        _download_videos env folder url w2 = (Return files, w3) ->
        Forall (fun file =>
                  Os.is_inside folder file = true /\
                  forall base ext,
                    OsPath.splitext file = (base, ext) ->
                    Os.is_inside folder (base +++ ".mp4") = true) files)).
Proof.
  intros Hrun. split.
  - intros e w1 Htmp. rewrite (handle_payload_no_workspace _ _ _ _ _ Htmp) in Hrun.
    inversion Hrun; subst. split; [reflexivity |].
    eapply mkdtemp_Raise. exact Htmp.
  - intros folder w1 Htmp.
    rewrite (handle_payload_run _ _ _ _ _ Htmp) in Hrun.
    destruct (mkdtemp_Return _ _ _ _ _ Htmp) as (Hw1 & name & Hname).
    match type of Hrun with
    | (let '(_, _) := ?body w1 in _) = _ =>
        destruct (body w1) as [o w2] eqn:Hbody
    end.
    inversion Hrun; subst outcome w'. clear Hrun.
    destruct (logs_pipeline _ _ _ _ _ _ Hbody) as (Hfs & evs & Hlog & _).
    split; [rewrite Hw1; simpl; apply in_or_app; right; left; reflexivity |].
    split; [intros p Hp; apply rmtree_removes; exact Hp |].
    split.
    { intros p Hin Hout. apply rmtree_keeps; [| exact Hout].
      apply Hfs. rewrite Hw1. simpl. apply in_or_app. left. exact Hin. }
    split.
    { exists evs. unfold Os.rmtree. simpl. rewrite Hlog, Hw1. simpl.
      rewrite <- !app_assoc. reflexivity. }
    assert (Hfolder : folder <> ""%string)
      by (rewrite Hname; apply mkdtemp_folder_nonempty).
    split.
    { intros w3 cure_dir w4. apply make_cure_dir_inside. exact Hfolder. }
    intros url w3 files w4. apply download_videos_inside. exact Hfolder.
Qed.

(** ** The handles of the uploads *)

Lemma quiet_no_handles (evs : list Event) :
  Forall quiet evs -> upload_handles evs = [].
Proof.
  induction 1 as [| ev evs Hev _ IH]; [reflexivity |].
  unfold upload_handles in *. simpl. rewrite IH.
  destruct ev; simpl in *; try reflexivity; destruct Hev.
Qed.

Lemma upload_handles_app (evs1 evs2 : list Event) :
  upload_handles (evs1 ++ evs2) = upload_handles evs1 ++ upload_handles evs2.
Proof. apply flat_map_app. Qed.

Lemma upload_video_handle env video_file w id w' :
  _upload_video env video_file w = (Return id, w') ->
  exists evs, log w' = log w ++ evs /\ upload_handles evs = [id].
Proof.
  unfold _upload_video, bind at 1.
  destruct (_ensure_compatibility env video_file w) as [[cure_path | e] w1]
    eqn:Eens; [| discriminate].
  destruct (logs_ensure_compatibility _ _ _ _ _ Eens)
    as (_ & evs1 & Hlog1 & Hq).
  unfold bind, telegram_upload_video, getitem, ret, raise.
  destruct (upload_video env (_UPLOAD_CHAT env) cure_path w1)
    as [[[[[id' |]] |]] | e] eqn:Eup; try discriminate.
  intros H. inversion H; subst. simpl.
  exists (evs1 ++ [EvUploadVideo (_UPLOAD_CHAT env) cure_path
                     (Return (mkTgMessage (Some (mkTgVideo (Some id)))))]).
  split.
  - rewrite Hlog1, app_assoc. reflexivity.
  - rewrite upload_handles_app, (quiet_no_handles _ Hq). reflexivity.
Qed.

Lemma mapM_upload_handles env files w ids w' :
  mapM (_upload_video env) files w = (Return ids, w') ->
  exists evs, log w' = log w ++ evs /\ upload_handles evs = ids.
Proof.
  revert w ids. induction files as [| file files IH]; intros w ids; simpl.
  - intros H. inversion H; subst. exists []. rewrite app_nil_r. auto.
  - unfold bind, ret.
    destruct (_upload_video env file w) as [[id | e] w1] eqn:E1;
      [| discriminate].
    destruct (mapM (_upload_video env) files w1) as [[ids' | e] w2] eqn:E2;
      [| discriminate].
    intros H. inversion H; subst.
    destruct (upload_video_handle _ _ _ _ _ E1) as (evs1 & Hl1 & Hh1).
    destruct (IH _ _ E2) as (evs2 & Hl2 & Hh2).
    exists (evs1 ++ evs2). split.
    + rewrite Hl2, Hl1, app_assoc. reflexivity.
    + rewrite upload_handles_app, Hh1, Hh2. reflexivity.
Qed.

(** The events of a job: calls that are not replies and uploads to the
    staging chat and, when the reply step is reached, the reply with the
    handles of those uploads, and the removal of the workspace. *)
Lemma handle_payload_events env payload w outcome w' :
  _handle_payload env payload w = (outcome, w') ->
  (exists pre, log w' = log w ++ pre /\ Forall (staging env) pre) \/
  (exists pre folder res,
     log w' = log w ++ pre ++
                [EvSendVideoGroup (chat_id payload) (message_id payload)
                   (upload_handles pre) res;
                 EvRmtree folder] /\
     Forall (staging env) pre).
Proof.
  destruct (mkdtemp env (_STORAGE_DIR env) w) as [[folder | e] w1] eqn:Htmp.
  2:{ rewrite (handle_payload_no_workspace _ _ _ _ _ Htmp).
      intros H. inversion H; subst.
      rewrite (mkdtemp_Raise _ _ _ _ _ Htmp).
      left. exists []. rewrite app_nil_r. auto. }
  rewrite (handle_payload_run _ _ _ _ _ Htmp).
  destruct (mkdtemp_Return _ _ _ _ _ Htmp) as (Hw1 & _).
  assert (Hlog1 : log w1 = log w ++ [EvMkdir folder])
    by (rewrite Hw1; reflexivity).
  unfold bind at 1.
  destruct (flat_mapM _ (urls payload) w1) as [[files | e] w2] eqn:Hfetch.
  2:{ intros H. inversion H; subst.
      destruct (logs_flat_mapM _ (urls payload) quiet
                  (logs_download_videos env folder) _ _ _ Hfetch)
        as (_ & evs & Hlog & Hq).
      left. exists ([EvMkdir folder] ++ evs ++ [EvRmtree folder]). split.
      - unfold Os.rmtree. simpl. rewrite Hlog, Hlog1.
        rewrite <- !app_assoc. reflexivity.
      - apply Forall_app. split; [repeat constructor |].
        apply Forall_app. split; [| repeat constructor].
        eapply Forall_impl; [apply quiet_staging | exact Hq]. }
  destruct (logs_flat_mapM _ (urls payload) quiet
              (logs_download_videos env folder) _ _ _ Hfetch)
    as (_ & evs_f & Hlog_f & Hq).
  unfold bind at 1.
  destruct (mapM (_upload_video env) files w2) as [[ids | e] w3] eqn:Hup.
  2:{ intros H. inversion H; subst.
      destruct (logs_mapM _ files (staging env) (logs_upload_video env)
                  _ _ _ Hup) as (_ & evs & Hlog & Hs).
      left.
      exists ([EvMkdir folder] ++ evs_f ++ evs ++ [EvRmtree folder]). split.
      - unfold Os.rmtree. simpl. rewrite Hlog, Hlog_f, Hlog1.
        rewrite <- !app_assoc. reflexivity.
      - apply Forall_app. split; [repeat constructor |].
        apply Forall_app. split;
          [eapply Forall_impl; [apply quiet_staging | exact Hq] |].
        apply Forall_app. split; [exact Hs | repeat constructor]. }
  destruct (logs_mapM _ files (staging env) (logs_upload_video env)
              _ _ _ Hup) as (_ & evs_u & Hlog_u & Hs).
  destruct (mapM_upload_handles _ _ _ _ _ Hup) as (evs_u' & Hlog_u' & Hh).
  assert (evs_u' = evs_u).
  { rewrite Hlog_u in Hlog_u'. eapply app_inv_head. symmetry. exact Hlog_u'. }
  subst evs_u'.
  rewrite reply_step. cbv zeta. intros H. inversion H; subst. right.
  exists ([EvMkdir folder] ++ evs_f ++ evs_u), folder.
  eexists. split.
  - unfold Os.rmtree. simpl log. rewrite Hlog_u, Hlog_f, Hlog1.
    rewrite !upload_handles_app, (quiet_no_handles _ Hq). simpl.
    rewrite <- !app_assoc. reflexivity.
  - apply Forall_app. split; [repeat constructor |].
    apply Forall_app. split;
      [eapply Forall_impl; [apply quiet_staging | exact Hq] | exact Hs].
Qed.

Lemma staging_upload env chat path r evs :
  Forall (staging env) evs -> In (EvUploadVideo chat path r) evs ->
  chat = _UPLOAD_CHAT env.
Proof.
  intros HF Hin. rewrite Forall_forall in HF. exact (HF _ Hin).
Qed.

Lemma staging_no_reply env c m vids r evs :
  Forall (staging env) evs -> ~ In (EvSendVideoGroup c m vids r) evs.
Proof.
  intros HF Hin. rewrite Forall_forall in HF. exact (HF _ Hin).
Qed.

Lemma quiet_no_uploads (evs : list Event) :
  Forall quiet evs -> uploads evs = [] /\ existsb is_reply evs = false.
Proof.
  induction 1 as [| ev evs Hev _ [IHu IHr]]; [split; reflexivity |].
  unfold uploads in *. simpl. rewrite IHu, IHr.
  destruct ev; simpl in *; try (split; reflexivity); destruct Hev.
Qed.

Lemma uploads_app (evs1 evs2 : list Event) :
  uploads (evs1 ++ evs2) = uploads evs1 ++ uploads evs2.
Proof. apply flat_map_app. Qed.

Lemma ensure_compatibility_normalized env file w cure_path w' :
  _ensure_compatibility env file w = (Return cure_path, w') ->
  cure_path = normalized file.
Proof.
  unfold _ensure_compatibility, normalized.
  destruct (OsPath.splitext file) as [base ext].
  destruct (ext =? ".mp4")%string.
  - intros H. inversion H. reflexivity.
  - unfold bind, ret.
    destruct (_convert_cure env file (base +++ ".mp4") w) as [[u | e] w1];
      [| discriminate].
    intros H. inversion H. reflexivity.
Qed.

(** One file: the only upload is the one of its normalized path to the
    staging chat, and the handle is the one that upload returned. *)
Lemma upload_video_events env video_file w id w' :
  _upload_video env video_file w = (Return id, w') ->
  exists evs,
    log w' = log w ++ evs /\
    uploads evs = [(_UPLOAD_CHAT env, normalized video_file)] /\
    upload_handles evs = [id] /\
    existsb is_reply evs = false.
Proof.
  unfold _upload_video, bind at 1.
  destruct (_ensure_compatibility env video_file w) as [[cure_path | e] w1]
    eqn:Eens; [| discriminate].
  destruct (logs_ensure_compatibility _ _ _ _ _ Eens)
    as (_ & evs1 & Hlog1 & Hq).
  apply ensure_compatibility_normalized in Eens. subst cure_path.
  destruct (quiet_no_uploads _ Hq) as (Hu & Hr).
  unfold bind, telegram_upload_video, getitem, ret, raise.
  destruct (upload_video env (_UPLOAD_CHAT env) (normalized video_file) w1)
    as [[[[[id' |]] |]] | e] eqn:Eup; try discriminate.
  intros H. inversion H; subst. simpl.
  exists (evs1 ++ [EvUploadVideo (_UPLOAD_CHAT env) (normalized video_file)
                     (Return (mkTgMessage (Some (mkTgVideo (Some id)))))]).
  split; [rewrite Hlog1, app_assoc; reflexivity |].
  split; [rewrite uploads_app, Hu; reflexivity |].
  split; [rewrite upload_handles_app, (quiet_no_handles _ Hq); reflexivity |].
  rewrite existsb_app, Hr. reflexivity.
Qed.

Lemma mapM_upload_events env files w ids w' :
  mapM (_upload_video env) files w = (Return ids, w') ->
  exists evs,
    log w' = log w ++ evs /\
    uploads evs = map (fun file => (_UPLOAD_CHAT env, normalized file)) files /\
    upload_handles evs = ids /\
    existsb is_reply evs = false.
Proof.
  revert w ids. induction files as [| file files IH]; intros w ids; simpl.
  - intros H. inversion H; subst. exists []. rewrite app_nil_r. auto.
  - unfold bind, ret.
    destruct (_upload_video env file w) as [[id | e] w1] eqn:E1;
      [| discriminate].
    destruct (mapM (_upload_video env) files w1) as [[ids' | e] w2] eqn:E2;
      [| discriminate].
    intros H. inversion H; subst.
    destruct (upload_video_events _ _ _ _ _ E1) as (evs1 & Hl1 & Hu1 & Hh1 & Hr1).
    destruct (IH _ _ E2) as (evs2 & Hl2 & Hu2 & Hh2 & Hr2).
    exists (evs1 ++ evs2).
    split; [rewrite Hl2, Hl1, app_assoc; reflexivity |].
    split; [rewrite uploads_app, Hu1, Hu2; reflexivity |].
    split; [rewrite upload_handles_app, Hh1, Hh2; reflexivity |].
    rewrite existsb_app, Hr1, Hr2. reflexivity.
Qed.

(** C9. Every upload of a job goes to the chat named by [UPLOAD_CHAT_ID],
    which is [1259947317] when the variable is not set; the chat and the
    message of the job appear in the grouped reply only, and all that the
    job does before and after the reply is the same for jobs with the same
    URLs. When the handler returns, every fetched file was uploaded to that
    chat under its normalized path, once and in the order of the files,
    and after these uploads the one reply was sent to the chat and the
    message of the job with the handles the uploads returned, one for each
    file. *)
Theorem uploads_go_to_the_staging_chat
    (env : Env) (payload : DownloadMessage) (w w' : World)
    (outcome : Outcome Result) :
  _handle_payload env payload w = (outcome, w') ->
  _UPLOAD_CHAT env =
    match environ env "UPLOAD_CHAT_ID" with
    | Some chat => chat
    | None => "1259947317"%string
    end /\
  (exists evs,
     log w' = log w ++ evs /\
     (forall chat path r,
        In (EvUploadVideo chat path r) evs -> chat = _UPLOAD_CHAT env) /\
     (forall c m vids r,
        In (EvSendVideoGroup c m vids r) evs ->
        c = chat_id payload /\ m = message_id payload /\
        vids = upload_handles evs)) /\
  (forall payload',
     urls payload' = urls payload ->
     let w'' := snd (_handle_payload env payload' w) in
     fs w'' = fs w' /\
     filter (fun ev => negb (is_reply ev)) (log w'') =
     filter (fun ev => negb (is_reply ev)) (log w')) /\
  (forall result,
     outcome = Return result ->
     exists folder w1 files w2 evs ids,
       mkdtemp env (_STORAGE_DIR env) w = (Return folder, w1) /\
       flat_mapM (fun url => _download_videos env folder url) (urls payload)
         w1 = (Return files, w2) /\
       log w' =
         log w2 ++ evs ++
           [EvSendVideoGroup (chat_id payload) (message_id payload) ids
              (Return tt);
            EvRmtree folder] /\
       uploads evs =
         map (fun file => (_UPLOAD_CHAT env, normalized file)) files /\
       upload_handles evs = ids /\
       length ids = length files /\
       existsb is_reply evs = false).
Proof.
  intros Hrun. split; [reflexivity |]. split; [| split].
  - destruct (handle_payload_events _ _ _ _ _ Hrun)
      as [(pre & Hlog & Hs) | (pre & folder & res & Hlog & Hs)].
    + exists pre. split; [exact Hlog |]. split.
      * intros chat path r. apply staging_upload. exact Hs.
      * intros c m vids r Hin. exfalso.
        exact (staging_no_reply _ _ _ _ _ _ Hs Hin).
    + eexists. split; [exact Hlog |]. split.
      * intros chat path r Hin. apply in_app_or in Hin.
        destruct Hin as [Hin | [Hin | [Hin | []]]]; try discriminate Hin.
        eapply staging_upload; eassumption.
      * intros c m vids r Hin. apply in_app_or in Hin.
        destruct Hin as [Hin | [Hin | [Hin | []]]]; try discriminate Hin.
        { exfalso. exact (staging_no_reply _ _ _ _ _ _ Hs Hin). }
        inversion Hin; subst.
        rewrite upload_handles_app. simpl. rewrite app_nil_r. auto.
  - intros payload' Hurls. cbv zeta. revert Hrun.
    unfold _handle_payload, with_TemporaryDirectory, bind, ret,
      telegram_send_video_group.
    rewrite Hurls.
    destruct (mkdtemp env (_STORAGE_DIR env) w) as [[folder | e] w1].
    2:{ intros H; inversion H; subst. auto. }
    destruct (flat_mapM _ (urls payload) w1) as [[files | e] w2].
    2:{ intros H; inversion H; subst. auto. }
    destruct (mapM (_upload_video env) files w2) as [[ids | e] w3].
    2:{ intros H; inversion H; subst. auto. }
    destruct (send_video_group env (chat_id payload) _ ids w3);
      destruct (send_video_group env (chat_id payload') _ ids w3);
      intros H; inversion H; subst; simpl; (split; [reflexivity |]);
      rewrite !filter_app; reflexivity.
  - intros result ->. revert Hrun.
    destruct (mkdtemp env (_STORAGE_DIR env) w) as [[folder | e] w1] eqn:Htmp.
    2:{ rewrite (handle_payload_no_workspace _ _ _ _ _ Htmp). discriminate. }
    rewrite (handle_payload_run _ _ _ _ _ Htmp). unfold bind at 1.
    destruct (flat_mapM _ (urls payload) w1) as [[files | e] w2] eqn:Hfetch;
      [| discriminate].
    unfold bind at 1.
    destruct (mapM (_upload_video env) files w2) as [[ids | e] w3] eqn:Hup;
      [| discriminate].
    rewrite reply_step. cbv zeta.
    destruct (send_video_group env _ _ ids w3) as [[] | e]; [| discriminate].
    intros H. inversion H; subst.
    destruct (mapM_upload_events _ _ _ _ _ Hup) as (evs & Hl & Hu & Hh & Hr).
    exists folder, w1, files, w2, evs, ids.
    split; [first [reflexivity | exact Htmp] |].
    split; [first [reflexivity | exact Hfetch] |].
    split; [simpl; rewrite Hl, <- !app_assoc; reflexivity |].
    split; [exact Hu |]. split; [exact Hh |].
    split; [eapply mapM_length; exact Hup | exact Hr].
Qed.

(** * The theorems on the sample data *)

Lemma normalization_converts_witness :
  OsPath.splitext "d/output1.webm"
    = ("d/output1"%string, ".webm"%string) /\
  log (snd (_upload_video Sample.env "d/output1.webm" Sample.w0)) =
    [EvFfmpeg "d/output1.webm" "d/output1.mp4" (Return 0);
     EvUploadVideo "1259947317" "d/output1.mp4"
       (Return
          (mkTgMessage (Some (mkTgVideo (Some "id:d/output1.mp4"%string)))))].
Proof.
  split; [reflexivity |].
  destruct (normalization_converts_exactly_when_needed Sample.env
              "d/output1.webm" "d/output1" ".webm" Sample.w0 eq_refl)
    as (_ & _ & _ & H).
  destruct (H ltac:(discriminate)) as (_ & Hok & _).
  destruct (Hok eq_refl) as (_ & Hlog). exact Hlog.
Defined.


Lemma subscriber_fallback_witness :
  (cfg <- Sample.rabbit_from_env ;; Sample.subscriber_init cfg) Sample.w0
    = (Raise (mkExc ValueError "RABBITMQ_HOST missing"), Sample.w0) /\
  is_ValueError (mkExc ValueError "RABBITMQ_HOST missing") = true /\
  (cfg <- Sample.mqtt_from_env ;; Sample.subscriber_init cfg) Sample.w0
    = (Return (Mqtt.connection Sample.env 1883), Sample.w0) /\
  select_subscriber Sample.rabbit_from_env Sample.subscriber_init
    Sample.mqtt_from_env Sample.subscriber_init Sample.w0
    = (Return (SubMqtt (Mqtt.connection Sample.env 1883)), Sample.w0) /\
  is_ValueError (mkExc UnicodeDecodeError "invalid start byte") = true /\
  select_subscriber
    (raise (mkExc UnicodeDecodeError "invalid start byte") : M string)
    Sample.subscriber_init Sample.mqtt_from_env Sample.subscriber_init
    Sample.w0
    = (Return (SubMqtt (Mqtt.connection Sample.env 1883)), Sample.w0) /\
  is_ValueError (mkExc KeyError "RABBITMQ_HOST") = false /\
  select_subscriber (raise (mkExc KeyError "RABBITMQ_HOST") : M string)
    Sample.subscriber_init Sample.mqtt_from_env Sample.subscriber_init
    Sample.w0
    = (Raise (mkExc KeyError "RABBITMQ_HOST"), Sample.w0).
Proof.
  split; [reflexivity |]. split; [reflexivity |]. split; [reflexivity |].
  destruct (subscriber_is_selected_by_fallback Sample.env _ _ _ _
              Sample.rabbit_from_env Sample.subscriber_init
              Sample.mqtt_from_env Sample.subscriber_init
              (fun _ _ _ => ret tt) Sample.w0) as (_ & H & _).
  destruct (H _ _ eq_refl eq_refl) as (Hok & _).
  split; [exact (Hok _ _ eq_refl) |].
  split; [reflexivity |].
  destruct (subscriber_is_selected_by_fallback Sample.env _ _ _ _
              (raise (mkExc UnicodeDecodeError "invalid start byte")
               : M string)
              Sample.subscriber_init
              Sample.mqtt_from_env Sample.subscriber_init
              (fun _ _ _ => ret tt) Sample.w0) as (_ & H' & _).
  destruct (H' _ _ eq_refl eq_refl) as (Hok' & _).
  split; [exact (Hok' _ _ eq_refl) |].
  split; [reflexivity |].
  destruct (subscriber_is_selected_by_fallback Sample.env _ _ _ _
              (raise (mkExc KeyError "RABBITMQ_HOST") : M string)
              Sample.subscriber_init
              Sample.mqtt_from_env Sample.subscriber_init
              (fun _ _ _ => ret tt) Sample.w0) as (_ & _ & Hno & _).
  exact (Hno _ _ eq_refl eq_refl).
Defined.

Lemma handler_fault_witness :
  environ Sample.env "MQTT_PORT" = Some "1883"%string /\
  PyInt.parse "1883" = Some 1883 /\
  deserialize Sample.message_type "garbage"
    = Raise (mkExc ValueError "malformed payload") /\
  Mqtt.subscribe Sample.env Sample.message_type Sample.handle
    ([] ++ "garbage"%string :: ["ok"%string]) Sample.w0
    = (Raise (mkExc ValueError "malformed payload"),
       snd (Mqtt.subscribe Sample.env Sample.message_type Sample.handle []
              Sample.w0)).
Proof.
  split; [reflexivity |]. split; [reflexivity |]. split; [reflexivity |].
  apply (handler_fault_leaves_the_receive_loop Sample.env
           Sample.message_type Sample.handle "1883" 1883 [] "garbage"
           ["ok"%string] Sample.w0 _ _ _ eq_refl eq_refl eq_refl).
  left. split; reflexivity.
Defined.


Lemma failed_fetch_witness :
  mkdtemp Sample.env (_STORAGE_DIR Sample.env) Sample.w0
    = (Return Sample.folder, Sample.w1) /\
  _download_videos Sample.env Sample.folder Sample.gone Sample.w1
    = (Return [], snd (_download_videos Sample.env Sample.folder Sample.gone
                         Sample.w1)) /\
  fst (flat_mapM (fun url => _download_videos Sample.env Sample.folder url)
         [Sample.gone; Sample.clip] Sample.w1)
    = Return
        ["downloads/tmpk3x_9qab/00000000-0000-0000-0000-000000000003/output1.webm"%string;
         "downloads/tmpk3x_9qab/00000000-0000-0000-0000-000000000003/output2.mp4"%string] /\
  fst (_handle_payload Sample.env (Sample.job [Sample.gone; Sample.clip])
         Sample.w0) = Return Ack.
Proof.
  assert (Htmp : mkdtemp Sample.env (_STORAGE_DIR Sample.env) Sample.w0
                 = (Return Sample.folder, Sample.w1))
    by (vm_compute; reflexivity).
  destruct (failed_fetch_is_skipped Sample.env
              (Sample.job [Sample.gone; Sample.clip]) Sample.gone Sample.clip
              Sample.w0 Sample.w1
              (snd (make_cure_dir Sample.env Sample.folder Sample.w1))
              (snd (_download_videos Sample.env Sample.folder Sample.gone
                      Sample.w1))
              (snd (flat_mapM
                      (fun url => _download_videos Sample.env Sample.folder url)
                      [Sample.gone; Sample.clip] Sample.w1))
              Sample.folder
              "downloads/tmpk3x_9qab/00000000-0000-0000-0000-000000000001"
              1
              ["downloads/tmpk3x_9qab/00000000-0000-0000-0000-000000000003/output1.webm"%string;
               "downloads/tmpk3x_9qab/00000000-0000-0000-0000-000000000003/output2.mp4"%string]
              eq_refl Htmp)
    as (HA & Hfetch & Hrun);
    [vm_compute; reflexivity | vm_compute; reflexivity | lia
    | vm_compute; reflexivity |].
  split; [exact Htmp |]. split; [exact HA |].
  split; [exact (f_equal fst Hfetch) |].
  rewrite Hrun. vm_compute. reflexivity.
Defined.

Lemma conversion_failure_witness :
  fst (ffmpeg Sample.env
         "downloads/tmpk3x_9qab/00000000-0000-0000-0000-000000000004/output1!.mkv"
         "downloads/tmpk3x_9qab/00000000-0000-0000-0000-000000000004/output1!.mp4"
         Sample.w0) = Return 1 /\
  fst (_handle_payload Sample.env
         (Sample.job [Sample.clip; Sample.odd; Sample.clip]) Sample.w0)
    = Raise (mkExc RuntimeError "Could not convert file!") /\
  exists w3,
    log (snd (_handle_payload Sample.env
                (Sample.job [Sample.clip; Sample.odd; Sample.clip])
                Sample.w0)) =
    log w3 ++
      [EvFfmpeg
         "downloads/tmpk3x_9qab/00000000-0000-0000-0000-000000000004/output1!.mkv"
         "downloads/tmpk3x_9qab/00000000-0000-0000-0000-000000000004/output1!.mp4"
         (Return 1);
       EvRmtree Sample.folder].
Proof.
  split; [reflexivity |].
  pose (w2 := snd (flat_mapM
                     (fun url => _download_videos Sample.env Sample.folder url)
                     [Sample.clip; Sample.odd; Sample.clip] Sample.w1)).
  pose (pre :=
          ["downloads/tmpk3x_9qab/00000000-0000-0000-0000-000000000001/output1.webm"%string;
           "downloads/tmpk3x_9qab/00000000-0000-0000-0000-000000000001/output2.mp4"%string]).
  pose (w3 := snd (mapM (_upload_video Sample.env) pre w2)).
  destruct (conversion_failure_aborts_the_job Sample.env
              (Sample.job [Sample.clip; Sample.odd; Sample.clip])
              Sample.w0 Sample.w1 w2 w3 Sample.folder pre
              ["downloads/tmpk3x_9qab/00000000-0000-0000-0000-000000000007/output1.webm"%string;
               "downloads/tmpk3x_9qab/00000000-0000-0000-0000-000000000007/output2.mp4"%string]
              "downloads/tmpk3x_9qab/00000000-0000-0000-0000-000000000004/output1!.mkv"
              "downloads/tmpk3x_9qab/00000000-0000-0000-0000-000000000004/output1!"
              ".mkv"
              ["id:downloads/tmpk3x_9qab/00000000-0000-0000-0000-000000000001/output1.mp4"%string;
               "id:downloads/tmpk3x_9qab/00000000-0000-0000-0000-000000000001/output2.mp4"%string]
              1 [])
    as (Hrun & Hlog);
    [vm_compute; reflexivity | vm_compute; reflexivity
    | vm_compute; reflexivity | vm_compute; reflexivity | discriminate
    | vm_compute; reflexivity | lia |].
  split; [rewrite Hrun; reflexivity |].
  exists w3. exact Hlog.
Defined.

Lemma workspace_removed_witness :
  mkdtemp Sample.env (_STORAGE_DIR Sample.env) Sample.w0
    = (Return Sample.folder, Sample.w1) /\
  In Sample.folder (fs Sample.w1) /\
  ~ In Sample.folder
      (fs (snd (_handle_payload Sample.env (Sample.job [Sample.clip])
                  Sample.w0))) /\
  ~ In Sample.folder
      (fs (snd (_handle_payload Sample.env (Sample.job [Sample.odd])
                  Sample.w0))) /\
  fst (_handle_payload Sample.env (Sample.job [Sample.odd]) Sample.w0)
    = Raise (mkExc RuntimeError "Could not convert file!").
Proof.
  assert (Htmp : mkdtemp Sample.env (_STORAGE_DIR Sample.env) Sample.w0
                 = (Return Sample.folder, Sample.w1))
    by (vm_compute; reflexivity).
  split; [exact Htmp |].
  destruct (proj2 (workspace_is_removed_on_every_exit Sample.env
                     (Sample.job [Sample.clip]) Sample.w0 _ _
                     (surjective_pairing _)) _ _ Htmp)
    as (Hmade & Hgone & _).
  destruct (proj2 (workspace_is_removed_on_every_exit Sample.env
                     (Sample.job [Sample.odd]) Sample.w0 _ _
                     (surjective_pairing _)) _ _ Htmp)
    as (_ & Hgone' & _).
  split; [exact Hmade |].
  split; [apply Hgone; vm_compute; reflexivity |].
  split; [apply Hgone'; vm_compute; reflexivity |].
  vm_compute. reflexivity.
Defined.

Lemma reply_order_witness :
  mkdtemp Sample.env (_STORAGE_DIR Sample.env) Sample.w0
    = (Return Sample.folder, Sample.w1) /\
  fst (_handle_payload Sample.env (Sample.job [Sample.clip; Sample.clip])
         Sample.w0) = Return Ack /\
  exists fss hss : list (list string),
    length fss = 2%nat /\
    Forall2 (fun fs hs => length hs = length fs) fss hss /\
    exists w3,
      log (snd (_handle_payload Sample.env
                  (Sample.job [Sample.clip; Sample.clip]) Sample.w0)) =
      log w3 ++ [EvSendVideoGroup 7 9 (concat hss) (Return tt);
                 EvRmtree Sample.folder].
Proof.
  assert (Htmp : mkdtemp Sample.env (_STORAGE_DIR Sample.env) Sample.w0
                 = (Return Sample.folder, Sample.w1))
    by (vm_compute; reflexivity).
  assert (Hrun : _handle_payload Sample.env
                   (Sample.job [Sample.clip; Sample.clip]) Sample.w0
                 = (Return Ack,
                    snd (_handle_payload Sample.env
                           (Sample.job [Sample.clip; Sample.clip])
                           Sample.w0)))
    by (vm_compute; reflexivity).
  split; [exact Htmp |]. split; [rewrite Hrun; reflexivity |].
  destruct (proj2 (reply_follows_the_url_order Sample.env
                     (Sample.job [Sample.clip; Sample.clip])
                     Sample.w0 Sample.w1 Sample.folder Htmp) _ _ Hrun)
    as (fss & w2 & hss & w3 & _ & _ & Hlen & Hall & Hlog).
  exists fss, hss. split; [exact Hlen |]. split; [exact Hall |].
  exists w3. exact Hlog.
Defined.

Lemma staging_chat_witness :
  _UPLOAD_CHAT Sample.env = "1259947317"%string /\
  _handle_payload Sample.env (Sample.job [Sample.clip]) Sample.w0
    = (Return Ack,
       snd (_handle_payload Sample.env (Sample.job [Sample.clip])
              Sample.w0)) /\
  exists evs ids,
    log (snd (_handle_payload Sample.env (Sample.job [Sample.clip])
                Sample.w0)) =
      log (Sample.fetched [Sample.clip]) ++ evs ++
        [EvSendVideoGroup 7 9 ids (Return tt); EvRmtree Sample.folder] /\
    uploads evs =
      [("1259947317"%string,
        "downloads/tmpk3x_9qab/00000000-0000-0000-0000-000000000001/output1.mp4"%string);
       ("1259947317"%string,
        "downloads/tmpk3x_9qab/00000000-0000-0000-0000-000000000001/output2.mp4"%string)] /\
    upload_handles evs = ids /\
    length ids = 2%nat.
Proof.
  assert (Hrun : _handle_payload Sample.env (Sample.job [Sample.clip])
                   Sample.w0
                 = (Return Ack,
                    snd (_handle_payload Sample.env
                           (Sample.job [Sample.clip]) Sample.w0)))
    by (vm_compute; reflexivity).
  destruct (uploads_go_to_the_staging_chat Sample.env
              (Sample.job [Sample.clip]) Sample.w0 _ _ Hrun)
    as (Hchat & _ & _ & Hdone).
  split; [exact Hchat |]. split; [exact Hrun |].
  destruct (Hdone Ack eq_refl)
    as (folder & w1 & files & w2 & evs & ids
        & Htmp & Hfetch & Hlog & Hu & Hh & Hlen & _).
  assert (Htmp' : mkdtemp Sample.env (_STORAGE_DIR Sample.env) Sample.w0
                  = (Return Sample.folder, Sample.w1))
    by (vm_compute; reflexivity).
  rewrite Htmp' in Htmp. inversion Htmp; subst folder w1. clear Htmp.
  assert (Hfetch' :
            flat_mapM
              (fun url => _download_videos Sample.env Sample.folder url)
              (urls (Sample.job [Sample.clip])) Sample.w1
            = (Return
                 ["downloads/tmpk3x_9qab/00000000-0000-0000-0000-000000000001/output1.webm"%string;
                  "downloads/tmpk3x_9qab/00000000-0000-0000-0000-000000000001/output2.mp4"%string],
               Sample.fetched [Sample.clip]))
    by (vm_compute; reflexivity).
  rewrite Hfetch' in Hfetch.
  pose proof (f_equal snd Hfetch) as Hw2. cbn [snd] in Hw2.
  pose proof (f_equal fst Hfetch) as Hfiles. cbn [fst] in Hfiles.
  injection Hfiles as Hfiles. subst files w2. clear Hfetch.
  exists evs, ids. split; [exact Hlog |]. split; [exact Hu |].
  split; [exact Hh | exact Hlen].
Defined.

(** * Further properties of the sources *)

(** ** Faults in the pipeline *)

Lemma flat_mapM_app {A B} (f : A -> M (list B)) (xs ys : list A) (w : World) :
  flat_mapM f (xs ++ ys) w =
  (l <- flat_mapM f xs ;; l' <- flat_mapM f ys ;; ret (l ++ l')) w.
Proof.
  revert w. induction xs as [| x xs IH]; intros w; simpl.
  - unfold bind, ret.
    destruct (flat_mapM f ys w) as [[l' | e] w']; reflexivity.
  - unfold bind, ret in *. destruct (f x w) as [[l0 | e] w1]; [| reflexivity].
    rewrite IH. destruct (flat_mapM f xs w1) as [[l | e] w2]; [| reflexivity].
    destruct (flat_mapM f ys w2) as [[l' | e] w3];
      [rewrite app_assoc |]; reflexivity.
Qed.

Lemma flat_mapM_app_raise {A B} (f : A -> M (list B)) (pre : list A) (x : A)
    (post : list A) (w w1 w2 : World) (l : list B) (e : Exc) :
  flat_mapM f pre w = (Return l, w1) ->
  f x w1 = (Raise e, w2) ->
  flat_mapM f (pre ++ x :: post) w = (Raise e, w2).
Proof.
  intros Hpre Hx. rewrite flat_mapM_app.
  rewrite (bind_Return _ _ _ _ _ Hpre). simpl. unfold bind. rewrite Hx.
  reflexivity.
Qed.

(** X1. The handler returns nothing but [Ack]: it returns it after the
    grouped reply was accepted and the workspace removed, and every failure
    leaves it as an exception. *)
Theorem handler_returns_only_ack
    (env : Env) (payload : DownloadMessage) (w w' : World) (result : Result) :
  _handle_payload env payload w = (Return result, w') ->
  result = Ack /\
  exists pre folder videos,
    log w' = log w ++ pre ++
               [EvSendVideoGroup (chat_id payload) (message_id payload)
                  videos (Return tt);
                EvRmtree folder] /\
    Forall (staging env) pre.
Proof.
  destruct (mkdtemp env (_STORAGE_DIR env) w) as [[folder | e] w1] eqn:Htmp.
  2:{ rewrite (handle_payload_no_workspace _ _ _ _ _ Htmp). discriminate. }
  rewrite (handle_payload_run _ _ _ _ _ Htmp).
  destruct (mkdtemp_Return _ _ _ _ _ Htmp) as (Hw1 & _).
  unfold bind at 1.
  destruct (flat_mapM _ (urls payload) w1) as [[files | e] w2] eqn:Hfetch;
    [| discriminate].
  destruct (logs_flat_mapM _ (urls payload) quiet
              (logs_download_videos env folder) _ _ _ Hfetch)
    as (_ & evs_f & Hlog_f & Hq).
  unfold bind at 1.
  destruct (mapM (_upload_video env) files w2) as [[ids | e] w3] eqn:Hup;
    [| discriminate].
  destruct (logs_mapM _ files (staging env) (logs_upload_video env)
              _ _ _ Hup) as (_ & evs_u & Hlog_u & Hs).
  rewrite reply_step. cbv zeta.
  destruct (send_video_group env _ _ ids w3) as [[] | e]; [| discriminate].
  intros H. inversion H; subst. split; [reflexivity |].
  exists ([EvMkdir folder] ++ evs_f ++ evs_u), folder, ids. split.
  - unfold Os.rmtree. simpl log. rewrite Hlog_u, Hlog_f. simpl.
    rewrite <- !app_assoc. reflexivity.
  - apply Forall_app. split; [repeat constructor |].
    apply Forall_app. split;
      [eapply Forall_impl; [apply quiet_staging | exact Hq] | exact Hs].
Qed.

Lemma handler_returns_only_ack_witness :
  fst (_handle_payload Sample.env (Sample.job [Sample.clip]) Sample.w0)
    = Return Ack /\
  exists pre videos,
    log (snd (_handle_payload Sample.env (Sample.job [Sample.clip])
                Sample.w0)) =
    log Sample.w0 ++ pre ++
      [EvSendVideoGroup 7 9 videos (Return tt); EvRmtree Sample.folder].
Proof.
  assert (Hrun : _handle_payload Sample.env (Sample.job [Sample.clip])
                   Sample.w0
                 = (Return Ack,
                    snd (_handle_payload Sample.env (Sample.job [Sample.clip])
                           Sample.w0)))
    by (vm_compute; reflexivity).
  split; [rewrite Hrun; reflexivity |].
  destruct (handler_returns_only_ack _ _ _ _ _ Hrun)
    as (_ & pre & folder & videos & Hlog & _).
  exists pre, videos.
  assert (Hf : folder = Sample.folder).
  { revert Hlog. vm_compute. intros Hlog.
    apply (f_equal (@rev Event)) in Hlog. revert Hlog.
    simpl. rewrite !rev_app_distr. simpl. intros Hlog.
    inversion Hlog. reflexivity. }
  rewrite <- Hf. exact Hlog.
Defined.

(** X2. Only the return code of yt-dlp is a skipped fetch: when yt-dlp
    raises for a URL, the handler raises that exception; the URLs after it
    are not fetched, nothing is uploaded, no reply is sent, and the
    workspace is removed. *)
Theorem fetch_exception_aborts_the_job
    (env : Env) (payload : DownloadMessage) (w w1 w2 w3 w4 : World)
    (folder cure_dir url : string) (pre post files : list string) (e : Exc) :
  urls payload = pre ++ url :: post ->
  mkdtemp env (_STORAGE_DIR env) w = (Return folder, w1) ->
  flat_mapM (fun u => _download_videos env folder u) pre w1
    = (Return files, w2) ->
  make_cure_dir env folder w2 = (Return cure_dir, w3) ->
  YoutubeDL_download env (cure_dir +++ "/output%(autonumber)d.%(ext)s")
    url w3 = (Raise e, w4) ->
  _handle_payload env payload w = (Raise e, Os.rmtree folder w4) /\
  exists evs,
    log (snd (_handle_payload env payload w))
      = log w1 ++ evs ++ [EvRmtree folder] /\
    Forall quiet evs.
Proof.
  intros Hurls Htmp Hpre Hdir Hdl.
  pose proof (download_videos_raise _ _ _ _ _ _ _ _ Hdir Hdl) as Hurl.
  assert (Hfetch : flat_mapM (fun u => _download_videos env folder u)
                     (urls payload) w1 = (Raise e, w4)).
  { rewrite Hurls. eapply flat_mapM_app_raise; eassumption. }
  assert (Hrun : _handle_payload env payload w
                 = (Raise e, Os.rmtree folder w4)).
  { rewrite (handle_payload_run _ _ _ _ _ Htmp).
    rewrite (bind_Raise _ _ _ _ _ Hfetch). reflexivity. }
  split; [exact Hrun |].
  destruct (logs_flat_mapM _ (urls payload) quiet
              (logs_download_videos env folder) _ _ _ Hfetch)
    as (_ & evs & Hlog & Hq).
  exists evs. split; [| exact Hq].
  rewrite Hrun. simpl. rewrite Hlog, <- app_assoc. reflexivity.
Qed.

Lemma fetch_exception_witness :
  mkdtemp Faulty.env (_STORAGE_DIR Faulty.env) Faulty.w0
    = (Return Faulty.folder, Faulty.w1) /\
  fst (_handle_payload Faulty.env
         (mkDownloadMessage 7 9 [Sample.gone; Faulty.boom; Sample.clip])
         Faulty.w0)
    = Raise (mkExc (OtherError "DownloadError") "video unavailable") /\
  existsb is_reply
    (log (snd (_handle_payload Faulty.env
                 (mkDownloadMessage 7 9
                    [Sample.gone; Faulty.boom; Sample.clip])
                 Faulty.w0))) = false.
Proof.
  assert (Htmp : mkdtemp Faulty.env (_STORAGE_DIR Faulty.env) Faulty.w0
                 = (Return Faulty.folder, Faulty.w1))
    by (vm_compute; reflexivity).
  split; [exact Htmp |].
  pose (w2 := snd (flat_mapM
                     (fun u => _download_videos Faulty.env Faulty.folder u)
                     [Sample.gone] Faulty.w1)).
  destruct (fetch_exception_aborts_the_job Faulty.env
              (mkDownloadMessage 7 9 [Sample.gone; Faulty.boom; Sample.clip])
              Faulty.w0 Faulty.w1 w2
              (snd (make_cure_dir Faulty.env Faulty.folder w2))
              (snd (_download_videos Faulty.env Faulty.folder Faulty.boom w2))
              Faulty.folder
              "data/downloads/tmpk3x_9qab/00000000-0000-0000-0000-000000000003"
              Faulty.boom [Sample.gone] [Sample.clip] []
              (mkExc (OtherError "DownloadError") "video unavailable")
              eq_refl Htmp)
    as (Hrun & _);
    [vm_compute; reflexivity | vm_compute; reflexivity
    | vm_compute; reflexivity |].
  split; [rewrite Hrun; reflexivity |].
  rewrite Hrun. vm_compute. reflexivity.
Defined.

(** ** The folder of one URL *)

Lemma strip_prefix_append (s pre rest : string) :
  Str.strip_prefix s pre = Some rest -> s = pre +++ rest.
Proof.
  revert s. induction pre as [| a pre IH]; intros s.
  - destruct s; simpl; intros H; inversion H; reflexivity.
  - destruct s as [| b s]; simpl; [discriminate |].
    destruct (Ascii.eqb_spec a b) as [<- | _]; [| discriminate].
    intros H. rewrite (IH _ H). reflexivity.
Qed.

Lemma entries_in (d : string) (paths : list string) (name : string) :
  In name (Os.entries d paths) -> In (Os.below d +++ name) paths.
Proof.
  induction paths as [| p paths IH]; simpl; [contradiction |].
  destruct (Os.entry_name d p) as [n |] eqn:E.
  - intros [<- | Hin]; [left | right; exact (IH Hin)].
    unfold Os.entry_name in E.
    destruct (Str.strip_prefix p (Os.below d)) as [n' |] eqn:Es;
      [| discriminate].
    destruct (_ || _); [discriminate |]. inversion E; subst n'.
    apply strip_prefix_append. exact Es.
  - intros Hin. right. exact (IH Hin).
Qed.

Lemma exists_true_in (p : string) (w : World) :
  Os.exists_ p w = true <-> In p (fs w).
Proof.
  unfold Os.exists_. rewrite existsb_exists. split.
  - intros (x & Hin & Heq). apply String.eqb_eq in Heq. subst. exact Hin.
  - intros Hin. exists p. split; [exact Hin | apply String.eqb_refl].
Qed.

(** X3. Each fetch works in a folder of its own that it has made: when the
    folder drawn for the URL exists already, [_download_videos] raises
    [FileExistsError] and yt-dlp is not called; when it returns, the folder
    is new, and the files returned are entries of that folder that exist,
    with names yt-dlp (or anything else) left there. *)
Theorem download_videos_works_in_a_new_folder
    (env : Env) (folder url : string) (w : World) :
  folder <> ""%string ->
  let cure_dir := OsPath.join folder (Uuid.str (uuid4 env w)) in
  (Os.exists_ cure_dir w = true ->
   _download_videos env folder url w
     = (Raise (mkExc FileExistsError cure_dir), w)) /\
  (forall files w',
     _download_videos env folder url w = (Return files, w') ->
     Os.exists_ cure_dir w = false /\
     In cure_dir (fs w') /\
     Forall (fun file =>
               In file (fs w') /\
               exists name,
                 file = Os.below cure_dir +++ name /\
                 name <> ""%string /\
                 Str.contains name OsPath.sep = false) files).
Proof.
  intros Hfolder cure_dir. split.
  - intros Hex. unfold _download_videos, make_cure_dir, bind. fold cure_dir.
    assert (Hne : cure_dir <> ""%string) by apply (join_nonempty _ _ Hfolder).
    rewrite (mkdir_exists cure_dir w Hne Hex). reflexivity.
  - intros files w'. unfold _download_videos. unfold bind at 1.
    destruct (make_cure_dir env folder w) as [[c | e] w1] eqn:Hdir;
      [| discriminate].
    destruct (make_cure_dir_form _ _ _ _ _ Hfolder Hdir) as (u & Hcure & Hu).
    assert (Hmk : Os.mkdir cure_dir w = (Return tt, w1) /\ c = cure_dir).
    { revert Hdir. unfold make_cure_dir. fold cure_dir. unfold bind, ret.
      destruct (Os.mkdir cure_dir w) as [[[] | e] w1']; [| discriminate].
      intros H. inversion H. auto. }
    destruct Hmk as (Hmk & Hc). rewrite Hc in Hcure |- *. clear Hdir Hc c.
    assert (Hnew : Os.exists_ cure_dir w = false).
    { exact (proj1 (proj2 (mkdir_new _ _ _ _ Hmk))). }
    apply mkdir_Return in Hmk. unfold bind at 1.
    destruct (YoutubeDL_download env _ url w1) as [[rc | e] w2] eqn:Hdl;
      [| discriminate].
    assert (Hfs2 : incl (fs w1) (fs w2)).
    { exact (proj1 (logs_YoutubeDL_download env _ url (fun _ => True)
                      (fun _ => I) _ _ _ Hdl)). }
    assert (Hin1 : In cure_dir (fs w1)).
    { rewrite Hmk. simpl. apply in_or_app. right. left. reflexivity. }
    destruct (negb (rc =? 0)).
    { intros H. inversion H; subst. split; [exact Hnew |].
      split; [apply Hfs2; exact Hin1 | constructor]. }
    unfold bind, Os.listdir, ret.
    destruct (Os.exists_ cure_dir w2); [| discriminate].
    intros H. inversion H; subst files w'. clear H. simpl fs.
    split; [exact Hnew |]. split; [apply Hfs2; exact Hin1 |].
    apply Forall_forall. intros file Hin. apply in_map_iff in Hin.
    destruct Hin as (name & <- & Hname). apply In_order_by in Hname.
    pose proof (entries_in _ _ _ Hname) as Hpath.
    apply entries_names in Hname. destruct Hname as (Hne & Hsep).
    destruct name as [| x r]; [contradiction |].
    assert (Hx : x <> OsPath.sep).
    { simpl in Hsep. apply orb_false_iff in Hsep. destruct Hsep as [Hx _].
      apply Ascii.eqb_neq. exact Hx. }
    assert (Hc : cure_dir <> ""%string)
      by (rewrite Hcure; apply append_nonempty; exact Hu).
    rewrite (join_relative cure_dir r x Hc Hx).
    split; [exact Hpath |].
    exists (String x r). split; [reflexivity |].
    split; [discriminate | exact Hsep].
Qed.

Lemma download_videos_folder_witness :
  Sample.folder <> ""%string /\
  fst (_download_videos Sample.env Sample.folder Sample.clip Sample.w1)
    = Return
        ["downloads/tmpk3x_9qab/00000000-0000-0000-0000-000000000001/output1.webm"%string;
         "downloads/tmpk3x_9qab/00000000-0000-0000-0000-000000000001/output2.mp4"%string] /\
  Os.exists_ "downloads/tmpk3x_9qab/00000000-0000-0000-0000-000000000001"
    Sample.w1 = false /\
  In "downloads/tmpk3x_9qab/00000000-0000-0000-0000-000000000001"%string
    (fs (snd (_download_videos Sample.env Sample.folder Sample.clip
                Sample.w1))).
Proof.
  assert (Hf : Sample.folder <> ""%string) by discriminate.
  split; [exact Hf |]. split; [vm_compute; reflexivity |].
  assert (Hrun : _download_videos Sample.env Sample.folder Sample.clip
                   Sample.w1
                 = (Return
                      ["downloads/tmpk3x_9qab/00000000-0000-0000-0000-000000000001/output1.webm"%string;
                       "downloads/tmpk3x_9qab/00000000-0000-0000-0000-000000000001/output2.mp4"%string],
                    snd (_download_videos Sample.env Sample.folder
                           Sample.clip Sample.w1)))
    by (vm_compute; reflexivity).
  destruct (proj2 (download_videos_works_in_a_new_folder Sample.env
                     Sample.folder Sample.clip Sample.w1 Hf) _ _ Hrun)
    as (Hnew & Hin & _).
  split; [exact Hnew | exact Hin].
Defined.

(** ** The answer of an upload *)

(** X4. [_upload_video] reads [message["video"]["file_id"]] after the upload
    was made: an answer without [video], or whose video has no [file_id],
    raises [KeyError] with the upload already done; otherwise the handle
    returned is that [file_id]. *)
Theorem upload_answer_decides_the_handle
    (env : Env) (video_file cure_path : string) (w w1 : World)
    (message : TgMessage) :
  _ensure_compatibility env video_file w = (Return cure_path, w1) ->
  upload_video env (_UPLOAD_CHAT env) cure_path w1 = Return message ->
  let w2 :=
    mkWorld (fs w1)
      (log w1 ++ [EvUploadVideo (_UPLOAD_CHAT env) cure_path
                    (Return message)]) in
  (video message = None ->
   _upload_video env video_file w = (Raise (mkExc KeyError "video"), w2)) /\
  (forall v, video message = Some v -> file_id v = None ->
   _upload_video env video_file w = (Raise (mkExc KeyError "file_id"), w2)) /\
  (forall v id, video message = Some v -> file_id v = Some id ->
   _upload_video env video_file w = (Return id, w2)).
Proof.
  intros Hens Hup w2.
  assert (Hrun : _upload_video env video_file w =
                 (video_ <- getitem "video" (video message) ;;
                  file_id_ <- getitem "file_id" (file_id video_) ;;
                  ret file_id_) w2).
  { unfold _upload_video. rewrite (bind_Return _ _ _ _ _ Hens).
    unfold bind at 1, telegram_upload_video. rewrite Hup. reflexivity. }
  rewrite Hrun. repeat split.
  - intros ->. reflexivity.
  - intros v -> Hid. unfold bind, getitem, ret, raise. rewrite Hid.
    reflexivity.
  - intros v id -> Hid. unfold bind, getitem, ret, raise. rewrite Hid.
    reflexivity.
Qed.

Lemma upload_answer_witness :
  _ensure_compatibility Faulty.env "d/outputg.mp4" Sample.w0
    = (Return "d/outputg.mp4"%string, Sample.w0) /\
  upload_video Faulty.env (_UPLOAD_CHAT Faulty.env) "d/outputg.mp4" Sample.w0
    = Return (mkTgMessage None) /\
  _upload_video Faulty.env "d/outputg.mp4" Sample.w0
    = (Raise (mkExc KeyError "video"),
       mkWorld (fs Sample.w0)
         (log Sample.w0 ++
            [EvUploadVideo "1259947317" "d/outputg.mp4"
               (Return (mkTgMessage None))])).
Proof.
  split; [reflexivity |]. split; [reflexivity |].
  exact (proj1 (upload_answer_decides_the_handle Faulty.env "d/outputg.mp4"
                  "d/outputg.mp4" Sample.w0 Sample.w0 (mkTgMessage None)
                  eq_refl eq_refl) eq_refl).
Defined.

(** X5. A fault while a file is normalised or uploaded (ffmpeg cannot be
    run or fails, the upload raises, the answer lacks a key) is the fault of
    the job: the handler raises it, the files after it are left alone, no
    reply is sent, and the uploads made before it stay made. *)
Theorem upload_step_fault_aborts_the_job
    (env : Env) (payload : DownloadMessage) (w w1 w2 w3 w4 : World)
    (folder file : string) (pre post video_ids : list string) (e : Exc) :
  mkdtemp env (_STORAGE_DIR env) w = (Return folder, w1) ->
  flat_mapM (fun url => _download_videos env folder url) (urls payload) w1
    = (Return (pre ++ file :: post), w2) ->
  mapM (_upload_video env) pre w2 = (Return video_ids, w3) ->
  _upload_video env file w3 = (Raise e, w4) ->
  _handle_payload env payload w = (Raise e, Os.rmtree folder w4) /\
  exists evs evs',
    log w3 = log w2 ++ evs /\ upload_handles evs = video_ids /\
    log (snd (_handle_payload env payload w))
      = log w3 ++ evs' ++ [EvRmtree folder] /\
    Forall (staging env) evs'.
Proof.
  intros Htmp Hfetch Hpre Hfile.
  assert (Hrun : _handle_payload env payload w
                 = (Raise e, Os.rmtree folder w4)).
  { rewrite (handle_payload_run _ _ _ _ _ Htmp).
    rewrite (bind_Return _ _ _ _ _ Hfetch).
    rewrite (bind_Raise _ _ _ _ _
               (mapM_app_raise _ _ _ post _ _ _ _ _ Hpre Hfile)).
    reflexivity. }
  split; [exact Hrun |].
  destruct (mapM_upload_handles _ _ _ _ _ Hpre) as (evs & Hlog & Hh).
  destruct (logs_upload_video env file _ _ _ Hfile) as (_ & evs' & Hlog' & Hs).
  exists evs, evs'. split; [exact Hlog |]. split; [exact Hh |].
  split; [| exact Hs].
  rewrite Hrun. simpl. rewrite Hlog', <- app_assoc. reflexivity.
Qed.

Lemma upload_step_fault_witness :
  mkdtemp Faulty.env (_STORAGE_DIR Faulty.env) Faulty.w0
    = (Return Faulty.folder, Faulty.w1) /\
  fst (_handle_payload Faulty.env
         (mkDownloadMessage 7 9 [Sample.clip; Faulty.gif; Sample.clip])
         Faulty.w0)
    = Raise (mkExc KeyError "video") /\
  existsb is_reply
    (log (snd (_handle_payload Faulty.env
                 (mkDownloadMessage 7 9
                    [Sample.clip; Faulty.gif; Sample.clip])
                 Faulty.w0))) = false /\
  length
    (upload_handles
       (log (snd (_handle_payload Faulty.env
                    (mkDownloadMessage 7 9
                       [Sample.clip; Faulty.gif; Sample.clip])
                    Faulty.w0)))) = 2%nat.
Proof.
  assert (Htmp : mkdtemp Faulty.env (_STORAGE_DIR Faulty.env) Faulty.w0
                 = (Return Faulty.folder, Faulty.w1))
    by (vm_compute; reflexivity).
  split; [exact Htmp |].
  pose (job := mkDownloadMessage 7 9 [Sample.clip; Faulty.gif; Sample.clip]).
  pose (w2 := snd (flat_mapM
                     (fun u => _download_videos Faulty.env Faulty.folder u)
                     (urls job) Faulty.w1)).
  pose (pre :=
          ["data/downloads/tmpk3x_9qab/00000000-0000-0000-0000-000000000001/output1.webm"%string;
           "data/downloads/tmpk3x_9qab/00000000-0000-0000-0000-000000000001/output2.mp4"%string]).
  pose (w3 := snd (mapM (_upload_video Faulty.env) pre w2)).
  pose (file :=
          "data/downloads/tmpk3x_9qab/00000000-0000-0000-0000-000000000004/outputg.mp4"%string).
  destruct (upload_step_fault_aborts_the_job Faulty.env job
              Faulty.w0 Faulty.w1 w2 w3
              (snd (_upload_video Faulty.env file w3))
              Faulty.folder file pre
              ["data/downloads/tmpk3x_9qab/00000000-0000-0000-0000-000000000007/output1.webm"%string;
               "data/downloads/tmpk3x_9qab/00000000-0000-0000-0000-000000000007/output2.mp4"%string]
              ["id:data/downloads/tmpk3x_9qab/00000000-0000-0000-0000-000000000001/output1.mp4"%string;
               "id:data/downloads/tmpk3x_9qab/00000000-0000-0000-0000-000000000001/output2.mp4"%string]
              (mkExc KeyError "video") Htmp)
    as (Hrun & _);
    [vm_compute; reflexivity | vm_compute; reflexivity
    | vm_compute; reflexivity |].
  fold job. rewrite Hrun.
  split; [reflexivity |]. split; vm_compute; reflexivity.
Defined.

(** ** Startup: what [run] does before it picks a subscriber *)

Lemma prepare_run env w :
  prepare env w =
    match telegram_check env w with
    | Raise e =>
        (Raise e, mkWorld (fs w) (log w ++ [EvTelegramCheck (Raise e)]))
    | Return u =>
        let w1 := mkWorld (fs w) (log w ++ [EvTelegramCheck (Return u)]) in
        let topic_ :=
          match environ env "MQTT_TOPIC_DOWNLOAD" with
          | Some v =>
              if (v =? "cancer/instaDownload")%string then TopicInstaDownload
              else TopicDownload
          | None => TopicDownload
          end in
        if Os.exists_ (_STORAGE_DIR env) w
        then (Return topic_, mkWorld (fs w1) (log w1 ++ [EvSignal]))
        else
          match Os.mkdir (_STORAGE_DIR env) w1 with
          | (Return _, w2) =>
              (Return topic_, mkWorld (fs w2) (log w2 ++ [EvSignal]))
          | (Raise e, w2) => (Raise e, w2)
          end
    end.
Proof.
  unfold prepare, bind, ret, emit.
  destruct (telegram_check env w) as [u | e]; [| reflexivity].
  cbv zeta. unfold Os.exists_ at 1 2. simpl fs.
  destruct (existsb (String.eqb (_STORAGE_DIR env)) (fs w)); simpl;
    [reflexivity |].
  destruct (Os.mkdir _ _) as [[[] | e] w2]; reflexivity.
Qed.

(** X6. The topic [run] subscribes to is [instaDownload] exactly when
    [MQTT_TOPIC_DOWNLOAD] is set to [cancer/instaDownload]; for any other
    value, and when it is not set, it is [download]. *)
Theorem legacy_topic_is_mapped (env : Env) (w w' : World) (topic_ : Topic) :
  prepare env w = (Return topic_, w') ->
  (topic_ = TopicInstaDownload <->
   environ env "MQTT_TOPIC_DOWNLOAD" = Some "cancer/instaDownload"%string) /\
  (topic_ = TopicDownload <->
   environ env "MQTT_TOPIC_DOWNLOAD" <> Some "cancer/instaDownload"%string).
Proof.
  rewrite prepare_run.
  destruct (telegram_check env w) as [u | e]; [| discriminate]. cbv zeta.
  assert (Ht : forall wx, (Return topic_, w') =
                 (Return
                    match environ env "MQTT_TOPIC_DOWNLOAD" with
                    | Some v =>
                        if (v =? "cancer/instaDownload")%string
                        then TopicInstaDownload else TopicDownload
                    | None => TopicDownload
                    end, wx) ->
               (topic_ = TopicInstaDownload <->
                environ env "MQTT_TOPIC_DOWNLOAD"
                  = Some "cancer/instaDownload"%string) /\
               (topic_ = TopicDownload <->
                environ env "MQTT_TOPIC_DOWNLOAD"
                  <> Some "cancer/instaDownload"%string)).
  { intros wx H. inversion H; subst. clear H.
    destruct (environ env "MQTT_TOPIC_DOWNLOAD") as [v |].
    - destruct (String.eqb_spec v "cancer/instaDownload") as [-> | Hv].
      + split; split; auto; try discriminate. intros H. contradiction.
      + split; split; try discriminate; auto.
        * intros H. inversion H. contradiction.
        * intros _ H. inversion H. contradiction.
    - split; split; try discriminate; auto. }
  destruct (Os.exists_ (_STORAGE_DIR env) w).
  - intros H. symmetry in H. exact (Ht _ H).
  - destruct (Os.mkdir _ _) as [[u' | e] w2]; [| discriminate].
    intros H. symmetry in H. exact (Ht _ H).
Qed.

Lemma legacy_topic_witness :
  prepare Faulty.env Faulty.w0
    = (Return TopicInstaDownload, snd (prepare Faulty.env Faulty.w0)) /\
  environ Faulty.env "MQTT_TOPIC_DOWNLOAD"
    = Some "cancer/instaDownload"%string /\
  prepare Sample.env Sample.w0
    = (Return TopicDownload, snd (prepare Sample.env Sample.w0)) /\
  environ Sample.env "MQTT_TOPIC_DOWNLOAD"
    <> Some "cancer/instaDownload"%string.
Proof.
  assert (H1 : prepare Faulty.env Faulty.w0
               = (Return TopicInstaDownload,
                  snd (prepare Faulty.env Faulty.w0)))
    by (vm_compute; reflexivity).
  assert (H2 : prepare Sample.env Sample.w0
               = (Return TopicDownload, snd (prepare Sample.env Sample.w0)))
    by (vm_compute; reflexivity).
  split; [exact H1 |].
  split; [exact (proj1 (proj1 (legacy_topic_is_mapped _ _ _ _ H1)) eq_refl) |].
  split; [exact H2 |].
  exact (proj1 (proj2 (legacy_topic_is_mapped _ _ _ _ H2)) eq_refl).
Defined.

Lemma exists_after_append (p : string) (paths : list string) :
  existsb (String.eqb p) (paths ++ [p]) = true.
Proof.
  rewrite existsb_app. simpl. rewrite String.eqb_refl.
  rewrite orb_true_r. reflexivity.
Qed.

(** X7. For a storage root and a world whose paths are written alike, in
    plain form: when the preparation of [run] returns, the storage root
    exists; it is left as it is when it existed, and made, in a folder that
    exists, as the last path of the world when it did not; nothing else is
    made or removed, and the paths of the world are still written alike. *)
Theorem storage_root_is_ensured (env : Env) (w w' : World) (topic_ : Topic) :
  Os.plain (_STORAGE_DIR env) = true ->
  forallb (Os.written_like (_STORAGE_DIR env)) (fs w) = true ->
  prepare env w = (Return topic_, w') ->
  Os.exists_ (_STORAGE_DIR env) w' = true /\
  (Os.exists_ (_STORAGE_DIR env) w = true -> fs w' = fs w) /\
  (Os.exists_ (_STORAGE_DIR env) w = false ->
   fs w' = fs w ++ [_STORAGE_DIR env] /\
   Os.parent_exists (_STORAGE_DIR env) w = true) /\
  forallb (Os.written_like (_STORAGE_DIR env)) (fs w') = true.
Proof.
  intros Hplain Hworld. rewrite prepare_run.
  destruct (telegram_check env w) as [u | e]; [| discriminate]. cbv zeta.
  destruct (Os.exists_ (_STORAGE_DIR env) w) eqn:Hex.
  - intros H. inversion H; subst. simpl.
    split; [exact Hex |]. split; [reflexivity |].
    split; [discriminate | exact Hworld].
  - destruct (Os.mkdir _ _) as [[u' | e] w2] eqn:Hmk; [| discriminate].
    destruct (mkdir_new _ _ _ _ Hmk) as (_ & _ & Hparent).
    apply mkdir_Return in Hmk. subst w2.
    intros H. inversion H; subst. unfold Os.exists_. simpl.
    split; [apply exists_after_append |].
    split; [discriminate |]. split; [auto |].
    rewrite forallb_app, Hworld. simpl. unfold Os.written_like.
    rewrite Hplain, eqb_reflx. reflexivity.
Qed.

Lemma storage_root_witness :
  Os.plain (_STORAGE_DIR Sample.env) = true /\
  Os.exists_ (_STORAGE_DIR Sample.env) Faulty.w_empty = false /\
  fs (snd (prepare Sample.env Faulty.w_empty)) = ["downloads"%string] /\
  fs (snd (prepare Sample.env Sample.w0)) = ["downloads"%string].
Proof.
  assert (H1 : prepare Sample.env Faulty.w_empty
               = (Return TopicDownload,
                  snd (prepare Sample.env Faulty.w_empty)))
    by (vm_compute; reflexivity).
  assert (H2 : prepare Sample.env Sample.w0
               = (Return TopicDownload, snd (prepare Sample.env Sample.w0)))
    by (vm_compute; reflexivity).
  split; [reflexivity |]. split; [reflexivity |]. split.
  - exact (proj1 (proj1 (proj2 (proj2 (storage_root_is_ensured Sample.env
                                         Faulty.w_empty _ _
                                         eq_refl eq_refl H1)))
                    eq_refl)).
  - exact (proj1 (proj2 (storage_root_is_ensured Sample.env Sample.w0 _ _
                           eq_refl eq_refl H2))
             eq_refl).
Defined.

Section Startup.

Variable env : Env.
Variables RabbitConfig MqttConfig RabbitSubscriber MqttSubscriber : Type.
Variable RabbitConfig_from_env : M RabbitConfig.
Variable RabbitSubscriber_init : RabbitConfig -> M RabbitSubscriber.
Variable MqttConfig_from_env : M MqttConfig.
Variable MqttSubscriber_init : MqttConfig -> M MqttSubscriber.
Variable Subscriber_subscribe :
  Subscriber RabbitSubscriber MqttSubscriber -> Topic ->
  (DownloadMessage -> M Result) -> M unit.

(** X8. [run] stops at the first failure of its preparation: when
    [telegram.check] raises, [run] raises that and has done nothing else;
    when the storage root is absent and [os.mkdir] raises (as it does, with
    [FileNotFoundError], when the folder the root should be made in is
    absent: it makes one level), [run] raises that and has made nothing.
    In both cases no subscriber is built. *)
Theorem startup_stops_at_the_first_failure (w : World) :
  let run_ :=
    run env RabbitConfig_from_env RabbitSubscriber_init
      MqttConfig_from_env MqttSubscriber_init Subscriber_subscribe in
  (forall e,
     telegram_check env w = Raise e ->
     run_ w = (Raise e,
               mkWorld (fs w) (log w ++ [EvTelegramCheck (Raise e)]))) /\
  (forall e w',
     Os.plain (_STORAGE_DIR env) = true ->
     forallb (Os.written_like (_STORAGE_DIR env)) (fs w) = true ->
     telegram_check env w = Return tt ->
     Os.exists_ (_STORAGE_DIR env) w = false ->
     Os.mkdir (_STORAGE_DIR env) w = (Raise e, w') ->
     run_ w = (Raise e,
               mkWorld (fs w) (log w ++ [EvTelegramCheck (Return tt)]))).
Proof.
  intros run_. subst run_. unfold run. split.
  - intros e He. apply bind_Raise. rewrite prepare_run, He. reflexivity.
  - intros e w' _ _ Hc Hex Hmk. apply bind_Raise.
    rewrite prepare_run, Hc. cbv zeta. rewrite Hex.
    assert (Hmk1 : Os.mkdir (_STORAGE_DIR env)
                     (mkWorld (fs w) (log w ++ [EvTelegramCheck (Return tt)]))
                   = (Raise e,
                      mkWorld (fs w)
                        (log w ++ [EvTelegramCheck (Return tt)]))).
    { revert Hmk. unfold Os.mkdir, Os.exists_, Os.parent_exists. simpl fs.
      destruct (_ =? _)%string; [intros H; inversion H; reflexivity |].
      destruct (existsb _ (fs w));
        [intros H; inversion H; reflexivity |].
      destruct (negb _); [intros H; inversion H; reflexivity | discriminate]. }
    rewrite Hmk1. reflexivity.
Qed.

End Startup.

Lemma startup_failure_witness :
  telegram_check Faulty.env Faulty.w_empty = Return tt /\
  _STORAGE_DIR Faulty.env = "data/downloads"%string /\
  Os.plain (_STORAGE_DIR Faulty.env) = true /\
  Os.exists_ (_STORAGE_DIR Faulty.env) Faulty.w_empty = false /\
  Os.mkdir (_STORAGE_DIR Faulty.env) Faulty.w_empty
    = (Raise (mkExc FileNotFoundError "data/downloads"), Faulty.w_empty) /\
  run Faulty.env Sample.rabbit_from_env Sample.subscriber_init
    Sample.mqtt_from_env Sample.subscriber_init (fun _ _ _ => ret tt)
    Faulty.w_empty
    = (Raise (mkExc FileNotFoundError "data/downloads"),
       mkWorld [] [EvTelegramCheck (Return tt)]).
Proof.
  split; [reflexivity |]. split; [reflexivity |].
  split; [reflexivity |]. split; [reflexivity |]. split; [reflexivity |].
  exact (proj2 (startup_stops_at_the_first_failure Faulty.env _ _ _ _
                  Sample.rabbit_from_env Sample.subscriber_init
                  Sample.mqtt_from_env Sample.subscriber_init
                  (fun _ _ _ => ret tt) Faulty.w_empty)
           _ _ eq_refl eq_refl eq_refl eq_refl eq_refl).
Defined.

(** ** [mqtt.py] without [check] *)

Section Unchecked.

Variable env : Env.
Context {T : Type}.
Variable message_type : MessageType T.
Variable handle : T -> M unit.

(** X9. [publish_messages] and [subscribe] do not call [check]: the only
    setting they look at is the port. With [MQTT_PORT] unset they raise
    [TypeError], with a port that [int] rejects [ValueError], both before
    paho is called; with a port that [int] accepts [publish_messages] makes
    one [multiple] call that carries one entry for each message, in order,
    with QoS 1, to whatever host and credentials are set, and it returns or
    raises as that call does. *)
Theorem publishing_validates_only_the_port
    (messages : list T) (deliveries : list string) (w : World) :
  (environ env "MQTT_PORT" = None ->
   (exists e, Mqtt.publish_messages env message_type messages w = (Raise e, w)
              /\ exc_class e = TypeError) /\
   (exists e, Mqtt.subscribe env message_type handle deliveries w
                = (Raise e, w) /\ exc_class e = TypeError)) /\
  (forall s,
     environ env "MQTT_PORT" = Some s -> PyInt.parse s = None ->
     (exists e, Mqtt.publish_messages env message_type messages w
                  = (Raise e, w) /\ exc_class e = ValueError) /\
     (exists e, Mqtt.subscribe env message_type handle deliveries w
                  = (Raise e, w) /\ exc_class e = ValueError)) /\
  (forall s n,
     environ env "MQTT_PORT" = Some s -> PyInt.parse s = Some n ->
     exists msgs,
       let conn :=
         mkConnection (environ env "MQTT_HOST") n (Mqtt._TRANSPORT env)
           (environ env "MQTT_USER") (environ env "MQTT_PASSWORD") in
       let res := publish_multiple env msgs conn w in
       Mqtt.publish_messages env message_type messages w =
         (res, mkWorld (fs w) (log w ++ [EvPublish conn msgs res])) /\
       length msgs = length messages /\
       forall i message,
         nth_error messages i = Some message ->
         nth_error msgs i
           = Some (topic message_type, 1, serialize message_type message)).
Proof.
  unfold Mqtt.publish_messages, Mqtt.subscribe, Mqtt._PORT, Mqtt.int.
  split; [| split].
  - intros ->. split; eexists; split; reflexivity.
  - intros s -> ->. split; eexists; split; reflexivity.
  - intros s n -> ->. eexists. split; [reflexivity |].
    split; [apply length_map |].
    intros i message Hi. rewrite nth_error_map, Hi. reflexivity.
Qed.

End Unchecked.

Lemma publishing_port_witness :
  environ Faulty.env "MQTT_PORT" = None /\
  (exists e,
     Mqtt.publish_messages Faulty.env Sample.message_type
       [Sample.job [Sample.clip]] Sample.w0 = (Raise e, Sample.w0) /\
     exc_class e = TypeError) /\
  environ Sample.env "MQTT_PORT" = Some "1883"%string /\
  PyInt.parse "1883" = Some 1883 /\
  log (snd (Mqtt.publish_messages Sample.env Sample.message_type
              [Sample.job [Sample.clip]; Sample.job [Sample.odd]] Sample.w0))
    = [EvPublish
         (mkConnection (Some "broker.example"%string) 1883
            (Some "tcp"%string) (Some "bot"%string) (Some "secret"%string))
         [("download"%string, 1, "ok"%string);
          ("download"%string, 1, "odd"%string)]
         (Return tt)].
Proof.
  split; [reflexivity |].
  destruct (publishing_validates_only_the_port Faulty.env Sample.message_type
              Sample.handle [Sample.job [Sample.clip]] [] Sample.w0)
    as (Hnone & _).
  split; [exact (proj1 (Hnone eq_refl)) |].
  split; [reflexivity |]. split; [reflexivity |].
  vm_compute. reflexivity.
Defined.

(** ** The messages of [check] *)

(** X11. [check] reports the first setting that is absent or empty, in the
    order host, port, user, password, transport, whatever the settings
    after it are; a port that [int] rejects is reported before the user is
    looked at. *)
Theorem check_names_the_first_missing_setting (env : Env) (w : World) :
  let host := environ env "MQTT_HOST" in
  let port_ := environ env "MQTT_PORT" in
  let user := environ env "MQTT_USER" in
  let pass := environ env "MQTT_PASSWORD" in
  (missing_or_empty host ->
   Mqtt.check env w = (Raise (mkExc ValueError "MQTT_HOST missing"), w)) /\
  (~ missing_or_empty host -> missing_or_empty port_ ->
   Mqtt.check env w = (Raise (mkExc ValueError "MQTT_PORT missing"), w)) /\
  (forall s,
     ~ missing_or_empty host -> port_ = Some s -> s <> ""%string ->
     PyInt.parse s = None ->
     exists e,
       Mqtt.int (Some s) w = (Raise e, w) /\
       Mqtt.check env w = (Raise e, w)) /\
  (forall s n,
     ~ missing_or_empty host -> port_ = Some s -> s <> ""%string ->
     PyInt.parse s = Some n ->
     (missing_or_empty user ->
      Mqtt.check env w = (Raise (mkExc ValueError "MQTT_USER missing"), w)) /\
     (~ missing_or_empty user -> missing_or_empty pass ->
      Mqtt.check env w
        = (Raise (mkExc ValueError "MQTT_PASSWORD missing"), w)) /\
     (~ missing_or_empty user -> ~ missing_or_empty pass ->
      environ env "MQTT_TRANSPORT" = Some ""%string ->
      Mqtt.check env w
        = (Raise (mkExc ValueError "MQTT_TRANSPORT missing"), w))).
Proof.
  assert (Hpresent : forall v, ~ missing_or_empty v -> Mqtt.not_ v = false).
  { intros v Hv. destruct (Mqtt.not_ v) eqn:E; [| reflexivity].
    exfalso. apply Hv. apply not_true_iff. exact E. }
  assert (Hmissing : forall v, missing_or_empty v -> Mqtt.not_ v = true)
    by (intros v; apply not_true_iff).
  assert (Hs : forall s, s <> ""%string -> Mqtt.not_ (Some s) = false).
  { intros s Hne. simpl. apply String.eqb_neq. exact Hne. }
  cbv zeta.
  unfold Mqtt.check, Mqtt._HOST, Mqtt._PORT, Mqtt._USER, Mqtt._PASSWORD.
  split; [| split; [| split]].
  - intros H. unfold bind at 1. rewrite (Hmissing _ H). reflexivity.
  - intros Hh Hp. unfold bind at 1. rewrite (Hpresent _ Hh).
    unfold ret at 1. unfold bind at 1. rewrite (Hmissing _ Hp). reflexivity.
  - intros s Hh Hp Hne Hn. rewrite Hp.
    unfold bind at 1. rewrite (Hpresent _ Hh). unfold ret at 1.
    unfold bind at 1. rewrite (Hs _ Hne).
    unfold bind at 1, Mqtt.int. rewrite Hn. unfold raise.
    eexists. split; reflexivity.
  - intros s n Hh Hp Hne Hn. rewrite Hp.
    unfold bind at 1. rewrite (Hpresent _ Hh). unfold ret at 1.
    unfold bind at 1. rewrite (Hs _ Hne).
    unfold bind at 1, Mqtt.int. rewrite Hn. unfold ret at 1 2.
    split; [| split].
    + intros Hu. unfold bind at 1. rewrite (Hmissing _ Hu). reflexivity.
    + intros Hu Hw. unfold bind at 1. rewrite (Hpresent _ Hu).
      unfold ret at 1. unfold bind at 1. rewrite (Hmissing _ Hw).
      reflexivity.
    + intros Hu Hw Ht. unfold bind at 1. rewrite (Hpresent _ Hu).
      unfold ret at 1. unfold bind at 1. rewrite (Hpresent _ Hw).
      unfold ret at 1. unfold bind at 1.
      rewrite (proj2 (transport_not_iff env) Ht). reflexivity.
Qed.

Lemma check_first_missing_witness :
  missing_or_empty (environ Faulty.env "MQTT_HOST") /\
  missing_or_empty (environ Faulty.env "MQTT_USER") /\
  Mqtt.check Faulty.env Sample.w0
    = (Raise (mkExc ValueError "MQTT_HOST missing"), Sample.w0).
Proof.
  assert (H : missing_or_empty (environ Faulty.env "MQTT_HOST"))
    by (left; reflexivity).
  split; [exact H |]. split; [left; reflexivity |].
  exact (proj1 (check_names_the_first_missing_setting Faulty.env Sample.w0) H).
Defined.

(** ** Normalising twice *)

Lemma rfind_spec (s : string) (c : ascii) :
  0 <= Str.rfind s c ->
  exists a b,
    s = a +++ String c b /\ Str.rfind s c = Z.of_nat (String.length a).
Proof.
  induction s as [| x s IH]; simpl; [lia |].
  destruct (Z.leb_spec 0 (Str.rfind s c)) as [Hi | Hi].
  - intros _. destruct (IH Hi) as (a & b & Hs & Hr).
    exists (String x a), b. split; [simpl; rewrite <- Hs; reflexivity |].
    rewrite Hr. cbn [String.length]. lia.
  - destruct (Ascii.eqb_spec x c) as [-> | _]; [| lia].
    intros _. exists ""%string, s. split; reflexivity.
Qed.

Lemma take_length_append (a s : string) :
  Str.take (String.length a) (a +++ s) = a.
Proof.
  rewrite <- (Nat.add_0_r (String.length a)), take_append.
  destruct s; simpl; apply append_empty_r.
Qed.

Lemma drop_length_append (a s : string) :
  Str.drop (String.length a) (a +++ s) = s.
Proof.
  rewrite <- (Nat.add_0_r (String.length a)), drop_append.
  destruct s; reflexivity.
Qed.

(** The extension that [splitext] returns is empty or starts with a dot. *)
Lemma splitext_ext (p base ext : string) :
  OsPath.splitext p = (base, ext) ->
  ext = ""%string \/ exists t, ext = String OsPath.extsep t.
Proof.
  unfold OsPath.splitext.
  destruct (Z.ltb_spec (Str.rfind p OsPath.sep) (Str.rfind p OsPath.extsep))
    as [Hlt | _].
  - destruct (splitext_loop_cases p (Str.rfind p OsPath.extsep)
                (Str.rfind p OsPath.sep + 1)
                (Z.to_nat (Str.rfind p OsPath.extsep
                           - (Str.rfind p OsPath.sep + 1))))
      as [-> | ->]; intros H; inversion H; [left; reflexivity |].
    right.
    assert (Hsep : -1 <= Str.rfind p OsPath.sep).
    { clear. induction p as [| x p IH]; simpl; [lia |].
      destruct (0 <=? Str.rfind p OsPath.sep); [lia |].
      destruct (Ascii.eqb x OsPath.sep); lia. }
    destruct (rfind_spec p OsPath.extsep ltac:(lia)) as (a & b & Hp & Hr).
    exists b. unfold Str.slice_from. rewrite Hr, Nat2Z.id.
    rewrite Hp at 1. apply drop_length_append.
  - intros H. inversion H. left. reflexivity.
Qed.

Lemma contains_append (a b : string) (c : ascii) :
  Str.contains (a +++ b) c = Str.contains a c || Str.contains b c.
Proof.
  induction a as [| x a IH]; simpl; [reflexivity |].
  rewrite IH, orb_assoc. reflexivity.
Qed.

Lemma length_append (a b : string) :
  String.length (a +++ b) = (String.length a + String.length b)%nat.
Proof. induction a as [| x a IH]; simpl; [reflexivity | now rewrite IH]. Qed.

(** A base whose file name starts with a character that is not a dot is
    split from the extension [.mp4] that is put after it. *)
Lemma splitext_mp4 (d t : string) (x : ascii) :
  x <> OsPath.extsep ->
  Str.contains (String x t) OsPath.sep = false ->
  OsPath.splitext ((d +++ String OsPath.sep (String x t)) +++ ".mp4")
    = (d +++ String OsPath.sep (String x t), ".mp4"%string).
Proof.
  intros Hx Hsep.
  set (base := d +++ String OsPath.sep (String x t)).
  assert (Hq : base +++ ".mp4"
               = d +++ String OsPath.sep (String x t +++ ".mp4"))
    by (subst base; rewrite append_assoc; reflexivity).
  assert (Hsi : Str.rfind (base +++ ".mp4") OsPath.sep
                = Z.of_nat (String.length d)).
  { rewrite Hq. apply rfind_last. rewrite contains_append, Hsep.
    reflexivity. }
  assert (Hdi : Str.rfind (base +++ ".mp4") OsPath.extsep
                = Z.of_nat (String.length base)).
  { change (base +++ ".mp4") with (base +++ String OsPath.extsep "mp4").
    apply rfind_last. reflexivity. }
  assert (Hlen : String.length base
                 = (String.length d + S (S (String.length t)))%nat).
  { subst base. rewrite length_append. reflexivity. }
  unfold OsPath.splitext. rewrite Hsi, Hdi.
  destruct (Z.ltb_spec (Z.of_nat (String.length d))
              (Z.of_nat (String.length base))) as [_ | Hge]; [| lia].
  replace (Z.to_nat (Z.of_nat (String.length base)
                     - (Z.of_nat (String.length d) + 1)))
    with (S (String.length t)) by lia.
  cbn [OsPath.splitext_loop].
  assert (Hchar : Str.slice (base +++ ".mp4")
                    (Z.of_nat (String.length d) + 1)
                    (Z.of_nat (String.length d) + 1 + 1)
                  = String x "").
  { unfold Str.slice.
    replace (Z.to_nat (Z.of_nat (String.length d) + 1 + 1
                       - (Z.of_nat (String.length d) + 1)))
      with 1%nat by lia.
    replace (Z.to_nat (Z.of_nat (String.length d) + 1))
      with (String.length d + 1)%nat by lia.
    rewrite Hq, drop_append. reflexivity. }
  rewrite Hchar.
  assert (Hne : (String x "" =? ".")%string = false).
  { apply String.eqb_neq. intros E. inversion E. contradiction. }
  rewrite Hne. cbn [negb].
  unfold Str.slice_to, Str.slice_from. rewrite Nat2Z.id.
  rewrite take_length_append, drop_length_append. reflexivity.
Qed.

(** X12. Normalising is done once: for a fetched file whose name does not
    start with a dot (the names yt-dlp writes start with [output]), the path
    a conversion writes has the extension [.mp4], so that
    [_ensure_compatibility] returns it as it is and never converts it
    again. *)
Theorem converted_path_is_accepted
    (env : Env) (d r base ext : string) (x : ascii) (w : World) :
  x <> OsPath.extsep ->
  Str.contains (String x r) OsPath.sep = false ->
  OsPath.splitext (d +++ String OsPath.sep (String x r)) = (base, ext) ->
  OsPath.splitext (base +++ ".mp4") = (base, ".mp4"%string) /\
  _ensure_compatibility env (base +++ ".mp4") w
    = (Return (base +++ ".mp4"), w).
Proof.
  intros Hx Hsep Hsplit.
  assert (Hs : OsPath.splitext (base +++ ".mp4") = (base, ".mp4"%string)).
  { destruct (splitext_directory _ _ _ _ Hsep Hsplit) as (stem & -> & Hname).
    destruct stem as [| y t].
    - simpl in Hname.
      destruct (splitext_ext _ _ _ Hsplit) as [-> | (t & ->)];
        [discriminate Hname |].
      inversion Hname. contradiction.
    - inversion Hname; subst y. apply splitext_mp4; [exact Hx |].
      rewrite H1 in Hsep. simpl in Hsep. apply orb_false_iff in Hsep.
      destruct Hsep as [Hxs Hrest]. rewrite contains_append in Hrest.
      apply orb_false_iff in Hrest. simpl. rewrite Hxs. exact (proj1 Hrest). }
  split; [exact Hs |]. eapply ensure_compatibility_mp4. exact Hs.
Qed.

Lemma converted_path_witness :
  OsPath.splitext "d/output1.webm" = ("d/output1"%string, ".webm"%string) /\
  OsPath.splitext "d/output1.mp4" = ("d/output1"%string, ".mp4"%string) /\
  _ensure_compatibility Sample.env "d/output1.mp4" Sample.w0
    = (Return "d/output1.mp4"%string, Sample.w0).
Proof.
  split; [reflexivity |].
  exact (converted_path_is_accepted Sample.env "d" "utput1.webm" "d/output1"
           ".webm" "o"%char Sample.w0 ltac:(discriminate) eq_refl eq_refl).
Defined.

(** ** One folder for each URL *)

Lemma hex_digit_eqb_sep (d : N) :
  Ascii.eqb (Uuid.hex_digit d) OsPath.sep = false.
Proof. apply Ascii.eqb_neq, hex_digit_not_sep. Qed.

Lemma contains_take (n : nat) (s : string) (c : ascii) :
  Str.contains s c = false -> Str.contains (Str.take n s) c = false.
Proof.
  revert s. induction n as [| n IH]; intros [| a s]; simpl; auto.
  intros H. apply orb_false_iff in H. destruct H as [Ha Hs].
  rewrite Ha, (IH _ Hs). reflexivity.
Qed.

Lemma contains_drop (n : nat) (s : string) (c : ascii) :
  Str.contains s c = false -> Str.contains (Str.drop n s) c = false.
Proof.
  revert s. induction n as [| n IH]; intros [| a s]; simpl; auto.
  intros H. apply orb_false_iff in H. destruct H as [_ Hs]. exact (IH _ Hs).
Qed.

Lemma hex_no_sep (k : nat) (n : N) (acc : string) :
  Str.contains acc OsPath.sep = false ->
  Str.contains (Uuid.hex k n acc) OsPath.sep = false.
Proof.
  revert n acc. induction k as [| k IH]; intros n acc Hacc; simpl;
    [exact Hacc |].
  apply IH. cbn [Str.contains]. rewrite hex_digit_eqb_sep. exact Hacc.
Qed.

Lemma uuid_str_no_sep (n : N) : Str.contains (Uuid.str n) OsPath.sep = false.
Proof.
  pose proof (hex_no_sep 32 n "" eq_refl) as Hh.
  unfold Uuid.str, Str.slice, Str.slice_from.
  rewrite !contains_append.
  rewrite !contains_take by (apply contains_drop; exact Hh).
  rewrite contains_drop by exact Hh. reflexivity.
Qed.

Lemma endswith_contains (s : string) (c : ascii) :
  Str.endswith s c = true -> Str.contains s c = true.
Proof.
  induction s as [| a s IH]; [discriminate |].
  destruct s as [| b s'].
  - simpl. intros ->. reflexivity.
  - intros H. change (Str.endswith (String a (String b s')) c)
      with (Str.endswith (String b s') c) in H.
    cbn [Str.contains] in *. rewrite (IH H). apply orb_true_r.
Qed.

Lemma endswith_append (a b : string) (c : ascii) :
  b <> ""%string -> Str.endswith (a +++ b) c = Str.endswith b c.
Proof.
  intros Hb. induction a as [| x a IH]; [reflexivity |].
  simpl String.append.
  destruct (a +++ b) as [| y s] eqn:E.
  - exfalso. destruct a; simpl in E; [contradiction | discriminate].
  - rewrite <- IH. reflexivity.
Qed.

(** The folder of a URL, as [make_cure_dir] builds it. *)
Lemma make_cure_dir_path env folder w cure_dir w' :
  folder <> ""%string ->
  make_cure_dir env folder w = (Return cure_dir, w') ->
  cure_dir = Os.below folder +++ Uuid.str (uuid4 env w) /\
  Os.below cure_dir = cure_dir +++ "/" /\
  Os.exists_ cure_dir w = false /\
  In cure_dir (fs w').
Proof.
  intros Hfolder. unfold make_cure_dir.
  destruct (uuid_str_head (uuid4 env w)) as (c & r & Hu & Hc).
  pose proof (uuid_str_no_sep (uuid4 env w)) as Hns.
  rewrite Hu in *. rewrite (join_relative folder r c Hfolder Hc).
  unfold bind, ret.
  destruct (Os.mkdir _ w) as [[[] | e] w1] eqn:Hmk; [| discriminate].
  intros H. inversion H; subst cure_dir w1. clear H.
  split; [reflexivity |]. split; [| split].
  - unfold Os.below at 1.
    rewrite endswith_append by discriminate.
    destruct (Str.endswith (String c r) OsPath.sep) eqn:E; [| reflexivity].
    apply endswith_contains in E. rewrite E in Hns. discriminate.
  - exact (proj1 (proj2 (mkdir_new _ _ _ _ Hmk))).
  - apply mkdir_Return in Hmk. rewrite Hmk. simpl.
    apply in_or_app. right. left. reflexivity.
Qed.

Lemma last_sep_unique (a b n m : string) :
  Str.contains n OsPath.sep = false ->
  Str.contains m OsPath.sep = false ->
  a +++ String OsPath.sep n = b +++ String OsPath.sep m ->
  a = b.
Proof.
  intros Hn Hm E.
  pose proof (rfind_last a n OsPath.sep Hn) as Ha.
  pose proof (rfind_last b m OsPath.sep Hm) as Hb.
  rewrite E, Hb in Ha. apply Nat2Z.inj in Ha.
  rewrite <- (take_length_append a (String OsPath.sep n)).
  rewrite <- (take_length_append b (String OsPath.sep m)).
  rewrite E, Ha. reflexivity.
Qed.

Lemma download_videos_grows env folder url w o w' :
  _download_videos env folder url w = (o, w') -> incl (fs w) (fs w').
Proof. intros H. exact (proj1 (logs_download_videos _ _ _ _ _ _ H)). Qed.

Lemma download_videos_files env folder url w files w' :
  folder <> ""%string ->
  _download_videos env folder url w = (Return files, w') ->
  exists cure_dir,
    cure_dir = Os.below folder +++ Uuid.str (uuid4 env w) /\
    Os.exists_ cure_dir w = false /\
    In cure_dir (fs w') /\
    Forall (fun file =>
              exists name,
                file = cure_dir +++ String OsPath.sep name /\
                Str.contains name OsPath.sep = false) files.
Proof.
  intros Hfolder Hrun.
  pose proof (download_videos_grows _ _ _ _ _ _ Hrun) as Hgrow.
  revert Hrun. unfold _download_videos. unfold bind at 1.
  destruct (make_cure_dir env folder w) as [[c | e] w1] eqn:Hdir;
    [| discriminate].
  destruct (make_cure_dir_path _ _ _ _ _ Hfolder Hdir)
    as (Hc & Hbelow & Hnew & Hin).
  unfold bind at 1.
  destruct (YoutubeDL_download env _ url w1) as [[rc | e] w2] eqn:Hdl;
    [| discriminate].
  assert (Hfs2 : incl (fs w1) (fs w2)).
  { exact (proj1 (logs_YoutubeDL_download env _ url (fun _ => True)
                    (fun _ => I) _ _ _ Hdl)). }
  destruct (negb (rc =? 0)).
  { intros H. inversion H; subst files w'.
    exists c. split; [exact Hc |]. split; [exact Hnew |].
    split; [apply Hfs2; exact Hin | constructor]. }
  unfold bind, Os.listdir, ret.
  destruct (Os.exists_ c w2); [| discriminate].
  intros H. inversion H; subst files w'. clear H. simpl fs.
  exists c. split; [exact Hc |]. split; [exact Hnew |].
  split; [apply Hfs2; exact Hin |].
  apply Forall_forall. intros file Hfile. apply in_map_iff in Hfile.
  destruct Hfile as (name & <- & Hname). apply In_order_by in Hname.
  apply entries_names in Hname. destruct Hname as (Hne & Hsep).
  destruct name as [| x r]; [contradiction |].
  assert (Hx : x <> OsPath.sep).
  { simpl in Hsep. apply orb_false_iff in Hsep. destruct Hsep as [Hx _].
    apply Ascii.eqb_neq. exact Hx. }
  assert (Hcne : c <> ""%string).
  { rewrite Hc. apply append_nonempty.
    destruct (uuid_str_head (uuid4 env w)) as (y & t & -> & _). discriminate. }
  rewrite (join_relative c r x Hcne Hx), Hbelow, append_assoc.
  exists (String x r). split; [reflexivity | exact Hsep].
Qed.

(** X13. The URLs of a job never share a folder, also when a URL comes
    twice: a fetch that returns has made its folder, and a later fetch of
    the job that returns has made another one, so that no file is returned
    for both. *)
Theorem fetches_never_share_a_folder
    (env : Env) (folder url1 url2 : string) (between : list string)
    (w w1 w2 w3 : World) (files1 files_between files2 : list string) :
  folder <> ""%string ->
  _download_videos env folder url1 w = (Return files1, w1) ->
  flat_mapM (fun url => _download_videos env folder url) between w1
    = (Return files_between, w2) ->
  _download_videos env folder url2 w2 = (Return files2, w3) ->
  OsPath.join folder (Uuid.str (uuid4 env w))
    <> OsPath.join folder (Uuid.str (uuid4 env w2)) /\
  forall file, In file files1 -> ~ In file files2.
Proof.
  intros Hfolder H1 Hmid H2.
  destruct (download_videos_files _ _ _ _ _ _ Hfolder H1)
    as (c1 & Hc1 & _ & Hin1 & Hf1).
  destruct (download_videos_files _ _ _ _ _ _ Hfolder H2)
    as (c2 & Hc2 & Hnew2 & _ & Hf2).
  assert (Hmid_grow : incl (fs w1) (fs w2)).
  { exact (proj1 (logs_flat_mapM _ between quiet
                    (logs_download_videos env folder) _ _ _ Hmid)). }
  assert (Hneq : c1 <> c2).
  { intros E. subst c2. rewrite <- E in Hnew2.
    apply Hmid_grow in Hin1. apply exists_true_in in Hin1.
    rewrite Hin1 in Hnew2. discriminate. }
  assert (Hjoin : forall wx,
            OsPath.join folder (Uuid.str (uuid4 env wx))
            = Os.below folder +++ Uuid.str (uuid4 env wx)).
  { intros wx. destruct (uuid_str_head (uuid4 env wx)) as (y & t & -> & Hy).
    apply join_relative; assumption. }
  split.
  - rewrite !Hjoin, <- Hc1, <- Hc2. exact Hneq.
  - intros file Hi1 Hi2.
    rewrite Forall_forall in Hf1, Hf2.
    destruct (Hf1 _ Hi1) as (n1 & E1 & Hn1).
    destruct (Hf2 _ Hi2) as (n2 & E2 & Hn2).
    apply Hneq. eapply last_sep_unique; [exact Hn1 | exact Hn2 |].
    rewrite <- E1, <- E2. reflexivity.
Qed.

Lemma fetches_folder_witness :
  Sample.folder <> ""%string /\
  fst (_download_videos Sample.env Sample.folder Sample.clip Sample.w1)
    = Return
        ["downloads/tmpk3x_9qab/00000000-0000-0000-0000-000000000001/output1.webm"%string;
         "downloads/tmpk3x_9qab/00000000-0000-0000-0000-000000000001/output2.mp4"%string] /\
  ~ In "downloads/tmpk3x_9qab/00000000-0000-0000-0000-000000000001/output1.webm"%string
      (match
         fst (_download_videos Sample.env Sample.folder Sample.clip
                (snd (_download_videos Sample.env Sample.folder Sample.clip
                        Sample.w1)))
       with
       | Return files => files
       | Raise _ => []
       end).
Proof.
  assert (Hf : Sample.folder <> ""%string) by discriminate.
  split; [exact Hf |]. split; [vm_compute; reflexivity |].
  pose (wA := snd (_download_videos Sample.env Sample.folder Sample.clip
                     Sample.w1)).
  assert (H1 : _download_videos Sample.env Sample.folder Sample.clip Sample.w1
               = (Return
                    ["downloads/tmpk3x_9qab/00000000-0000-0000-0000-000000000001/output1.webm"%string;
                     "downloads/tmpk3x_9qab/00000000-0000-0000-0000-000000000001/output2.mp4"%string],
                  wA))
    by (vm_compute; reflexivity).
  assert (H2 : _download_videos Sample.env Sample.folder Sample.clip wA
               = (Return
                    ["downloads/tmpk3x_9qab/00000000-0000-0000-0000-000000000004/output1.webm"%string;
                     "downloads/tmpk3x_9qab/00000000-0000-0000-0000-000000000004/output2.mp4"%string],
                  snd (_download_videos Sample.env Sample.folder Sample.clip
                         wA)))
    by (vm_compute; reflexivity).
  destruct (fetches_never_share_a_folder Sample.env Sample.folder Sample.clip
              Sample.clip [] Sample.w1 wA wA _ _ [] _ Hf H1 eq_refl H2)
    as (_ & Hdisj).
  fold wA. rewrite H2. apply Hdisj. left. reflexivity.
Defined.

(** ** Fetching ends before delivery starts *)

Lemma logs_download_videos_fetching env folder url :
  logs (_download_videos env folder url) fetching.
Proof.
  unfold _download_videos.
  apply logs_bind; [apply logs_make_cure_dir; exact (fun _ => I) |].
  intros cure_dir.
  apply logs_bind;
    [apply logs_YoutubeDL_download; exact (fun _ => I) | intros rc].
  destruct (negb _); [apply logs_ret |].
  apply logs_bind; [apply logs_listdir; exact (fun _ => I) |].
  intros names. apply logs_ret.
Qed.

Lemma logs_upload_video_delivering env video_file :
  logs (_upload_video env video_file) delivering.
Proof.
  unfold _upload_video.
  apply logs_bind.
  { unfold _ensure_compatibility.
    destruct (OsPath.splitext video_file) as [base ext].
    destruct (ext =? ".mp4")%string; [apply logs_ret |].
    apply logs_bind; [| intros _; apply logs_ret].
    unfold _convert_cure.
    apply logs_bind; [apply logs_Popen_wait; exact (fun _ => I) | intros st].
    destruct (negb _); [apply logs_raise | apply logs_ret]. }
  intros cure_path.
  apply logs_bind; [apply logs_telegram_upload_video; exact (fun _ => I) |].
  intros message.
  apply logs_bind; [apply logs_getitem | intros v].
  apply logs_bind; [apply logs_getitem | intros id; apply logs_ret].
Qed.

Lemma ytdl_urls_app (evs1 evs2 : list Event) :
  ytdl_urls (evs1 ++ evs2) = ytdl_urls evs1 ++ ytdl_urls evs2.
Proof. apply flat_map_app. Qed.

Lemma no_ytdl (evs : list Event) :
  Forall (fun ev => ytdl_urls [ev] = []) evs -> ytdl_urls evs = [].
Proof.
  induction 1 as [| ev evs Hev _ IH]; [reflexivity |].
  change (ytdl_urls (ev :: evs)) with (ytdl_urls ([ev] ++ evs)).
  rewrite ytdl_urls_app, Hev, IH. reflexivity.
Qed.

Lemma download_videos_ytdl env folder url w files w' :
  _download_videos env folder url w = (Return files, w') ->
  exists evs, log w' = log w ++ evs /\ ytdl_urls evs = [url].
Proof.
  unfold _download_videos. unfold bind at 1.
  destruct (make_cure_dir env folder w) as [[c | e] w1] eqn:Hdir;
    [| discriminate].
  destruct (logs_make_cure_dir env folder (fun ev => ytdl_urls [ev] = [])
              (fun _ => eq_refl) _ _ _ Hdir) as (_ & evs1 & Hl1 & H1).
  unfold bind at 1.
  destruct (YoutubeDL_download env _ url w1) as [[rc | e] w2] eqn:Hdl;
    [| discriminate].
  assert (Hl2 : exists r tmpl, log w2 = log w1 ++ [EvYtdl tmpl url r]).
  { revert Hdl. unfold YoutubeDL_download.
    destruct (ytdl_download env _ url w1) as [r written].
    intros H. inversion H; subst. simpl. eauto. }
  destruct Hl2 as (r & tmpl & Hl2).
  destruct (negb (rc =? 0)).
  - intros H. inversion H; subst.
    exists (evs1 ++ [EvYtdl tmpl url r]). split.
    + rewrite Hl2, Hl1, app_assoc. reflexivity.
    + rewrite ytdl_urls_app, (no_ytdl _ H1). reflexivity.
  - unfold bind at 1.
    destruct (Os.listdir env c w2) as [[names | e] w3] eqn:Hls;
      [| discriminate].
    destruct (logs_listdir env c (fun ev => ytdl_urls [ev] = [])
                (fun _ => eq_refl) _ _ _ Hls) as (_ & evs3 & Hl3 & H3).
    intros H. inversion H; subst.
    exists (evs1 ++ [EvYtdl tmpl url r] ++ evs3). split.
    + rewrite Hl3, Hl2, Hl1, <- !app_assoc. reflexivity.
    + rewrite !ytdl_urls_app, (no_ytdl _ H1), (no_ytdl _ H3). reflexivity.
Qed.

Lemma flat_mapM_ytdl env folder us w files w' :
  flat_mapM (fun url => _download_videos env folder url) us w
    = (Return files, w') ->
  exists evs, log w' = log w ++ evs /\ ytdl_urls evs = us.
Proof.
  revert w files. induction us as [| url us IH]; intros w files; simpl.
  - intros H. inversion H; subst. exists []. rewrite app_nil_r. auto.
  - unfold bind, ret.
    destruct (_download_videos env folder url w) as [[fs1 | e] w1] eqn:E1;
      [| discriminate].
    destruct (flat_mapM _ us w1) as [[fs2 | e] w2] eqn:E2; [| discriminate].
    intros H. inversion H; subst.
    destruct (download_videos_ytdl _ _ _ _ _ _ E1) as (evs1 & Hl1 & Hy1).
    destruct (IH _ _ E2) as (evs2 & Hl2 & Hy2).
    exists (evs1 ++ evs2). split.
    + rewrite Hl2, Hl1, app_assoc. reflexivity.
    + rewrite ytdl_urls_app, Hy1, Hy2. reflexivity.
Qed.

(** X14. A job runs in two phases that do not overlap: every URL is
    fetched before the first file is converted or uploaded, and nothing is
    fetched afterwards. The calls of a job are the making of the workspace,
    calls of the fetch step, calls of the normalise and upload steps, at
    most one reply, and the removal of the workspace; when a file was
    converted or uploaded, or a reply sent, yt-dlp was called once for each
    URL of the job, in their order. *)
Theorem fetching_ends_before_delivery_starts
    (env : Env) (payload : DownloadMessage) (w w1 w' : World)
    (folder : string) (outcome : Outcome Result) :
  mkdtemp env (_STORAGE_DIR env) w = (Return folder, w1) ->
  _handle_payload env payload w = (outcome, w') ->
  exists fetched delivered closing,
    log w' = log w ++ EvMkdir folder :: fetched ++ delivered ++ closing
                        ++ [EvRmtree folder] /\
    Forall fetching fetched /\
    Forall delivering delivered /\
    (closing = [] \/
     exists videos res,
       closing = [EvSendVideoGroup (chat_id payload) (message_id payload)
                    videos res]) /\
    (delivered <> [] \/ closing <> [] ->
     ytdl_urls fetched = urls payload).
Proof.
  intros Htmp. rewrite (handle_payload_run _ _ _ _ _ Htmp).
  destruct (mkdtemp_Return _ _ _ _ _ Htmp) as (Hw1 & _).
  assert (Hlog1 : log w1 = log w ++ [EvMkdir folder])
    by (rewrite Hw1; reflexivity).
  unfold bind at 1.
  destruct (flat_mapM _ (urls payload) w1) as [[files | e] w2] eqn:Hfetch.
  2:{ intros H. inversion H; subst.
      destruct (logs_flat_mapM _ (urls payload) fetching
                  (logs_download_videos_fetching env folder) _ _ _ Hfetch)
        as (_ & evs & Hlog & Hf).
      exists evs, [], []. split.
      - unfold Os.rmtree. simpl. rewrite Hlog, Hlog1.
        rewrite <- !app_assoc. reflexivity.
      - split; [exact Hf |]. split; [constructor |].
        split; [left; reflexivity |]. intros [Hn | Hn]; contradiction. }
  destruct (logs_flat_mapM _ (urls payload) fetching
              (logs_download_videos_fetching env folder) _ _ _ Hfetch)
    as (_ & evs_f & Hlog_f & Hf).
  destruct (flat_mapM_ytdl _ _ _ _ _ _ Hfetch) as (evs_f' & Hlog_f' & Hy).
  assert (evs_f' = evs_f).
  { rewrite Hlog_f in Hlog_f'. eapply app_inv_head. symmetry. exact Hlog_f'. }
  subst evs_f'.
  unfold bind at 1.
  destruct (mapM (_upload_video env) files w2) as [[ids | e] w3] eqn:Hup.
  2:{ intros H. inversion H; subst.
      destruct (logs_mapM _ files delivering
                  (logs_upload_video_delivering env) _ _ _ Hup)
        as (_ & evs & Hlog & Hd).
      exists evs_f, evs, []. split.
      - unfold Os.rmtree. simpl. rewrite Hlog, Hlog_f, Hlog1.
        rewrite <- !app_assoc. reflexivity.
      - split; [exact Hf |]. split; [exact Hd |].
        split; [left; reflexivity |]. intros _. exact Hy. }
  destruct (logs_mapM _ files delivering
              (logs_upload_video_delivering env) _ _ _ Hup)
    as (_ & evs_u & Hlog_u & Hd).
  rewrite reply_step. cbv zeta. intros H. inversion H; subst.
  exists evs_f, evs_u. eexists [_]. split.
  - unfold Os.rmtree. simpl log. rewrite Hlog_u, Hlog_f, Hlog1.
    rewrite <- !app_assoc. reflexivity.
  - split; [exact Hf |]. split; [exact Hd |].
    split; [right; eexists; eexists; reflexivity |]. intros _. exact Hy.
Qed.

Lemma phases_witness :
  mkdtemp Sample.env (_STORAGE_DIR Sample.env) Sample.w0
    = (Return Sample.folder, Sample.w1) /\
  exists fetched delivered closing,
    log (snd (_handle_payload Sample.env
                (Sample.job [Sample.clip; Sample.odd; Sample.clip])
                Sample.w0)) =
    log Sample.w0 ++ EvMkdir Sample.folder :: fetched ++ delivered ++ closing
                       ++ [EvRmtree Sample.folder] /\
    Forall fetching fetched /\
    Forall delivering delivered.
Proof.
  assert (Htmp : mkdtemp Sample.env (_STORAGE_DIR Sample.env) Sample.w0
                 = (Return Sample.folder, Sample.w1))
    by (vm_compute; reflexivity).
  split; [exact Htmp |].
  destruct (fetching_ends_before_delivery_starts Sample.env
              (Sample.job [Sample.clip; Sample.odd; Sample.clip])
              Sample.w0 Sample.w1 _ Sample.folder _ Htmp
              (surjective_pairing _))
    as (fetched & delivered & closing & Hlog & Hf & Hd & _).
  exists fetched, delivered, closing. auto.
Defined.
